(** * Cyber4All/entity: the CLARK entity classes, embedded and verified

    The development follows the TypeScript sources:
    - [learning-goal.ts]: class LearningGoal;
    - [lib/learning-object.ts]: class LearningObject with a repository, a
      public [date] setter and [serialize]/[unserialize];
    - [lib/learning-outcome.ts]: class LearningOutcome with a source
      snapshot and a tag, and, further down the same file, class
      StandardOutcome and class AssessmentPlan;
    - [lib/learning-outcome/learning-outcome.ts]: class LearningOutcome built
      from a partial object, with StandardOutcome mappings;
    - [.circleci/config.yml], from its line 199 on: the later class
      LearningObject, with levels, a status, children, a last-modified date
      kept by [updateDate], and [instantiate].

    Part I embeds the JavaScript values and built-ins the classes rely on
    (property access, [Set.has], [Array.prototype.splice],
    [Array.prototype.includes], [String.trim], [JSON.stringify],
    [JSON.parse], [Date.now]).  Part II embeds the
    classes.  Part III proves the lemmas about them, the next part states
    and proves the claims C1 to C10, and the final part proves further
    properties of the classes (X1 to X25). *)

From Stdlib Require Import ZArith NArith List String Ascii Bool Lia.
From Stdlib Require Import Decimal DecimalFacts DecimalZ.
From Equations Require Import Equations.
From Equations.Prop Require Import Logic.
Import ListNotations.
Local Open Scope string_scope.
Local Open Scope Z_scope.

(* ===================================================================== *)
(** * Part I: JavaScript values and built-ins                             *)
(* ===================================================================== *)

Module JS.

(** Run-time values.  Numbers are the integers (every number the classes
    compute is an integer: a tag, a length, a time in milliseconds); [VNum n]
    is the JavaScript number [n] when [n] is a safe integer, of magnitude
    below 2^53, and the embedding says nothing of the code on other
    numbers.  A string is a sequence of UTF-16 code units and a character
    of the model is a code unit below 256, so character 160 is the no-break
    space U+00A0.  An object is the list of its own properties in the order
    [Object.keys] lists them.  Class instances are not [value]s: they are
    the records of Part II. *)
Unset Elimination Schemes.
Inductive value : Type :=
| VUndefined
| VNull
| VBool (b : bool)
| VNum (n : Z)
| VStr (s : string)
| VArr (elems : list value)
| VObj (props : list (string * value)).
Set Elimination Schemes.

(** The constants of the [error-messages] modules, which are not part of the
    sources at hand, are kept symbolic: those of STANDARD_OUTCOME_ERRORS and
    LEARNING_OUTCOME_ERROR_MESSAGES first, those of LEARNING_OBJECT_ERRORS
    in a module of that name. *)
Module LEARNING_OBJECT_ERRORS.
Inductive t : Type :=
| INVALID_NAME
| INVALID_LENGTH (length : value)
| LEVEL_EXISTS (level : value)
| INVALID_LEVEL (level : value)
| INVALID_LEVELS
| INVALID_STATUS (status : value).
End LEARNING_OBJECT_ERRORS.

Inductive message : Type :=
| INVALID_AUTHOR
| INVALID_NAME
| INVALID_DATE
| INVALID_OUTCOME
| INVALID_BLOOM (bloom : value)
| INVALID_VERB (bloom verb : value)
| INVALID_TEXT
| LearningObjectError (m : LEARNING_OBJECT_ERRORS.t).

(** What a [throw] carries: the built-in [TypeError], [SyntaxError] and
    [RangeError] (the engine's answer to a recursion without end), a thrown
    string ([throw `...`]), or [new Error(message)].  [Unmodelled] is no
    exception of JavaScript: it marks an input on which the embedding does
    not follow the code (a JSON text with a number that is no safe integer
    or a code unit above 255, an instance whose prototype is replaced), and
    a result [Throw Unmodelled] says nothing about the code. *)
Inductive exn : Type :=
| TypeError
| SyntaxError
| RangeError
| ThrowString (s : string)
| ThrowError (m : message)
| Unmodelled.

Inductive result (A : Type) : Type :=
| Ok (a : A)
| Throw (e : exn).
Arguments Ok {A} a.
Arguments Throw {A} e.

Definition bind {A B : Type} (c : result A) (k : A -> result B) : result B :=
  match c with
  | Ok a => k a
  | Throw e => Throw e
  end.

Notation "x <- c ;; k" := (bind c (fun x => k))
  (at level 61, c at next level, right associativity).

(** [o.f] for a reference [o] that may be [null] or [undefined] ([None]). *)
Definition member {A B : Type} (o : option A) (f : A -> B) : result B :=
  match o with
  | Some a => Ok (f a)
  | None => Throw TypeError
  end.

(** Sequential [map] with a callback that may throw: the first exception
    aborts the traversal. *)
Fixpoint mapM {A B : Type} (f : A -> result B) (l : list A) : result (list B) :=
  match l with
  | [] => Ok []
  | a :: r =>
      bind (f a) (fun b => bind (mapM f r) (fun bs => Ok (b :: bs)))
  end.

(** ** Characters *)

Definition dquote : ascii := ascii_of_nat 34.
Definition backslash : ascii := ascii_of_nat 92.

Definition code (c : ascii) : N := N_of_ascii c.

(** ** ToString, ToBoolean *)

Fixpoint uint_chars (u : uint) : list ascii :=
  match u with
  | Nil => []
  | D0 d => "0"%char :: uint_chars d
  | D1 d => "1"%char :: uint_chars d
  | D2 d => "2"%char :: uint_chars d
  | D3 d => "3"%char :: uint_chars d
  | D4 d => "4"%char :: uint_chars d
  | D5 d => "5"%char :: uint_chars d
  | D6 d => "6"%char :: uint_chars d
  | D7 d => "7"%char :: uint_chars d
  | D8 d => "8"%char :: uint_chars d
  | D9 d => "9"%char :: uint_chars d
  end.

(** The safe integers, which a JavaScript number holds exactly. *)
Definition safe_integer (n : Z) : bool := Z.abs n <=? 9007199254740991.

(** Decimal text of an integer, as [Number.prototype.toString] and
    [JSON.stringify] print a safe integer. *)
Definition number_chars (n : Z) : list ascii :=
  match Z.to_int n with
  | Pos u => uint_chars u
  | Neg u => "-"%char :: uint_chars u
  end.

Fixpoint join (sep : string) (l : list string) : string :=
  match l with
  | [] => ""
  | [s] => s
  | s :: r => s ++ sep ++ join sep r
  end.

Fixpoint ToString (v : value) : string :=
  match v with
  | VUndefined => "undefined"
  | VNull => "null"
  | VBool true => "true"
  | VBool false => "false"
  | VNum n => string_of_list_ascii (number_chars n)
  | VStr s => s
  | VArr l =>
      join ","
        (map (fun e => match e with
                       | VUndefined | VNull => ""
                       | _ => ToString e
                       end) l)
  | VObj _ => "[object Object]"
  end.

Definition ToBoolean (v : value) : bool :=
  match v with
  | VUndefined | VNull => false
  | VBool b => b
  | VNum n => negb (n =? 0)
  | VStr s => negb (s =? "")%string
  | VArr _ | VObj _ => true
  end.

(** [a || b] on values. *)
Definition or_else (a b : value) : value := if ToBoolean a then a else b.

(** ** String.prototype.trim

    The white space and line terminators among the code units below 256:
    U+0009 to U+000D, the space U+0020 and the no-break space U+00A0. *)

Definition is_white_space (c : ascii) : bool :=
  let n := code c in
  ((9 <=? n) && (n <=? 13) || (n =? 32) || (n =? 160))%N.

Fixpoint trimStart (s : string) : string :=
  match s with
  | EmptyString => EmptyString
  | String c r => if is_white_space c then trimStart r else s
  end.

Fixpoint trimEnd (s : string) : string :=
  match s with
  | EmptyString => EmptyString
  | String c r =>
      let r' := trimEnd r in
      if is_white_space c && (r' =? "")%string then EmptyString
      else String c r'
  end.

Definition trim (s : string) : string := trimEnd (trimStart s).

(** ** Objects: own properties *)

Fixpoint lookup (k : string) (ps : list (string * value)) : option value :=
  match ps with
  | [] => None
  | (k', v) :: r => if (k =? k')%string then Some v else lookup k r
  end.

(** [o[k] = v] on the own properties. *)
Fixpoint set_prop (k : string) (v : value) (ps : list (string * value))
  : list (string * value) :=
  match ps with
  | [] => [(k, v)]
  | (k', v') :: r =>
      if (k =? k')%string then (k, v) :: r else (k', v') :: set_prop k v r
  end.

(** [delete o[k]]. *)
Definition delete (k : string) (ps : list (string * value))
  : list (string * value) :=
  filter (fun p => negb (k =? fst p)%string) ps.

(** [Object.keys(o)]. *)
Definition keys (ps : list (string * value)) : list string := map fst ps.

(** [o.k] for an object given by its own properties. *)
Definition prop (ps : list (string * value)) (k : string) : value :=
  match lookup k ps with
  | Some x => x
  | None => VUndefined
  end.

(** [v.k], for the property names the classes read.  Reading a property of
    [undefined] or [null] throws a [TypeError]; of the inherited properties
    only [length] of strings and arrays is modelled. *)
Definition get (v : value) (k : string) : result value :=
  match v with
  | VUndefined | VNull => Throw TypeError
  | VObj ps => Ok (prop ps k)
  | VStr s =>
      Ok (if (k =? "length")%string then VNum (Z.of_nat (String.length s))
          else VUndefined)
  | VArr l =>
      Ok (if (k =? "length")%string then VNum (Z.of_nat (List.length l))
          else VUndefined)
  | VBool _ | VNum _ => Ok VUndefined
  end.

(** [table[k]] for a table keyed by strings and given by its own
    properties: the key is converted to a string; [None] is no set, that is
    [undefined] or, under one of the names below, what the table
    inherits. *)
Fixpoint assoc {A : Type} (k : string) (table : list (string * A)) : option A :=
  match table with
  | [] => None
  | (k', a) :: r => if (k =? k')%string then Some a else assoc k r
  end.

Definition index {A : Type} (table : list (string * A)) (k : value) : option A :=
  assoc (ToString k) table.

(** The names an object literal inherits from [Object.prototype].  Under
    such a name a table without a property of its own holds a function, or
    the prototype itself under [__proto__]: it has no method [has], and
    [Array.from] makes of it an array that is empty or holds [undefined]. *)
Definition Object_prototype_names : list string :=
  ["constructor"; "hasOwnProperty"; "isPrototypeOf"; "propertyIsEnumerable";
   "toLocaleString"; "toString"; "valueOf"; "__defineGetter__";
   "__defineSetter__"; "__lookupGetter__"; "__lookupSetter__"; "__proto__"].

Definition inherited (k : value) : bool :=
  existsb (String.eqb (ToString k)) Object_prototype_names.

(** [v.map(f)]: [v] must be an array, anything else has no callable [map]. *)
Definition Array_map {B : Type} (f : value -> result B) (v : value)
  : result (list B) :=
  match v with
  | VArr l => mapM f l
  | _ => Throw TypeError
  end.

(** ** Equality, and Array.prototype.includes *)

(** [a === b].  Two objects or arrays are equal only as one and the same
    reference, which values do not record: the comparison is [false] for
    them, and the classes apply it where one side is a string. *)
Definition strict_equals (a b : value) : bool :=
  match a, b with
  | VUndefined, VUndefined | VNull, VNull => true
  | VBool x, VBool y => Bool.eqb x y
  | VNum x, VNum y => x =? y
  | VStr x, VStr y => (x =? y)%string
  | _, _ => false
  end.

(** [a.includes(v)]: the comparison differs from [===] on [NaN] only, which
    is no value of the model. *)
Definition Array_includes (a : list value) (v : value) : bool :=
  existsb (strict_equals v) a.

(** ** Set and Array built-ins on typed collections *)

(** [s.has(v)] for a [Set<string>]. *)
Definition Set_has (s : list string) (v : value) : bool :=
  match v with
  | VStr x => existsb (String.eqb x) s
  | _ => false
  end.

(** [Array.from(s)[0]]. *)
Definition Array_from_0 (s : list string) : value :=
  match s with
  | [] => VUndefined
  | x :: _ => VStr x
  end.

(** [Array.from(table[k])[0]] for a table of sets: the first element of the
    set the table has under [k]; [undefined] when [k] names what the table
    inherits; and a TypeError when [table[k]] is [undefined]. *)
Definition Array_from_entry_0 (table : list (string * list string)) (k : value)
  : result value :=
  match index table k with
  | Some set => Ok (Array_from_0 set)
  | None => if inherited k then Ok VUndefined else Throw TypeError
  end.

(** [a.push(x)]: the array after the call and the returned new length. *)
Definition push {A : Type} (a : list A) (x : A) : list A * Z :=
  ((a ++ [x])%list, Z.of_nat (List.length (a ++ [x])%list)).

(** [a.splice(i, 1)[0]]: the removed element ([None] is [undefined]) and the
    array after the call.  A negative [i] counts from the end; the start is
    clamped to the array. *)
Definition splice1 {A : Type} (i : Z) (a : list A) : option A * list A :=
  let len := Z.of_nat (List.length a) in
  let start := if i <? 0 then Z.max (len + i) 0 else Z.min i len in
  let k := Z.to_nat start in
  (nth_error a k, (firstn k a ++ skipn (S k) a)%list).

End JS.

(* ===================================================================== *)
(** * JSON.stringify and JSON.parse                                       *)
(* ===================================================================== *)

Module JSON.
Import JS.
Local Open Scope char_scope.
Local Open Scope list_scope.

(** ** Printing *)

Definition hex_digit (n : N) : ascii :=
  if (n <? 10)%N then ascii_of_N (48 + n) else ascii_of_N (87 + n).

(** QuoteJSONString, one character: the quote and the backslash are escaped,
    control characters get their short escape or a [\u00XX] escape. *)
Definition escape (c : ascii) : list ascii :=
  if Ascii.eqb c dquote then [backslash; dquote]
  else if Ascii.eqb c backslash then [backslash; backslash]
  else
    let n := code c in
    if (n =? 8)%N then [backslash; "b"]
    else if (n =? 9)%N then [backslash; "t"]
    else if (n =? 10)%N then [backslash; "n"]
    else if (n =? 12)%N then [backslash; "f"]
    else if (n =? 13)%N then [backslash; "r"]
    else if (n <? 32)%N then
      [backslash; "u"; "0"; "0"; hex_digit (n / 16); hex_digit (n mod 16)]
    else [c].

Fixpoint quote_chars (s : string) : list ascii :=
  match s with
  | EmptyString => []
  | String c r => escape c ++ quote_chars r
  end.

Definition quote (s : string) : list ascii :=
  dquote :: quote_chars s ++ [dquote].

Fixpoint commas (l : list (list ascii)) : list ascii :=
  match l with
  | [] => []
  | [t] => t
  | t :: r => t ++ "," :: commas r
  end.

(** The members of an object literal, printed with [f] as the printer of
    values: a property whose value is [undefined] is left out. *)
Definition members_with (f : value -> list ascii)
  : list (string * value) -> list (list ascii) :=
  fix members (ps : list (string * value)) : list (list ascii) :=
    match ps with
    | [] => []
    | (k, VUndefined) :: r => members r
    | (k, x) :: r => (quote k ++ ":" :: f x) :: members r
    end.

(** The JSON text of a value.  Inside an array [undefined] prints as
    [null]. *)
Fixpoint text_of (v : value) : list ascii :=
  match v with
  | VUndefined | VNull => ["n"; "u"; "l"; "l"]
  | VBool true => ["t"; "r"; "u"; "e"]
  | VBool false => ["f"; "a"; "l"; "s"; "e"]
  | VNum n => number_chars n
  | VStr s => quote s
  | VArr l => "[" :: commas (map text_of l) ++ ["]"]
  | VObj ps => "{" :: commas (members_with text_of ps) ++ ["}"]
  end.

(** [JSON.stringify(v)]: a string, or [undefined] for [undefined]. *)
Definition stringify (v : value) : value :=
  match v with
  | VUndefined => VUndefined
  | _ => VStr (string_of_list_ascii (text_of v))
  end.

(** ** Parsing *)

Definition parser (A : Type) : Type := list ascii -> option (A * list ascii).

Definition is_ws (c : ascii) : bool :=
  let n := code c in
  ((n =? 32) || (n =? 9) || (n =? 10) || (n =? 13))%N.

Fixpoint skip_ws (s : list ascii) : list ascii :=
  match s with
  | [] => []
  | c :: r => if is_ws c then skip_ws r else s
  end.

Definition hex_val (c : ascii) : option N :=
  let n := code c in
  if ((48 <=? n) && (n <=? 57))%N then Some (n - 48)%N
  else if ((97 <=? n) && (n <=? 102))%N then Some (n - 87)%N
  else if ((65 <=? n) && (n <=? 70))%N then Some (n - 55)%N
  else None.

(** The character of a [\uXXXX] escape; a code unit above 255 lies outside
    the characters of the model and gives [None], which [parse] below tells
    from a malformed text. *)
Definition unicode_escape (a b c d : ascii) : option ascii :=
  match hex_val a, hex_val b, hex_val c, hex_val d with
  | Some x, Some y, Some z, Some w =>
      if ((x =? 0) && (y =? 0))%N then Some (ascii_of_N (16 * z + w)) else None
  | _, _, _, _ => None
  end.

Definition simple_escape (e : ascii) : option ascii :=
  if Ascii.eqb e dquote then Some dquote
  else if Ascii.eqb e backslash then Some backslash
  else
    match e with
    | "/" => Some "/"
    | "b" => Some (ascii_of_N 8)
    | "t" => Some (ascii_of_N 9)
    | "n" => Some (ascii_of_N 10)
    | "f" => Some (ascii_of_N 12)
    | "r" => Some (ascii_of_N 13)
    | _ => None
    end.

Definition cons_char (c : ascii) (p : option (string * list ascii))
  : option (string * list ascii) :=
  match p with
  | Some (s, r) => Some (String c s, r)
  | None => None
  end.

(** The characters of a string literal after its opening quote, up to and
    including the closing quote. *)
Fixpoint parse_chars (s : list ascii) : option (string * list ascii) :=
  match s with
  | [] => None
  | c :: r =>
      if Ascii.eqb c dquote then Some (EmptyString, r)
      else if Ascii.eqb c backslash then
        match r with
        | [] => None
        | e :: r1 =>
            match simple_escape e with
            | Some c' => cons_char c' (parse_chars r1)
            | None =>
                match e, r1 with
                | "u", h1 :: h2 :: h3 :: h4 :: r2 =>
                    match unicode_escape h1 h2 h3 h4 with
                    | Some c' => cons_char c' (parse_chars r2)
                    | None => None
                    end
                | _, _ => None
                end
            end
        end
      else if (code c <? 32)%N then None
      else cons_char c (parse_chars r)
  end.

Definition digit_of (c : ascii) : option (uint -> uint) :=
  match c with
  | "0" => Some D0 | "1" => Some D1 | "2" => Some D2 | "3" => Some D3
  | "4" => Some D4 | "5" => Some D5 | "6" => Some D6 | "7" => Some D7
  | "8" => Some D8 | "9" => Some D9
  | _ => None
  end.

Fixpoint read_digits (s : list ascii) : uint * list ascii :=
  match s with
  | [] => (Nil, [])
  | c :: r =>
      match digit_of c with
      | Some d => let (u, r') := read_digits r in (d u, r')
      | None => (Nil, s)
      end
  end.

Definition leading_zero (u : uint) : bool :=
  match u with
  | D0 Nil => false
  | D0 _ => true
  | _ => false
  end.

(** Integer literals: an optional minus sign and digits without a leading
    zero.  A fraction, an exponent, an integer that is not safe (which
    [JSON.parse] would round) or the negative zero [-0] lies outside the
    numbers of the model and gives [None], which [parse] below tells from a
    malformed text. *)
Definition parse_number (s : list ascii) : option (Z * list ascii) :=
  let (neg, s1) := match s with
                   | "-" :: r => (true, r)
                   | _ => (false, s)
                   end in
  match read_digits s1 with
  | (Nil, _) => None
  | (u, r) =>
      if leading_zero u then None
      else
        match r with
        | "." :: _ | "e" :: _ | "E" :: _ => None
        | _ =>
            let n := if neg then (- Z.of_uint u)%Z else Z.of_uint u in
            if safe_integer n && negb (neg && (n =? 0)%Z) then Some (n, r)
            else None
        end
  end.

Fixpoint parse_elements (pv : parser value) (n : nat) (s : list ascii)
  : option (list value * list ascii) :=
  match n with
  | O => None
  | S n' =>
      match pv s with
      | None => None
      | Some (v, r) =>
          match skip_ws r with
          | "," :: r1 =>
              match parse_elements pv n' r1 with
              | Some (vs, r2) => Some (v :: vs, r2)
              | None => None
              end
          | "]" :: r1 => Some ([v], r1)
          | _ => None
          end
      end
  end.

(** Members are stored with [set_prop]: a repeated key keeps its first
    position and its last value. *)
Fixpoint parse_members (pv : parser value) (n : nat) (s : list ascii)
    (acc : list (string * value)) : option (list (string * value) * list ascii) :=
  match n with
  | O => None
  | S n' =>
      match skip_ws s with
      | "034" :: r =>
          match parse_chars r with
          | None => None
          | Some (k, r1) =>
              match skip_ws r1 with
              | ":" :: r2 =>
                  match pv r2 with
                  | None => None
                  | Some (v, r3) =>
                      match skip_ws r3 with
                      | "," :: r4 => parse_members pv n' r4 (set_prop k v acc)
                      | "}" :: r4 => Some (set_prop k v acc, r4)
                      | _ => None
                      end
                  end
              | _ => None
              end
          end
      | _ => None
      end
  end.

Definition tag_value {A : Type} (f : A -> value) (p : option (A * list ascii))
  : option (value * list ascii) :=
  match p with
  | Some (a, r) => Some (f a, r)
  | None => None
  end.

(** Recursive descent; [fuel] bounds the nesting depth and the number of
    elements of one array or object. *)
Fixpoint parse_value (fuel : nat) (s : list ascii) : option (value * list ascii) :=
  match fuel with
  | O => None
  | S f =>
      match skip_ws s with
      | "n" :: "u" :: "l" :: "l" :: r => Some (VNull, r)
      | "t" :: "r" :: "u" :: "e" :: r => Some (VBool true, r)
      | "f" :: "a" :: "l" :: "s" :: "e" :: r => Some (VBool false, r)
      | "034" :: r => tag_value VStr (parse_chars r)
      | "[" :: r =>
          match skip_ws r with
          | "]" :: r1 => Some (VArr [], r1)
          | _ => tag_value VArr (parse_elements (parse_value f) f r)
          end
      | "{" :: r =>
          match skip_ws r with
          | "}" :: r1 => Some (VObj [], r1)
          | _ => tag_value VObj (parse_members (parse_value f) f r [])
          end
      | s' => tag_value VNum (parse_number s')
      end
  end.

(** A whole text: one value, then only white space.  The text has more
    characters than it has nested values or elements, so its length is fuel
    enough. *)
Definition parse_text (s : string) : option value :=
  let cs := list_ascii_of_string s in
  match parse_value (S (List.length cs)) cs with
  | Some (v, r) => match skip_ws r with [] => Some v | _ => None end
  | None => None
  end.

(** A text that may hold JSON beyond the values of the model: a backslash
    before a [u] (an escape whose code unit may exceed 255), a digit before
    [.], [e] or [E] (a fraction or an exponent), sixteen digits in a row (an
    integer that may not be safe), or a minus sign before a [0] (a negative
    zero); [run] counts the digits just read. *)
Fixpoint beyond_model (run : nat) (s : list ascii) : bool :=
  match s with
  | [] => false
  | c :: r =>
      match digit_of c with
      | Some _ =>
          (15 <=? run)%nat
          || match r with
             | "." :: _ | "e" :: _ | "E" :: _ => true
             | _ => false
             end
          || beyond_model (S run) r
      | None =>
          (Ascii.eqb c backslash
           && match r with
              | "u" :: _ => true
              | _ => false
              end)
          || (Ascii.eqb c "-"
              && match r with
                 | "0" :: _ => true
                 | _ => false
                 end)
          || beyond_model O r
      end
  end.

(** [JSON.parse(t)]: the argument is converted to a string first.  A text
    the parser cannot read is malformed, and the code throws a SyntaxError,
    unless it may hold JSON beyond the model. *)
Definition parse (t : value) : result value :=
  match parse_text (ToString t) with
  | Some v => Ok v
  | None =>
      if beyond_model O (list_ascii_of_string (ToString t))
      then Throw Unmodelled
      else Throw SyntaxError
  end.

(** What [stringify] keeps of a value: a property that is [undefined] is
    left out, and an element that is [undefined] becomes [null]. *)
Definition kept_members (f : value -> value)
  : list (string * value) -> list (string * value) :=
  fix members (ps : list (string * value)) : list (string * value) :=
    match ps with
    | [] => []
    | (k, VUndefined) :: r => members r
    | (k, x) :: r => (k, f x) :: members r
    end.

Fixpoint kept (v : value) : value :=
  match v with
  | VUndefined => VNull
  | VArr l => VArr (map kept l)
  | VObj ps => VObj (kept_members kept ps)
  | _ => v
  end.

(** Values that [stringify] prints without loss: nothing [undefined] inside,
    no repeated key, and only safe integers for numbers. *)
Fixpoint nodup_keys (ks : list string) : bool :=
  match ks with
  | [] => true
  | k :: r => negb (existsb (String.eqb k) r) && nodup_keys r
  end.

Fixpoint clean (v : value) : bool :=
  match v with
  | VUndefined => false
  | VNum n => safe_integer n
  | VNull | VBool _ | VStr _ => true
  | VArr l => forallb clean l
  | VObj ps => nodup_keys (map fst ps) && forallb (fun p => clean (snd p)) ps
  end.

(** Test documents are written with ['] in place of the double quote. *)
Definition dq_of (c : ascii) : ascii := if Ascii.eqb c "'" then dquote else c.
Fixpoint doc (s : string) : string :=
  match s with
  | EmptyString => EmptyString
  | String c r => String (dq_of c) (doc r)
  end.

End JSON.

(* ===================================================================== *)
(** * Part II: the classes                                                *)
(* ===================================================================== *)

(** ** learning-goal.ts, lib/learning-object.ts, lib/learning-outcome.ts *)

Module Entity.
Import JS.

(** The state of an instance is a record of its private fields.  A field the
    code fills from parsed JSON or from a caller's object holds a [value]. *)

(** class LearningGoal.  The [_source] back-reference is the object whose
    [_goals] holds the goal. *)
Module LearningGoal.
Record t : Type := { _text : value }.
End LearningGoal.

(** class AssessmentPlan. *)
Module AssessmentPlan.
Record t : Type := { _sourceBloom : value; _plan : value; _text : value }.
End AssessmentPlan.

(** Modelled from the spec: class InstructionalStrategy is imported from
    [./instructional-strategy], which is not among the sources; the spec
    gives it the shape of AssessmentPlan (a bloom snapshot, a kind, a text). *)
Module InstructionalStrategy.
Record t : Type := { _sourceBloom : value; _instruction : value; _text : value }.
End InstructionalStrategy.

(** class LearningOutcome of lib/learning-outcome.ts.  [_source] is the object
    literal [{author, name, date}]; [injected] holds the properties admitted
    by the index signature [[key: string]: any]. *)
Module LearningOutcome.
Record t : Type := {
  _source : value;
  _tag : value;
  _bloom : value;
  _verb : value;
  _text : value;
  _mappings : value;
  _assessments : list AssessmentPlan.t;
  _strategies : list InstructionalStrategy.t;
  injected : list (string * value)
}.
End LearningOutcome.

(** class LearningObject.  [_author] is a [User], a plain object here. *)
Module LearningObject.
Record t : Type := {
  _author : value;
  _name : value;
  _date : value;
  _length : value;
  _goals : list LearningGoal.t;
  _outcomes : list LearningOutcome.t;
  _repository : value
}.
End LearningObject.

(** *** class LearningGoal *)

Definition LearningGoal_constructor {Source : Type} (source : Source)
  : LearningGoal.t :=
  {| LearningGoal._text := VStr "" |}.

Definition LearningGoal_text (g : LearningGoal.t) : value :=
  LearningGoal._text g.

Definition LearningGoal_set_text (text : value) (g : LearningGoal.t)
  : LearningGoal.t :=
  {| LearningGoal._text := text |}.

Definition LearningGoal_serialize (entity : LearningGoal.t) : value :=
  JSON.stringify (VObj [("text", LearningGoal_text entity)]).

Definition LearningGoal_unserialize {Source : Type} (msg : value)
    (parent : Source) : result LearningGoal.t :=
  bind (JSON.parse msg) (fun doc =>
  let entity := LearningGoal_constructor parent in
  bind (get doc "text") (fun text =>
  Ok (LearningGoal_set_text text entity))).

(** *** Tag search of the LearningOutcome constructor *)

(** [outcome.tag === this._tag], where [this._tag] is a number. *)
Definition tag_equals (outcome : LearningOutcome.t) (tag : Z) : bool :=
  match LearningOutcome._tag outcome with
  | VNum n => n =? tag
  | _ => false
  end.

(** One pass of the [for ... of] loop: [true] when it left through [break],
    that is when some outcome carries [tag]. *)
Fixpoint scan (outcomes : list LearningOutcome.t) (tag : Z) : bool :=
  match outcomes with
  | [] => false
  | outcome :: rest => if tag_equals outcome tag then true else scan rest tag
  end.

(** The outcomes whose tag is a number not below [tag]: each pass that
    breaks leaves one fewer of them for the next candidate. *)
Definition not_below (tag : Z) (outcome : LearningOutcome.t) : bool :=
  match LearningOutcome._tag outcome with
  | VNum n => tag <=? n
  | _ => false
  end.

Definition remaining (outcomes : list LearningOutcome.t) (tag : Z) : nat :=
  List.length (filter (not_below tag) outcomes).

Lemma remaining_mono (outcomes : list LearningOutcome.t) (tag : Z) :
  (remaining outcomes (tag + 1) <= remaining outcomes tag)%nat.
Proof.
  unfold remaining, not_below.
  induction outcomes as [|o r IH]; simpl; auto.
  destruct (LearningOutcome._tag o); simpl; auto.
  destruct (Z.leb_spec (tag + 1) n), (Z.leb_spec tag n); simpl; lia.
Qed.

Lemma scan_remaining (outcomes : list LearningOutcome.t) (tag : Z) :
  scan outcomes tag = true ->
  (remaining outcomes (tag + 1) < remaining outcomes tag)%nat.
Proof.
  induction outcomes as [|o r IH]; simpl; [discriminate|].
  pose proof (remaining_mono r tag) as Hm.
  unfold remaining, tag_equals, not_below in *. simpl.
  destruct (LearningOutcome._tag o); simpl; auto.
  destruct (Z.eqb_spec n tag) as [->|Hne].
  - intros _.
    destruct (Z.leb_spec (tag + 1) tag), (Z.leb_spec tag tag); simpl; lia.
  - intros H. specialize (IH H).
    destruct (Z.leb_spec (tag + 1) n), (Z.leb_spec tag n); simpl; lia.
Qed.

(** The [while (searching)] loop, from candidate [tag]: a pass that breaks
    increments the candidate and scans again from the top. *)
Equations? search (outcomes : list LearningOutcome.t) (tag : Z) : Z
  by wf (remaining outcomes tag) lt :=
  search outcomes tag with inspect (scan outcomes tag) := {
    | exist _ true _ => search outcomes (tag + 1)
    | exist _ false _ => tag }.
Proof. apply scan_remaining; assumption. Qed.

Section Classes.

(** The vocabularies of the taxonomy package: the sets [lengths] and
    [levels] in iteration order, and the table [verbs] from level to verb
    set. *)
Variable lengths : list string.
Variable levels : list string.
Variable verbs : list (string * list string).

(** Static methods the sources call and do not contain: the [instantiate] of
    the two child classes, and the [serialize] and [unserialize] of
    LearningOutcome that lib/learning-object.ts maps over its outcomes. *)
Variable AssessmentPlan_instantiate :
  LearningOutcome.t -> value -> result AssessmentPlan.t.
Variable InstructionalStrategy_instantiate :
  LearningOutcome.t -> value -> result InstructionalStrategy.t.
Variable LearningOutcome_serialize : LearningOutcome.t -> string.
Variable LearningOutcome_unserialize :
  value -> LearningObject.t -> result LearningOutcome.t.

(** *** class LearningOutcome (lib/learning-outcome.ts) *)

Import LearningOutcome.

Definition with_source (v : value) (o : LearningOutcome.t) : LearningOutcome.t :=
  Build_t v (_tag o) (_bloom o) (_verb o) (_text o) (_mappings o)
    (_assessments o) (_strategies o) (injected o).
Definition with_bloom (v : value) (o : LearningOutcome.t) : LearningOutcome.t :=
  Build_t (_source o) (_tag o) v (_verb o) (_text o) (_mappings o)
    (_assessments o) (_strategies o) (injected o).
Definition with_verb (v : value) (o : LearningOutcome.t) : LearningOutcome.t :=
  Build_t (_source o) (_tag o) (_bloom o) v (_text o) (_mappings o)
    (_assessments o) (_strategies o) (injected o).
Definition with_text (v : value) (o : LearningOutcome.t) : LearningOutcome.t :=
  Build_t (_source o) (_tag o) (_bloom o) (_verb o) v (_mappings o)
    (_assessments o) (_strategies o) (injected o).
Definition with_mappings (v : value) (o : LearningOutcome.t) : LearningOutcome.t :=
  Build_t (_source o) (_tag o) (_bloom o) (_verb o) (_text o) v
    (_assessments o) (_strategies o) (injected o).
Definition with_assessments (a : list AssessmentPlan.t) (o : LearningOutcome.t)
  : LearningOutcome.t :=
  Build_t (_source o) (_tag o) (_bloom o) (_verb o) (_text o) (_mappings o)
    a (_strategies o) (injected o).
Definition with_strategies (a : list InstructionalStrategy.t)
    (o : LearningOutcome.t) : LearningOutcome.t :=
  Build_t (_source o) (_tag o) (_bloom o) (_verb o) (_text o) (_mappings o)
    (_assessments o) a (injected o).
Definition with_injected (ps : list (string * value)) (o : LearningOutcome.t)
  : LearningOutcome.t :=
  Build_t (_source o) (_tag o) (_bloom o) (_verb o) (_text o) (_mappings o)
    (_assessments o) (_strategies o) ps.

Definition LearningOutcome_set_bloom (bloom : value) (o : LearningOutcome.t)
  : result LearningOutcome.t :=
  if Set_has levels bloom then Ok (with_bloom bloom o)
  else Throw (ThrowString (ToString bloom ++ " is not a valid Bloom taxon")).

Definition LearningOutcome_set_verb (verb : value) (o : LearningOutcome.t)
  : result LearningOutcome.t :=
  match index verbs (_bloom o) with
  | None => Throw TypeError
  | Some set =>
      if Set_has set verb then Ok (with_verb verb o)
      else Throw (ThrowString (ToString verb ++ " is not a valid verb for the "
                               ++ ToString (_bloom o) ++ " taxon"))
  end.

Definition LearningOutcome_set_text (text : value) (o : LearningOutcome.t)
  : result LearningOutcome.t :=
  Ok (with_text text o).

(** The constructor; [source] is [None] for a [null] or [undefined]
    argument.  The three reads of [source] come first, the guard
    [if (source)] after them. *)
Definition LearningOutcome_constructor (source : option LearningObject.t)
  : result LearningOutcome.t :=
  author <- member source LearningObject._author ;;
  name <- member source LearningObject._name ;;
  date <- member source LearningObject._date ;;
  let source_ := VObj [("author", author); ("name", name); ("date", date)] in
  let tag := 0 in
  let tag :=
    match source with
    | Some src => search (LearningObject._outcomes src) tag
    | None => tag
    end in
  let bloom := Array_from_0 levels in
  verb <- Array_from_entry_0 verbs bloom ;;
  Ok (Build_t source_ (VNum tag) bloom verb (VStr "") (VArr []) [] [] []).

(** [mapTo] returns what [push] returns. *)
Definition LearningOutcome_mapTo (mapping : value) (o : LearningOutcome.t)
  : result (Z * LearningOutcome.t) :=
  match _mappings o with
  | VArr a => let (a', n) := push a mapping in Ok (n, with_mappings (VArr a') o)
  | _ => Throw TypeError
  end.

Definition LearningOutcome_unmap (i : Z) (o : LearningOutcome.t)
  : result (option value * LearningOutcome.t) :=
  match _mappings o with
  | VArr a => let (x, a') := splice1 i a in Ok (x, with_mappings (VArr a') o)
  | _ => Throw TypeError
  end.

(** [outcome[key] = v], as [instantiate] uses it.  The module is strict
    code: writing a property that has only a getter throws a [TypeError];
    [bloom], [verb] and [text] go through their setters; [_source] is
    overwritten; any other key becomes an own property.  The key
    [__proto__] names the accessor every object inherits: the assignment
    creates no property, a primitive [v] is ignored, and an object, an array
    or [null] replaces the prototype of the outcome, which takes the
    accessors of the class away; the embedding does not follow the outcome
    from there.  The keys of the seven other private fields do not reach
    this function: [instantiate], its one caller, deletes them from the
    object before it copies the object's keys
    ([InstantiateFacts.copied_keys_unknown]). *)
Definition getter_only : list string :=
  ["source"; "tag"; "mappings"; "assessments"; "strategies";
   "author"; "name"; "date"; "outcome"].

Definition LearningOutcome_assign (key : string) (v : value)
    (o : LearningOutcome.t) : result LearningOutcome.t :=
  if (key =? "__proto__")%string then
    match v with
    | VNull | VArr _ | VObj _ => Throw Unmodelled
    | _ => Ok o
    end
  else if existsb (String.eqb key) getter_only then Throw TypeError
  else if (key =? "bloom")%string then LearningOutcome_set_bloom v o
  else if (key =? "verb")%string then LearningOutcome_set_verb v o
  else if (key =? "text")%string then LearningOutcome_set_text v o
  else if (key =? "_source")%string then Ok (with_source v o)
  else Ok (with_injected (set_prop key v (injected o)) o).

(** [instantiate(source, object)]: the result of the call and the own
    properties of [object] when the call ends. *)
Definition LearningOutcome_instantiate (source : option LearningObject.t)
    (object : list (string * value))
  : result LearningOutcome.t * list (string * value) :=
  match
    (outcome <- LearningOutcome_constructor source ;;
     let outcome :=
       Build_t (_source outcome) (prop object "_tag") (prop object "_bloom")
         (prop object "_verb") (prop object "_text") (prop object "_mappings")
         (_assessments outcome) (_strategies outcome) (injected outcome) in
     assessments <- Array_map (AssessmentPlan_instantiate outcome)
                      (prop object "_assessments") ;;
     let outcome := with_assessments assessments outcome in
     strategies <- Array_map (InstructionalStrategy_instantiate outcome)
                     (prop object "_strategies") ;;
     Ok (with_strategies strategies outcome))
  with
  | Throw e => (Throw e, object)
  | Ok outcome =>
      let object := delete "_tag" object in
      let object := delete "_bloom" object in
      let object := delete "_verb" object in
      let object := delete "_text" object in
      let object := delete "_mappings" object in
      let object := delete "_assessments" object in
      let object := delete "_strategies" object in
      (fold_left
         (fun acc key =>
            outcome <- acc ;; LearningOutcome_assign key (prop object key) outcome)
         (keys object) (Ok outcome),
       object)
  end.

(** *** class LearningObject (lib/learning-object.ts) *)

Import LearningObject.

Definition with_name (v : value) (o : LearningObject.t) : LearningObject.t :=
  LearningObject.Build_t (_author o) v (_date o) (_length o) (_goals o)
    (_outcomes o) (_repository o).
Definition with_date (v : value) (o : LearningObject.t) : LearningObject.t :=
  LearningObject.Build_t (_author o) (_name o) v (_length o) (_goals o)
    (_outcomes o) (_repository o).
Definition with_length (v : value) (o : LearningObject.t) : LearningObject.t :=
  LearningObject.Build_t (_author o) (_name o) (_date o) v (_goals o)
    (_outcomes o) (_repository o).
Definition with_goals (g : list LearningGoal.t) (o : LearningObject.t)
  : LearningObject.t :=
  LearningObject.Build_t (_author o) (_name o) (_date o) (_length o) g
    (_outcomes o) (_repository o).
Definition with_outcomes (l : list LearningOutcome.t) (o : LearningObject.t)
  : LearningObject.t :=
  LearningObject.Build_t (_author o) (_name o) (_date o) (_length o) (_goals o)
    l (_repository o).
Definition with_repository (v : value) (o : LearningObject.t) : LearningObject.t :=
  LearningObject.Build_t (_author o) (_name o) (_date o) (_length o) (_goals o)
    (_outcomes o) v.

(** The setters; a setter returns the object after the assignment. *)
Definition LearningObject_set_name (name : value) (o : LearningObject.t)
  : result LearningObject.t :=
  Ok (with_name name o).

Definition LearningObject_set_date (date : value) (o : LearningObject.t)
  : result LearningObject.t :=
  Ok (with_date date o).

Definition LearningObject_set_length (length : value) (o : LearningObject.t)
  : result LearningObject.t :=
  if Set_has lengths length then Ok (with_length length o)
  else Throw (ThrowString
                (ToString length ++ " is not a valid Learning Object class")).

Definition LearningObject_set_repository (repository : value)
    (o : LearningObject.t) : result LearningObject.t :=
  Ok (with_repository repository o).

Definition LearningObject_constructor (author : value) (name : value)
  : LearningObject.t :=
  let name := if negb (ToBoolean name) then VStr "" else name in
  LearningObject.Build_t author name (VStr "") (Array_from_0 lengths) [] []
    (VObj [("files", VArr []); ("urls", VArr []); ("notes", VStr "")]).

(** [addGoal] and [addOutcome] return the new element, [removeGoal] and
    [removeOutcome] the removed one; each with the object after the call. *)
Definition LearningObject_addGoal (o : LearningObject.t)
  : LearningGoal.t * LearningObject.t :=
  let goal := LearningGoal_constructor o in
  (goal, with_goals (fst (push (_goals o) goal)) o).

Definition LearningObject_removeGoal (i : Z) (o : LearningObject.t)
  : option LearningGoal.t * LearningObject.t :=
  let (x, a) := splice1 i (_goals o) in (x, with_goals a o).

Definition LearningObject_addOutcome (o : LearningObject.t)
  : result (LearningOutcome.t * LearningObject.t) :=
  outcome <- LearningOutcome_constructor (Some o) ;;
  Ok (outcome, with_outcomes (fst (push (_outcomes o) outcome)) o).

Definition LearningObject_removeOutcome (i : Z) (o : LearningObject.t)
  : option LearningOutcome.t * LearningObject.t :=
  let (x, a) := splice1 i (_outcomes o) in (x, with_outcomes a o).

Definition LearningObject_serialize (entity : LearningObject.t) : value :=
  JSON.stringify
    (VObj [("name", _name entity);
           ("date", _date entity);
           ("length", _length entity);
           ("goals", VArr (map LearningGoal_serialize (_goals entity)));
           ("outcomes",
            VArr (map (fun a => VStr (LearningOutcome_serialize a))
                    (_outcomes entity)));
           ("repository", _repository entity)]).

Definition LearningObject_unserialize (msg : value) (parent : value)
  : result LearningObject.t :=
  doc <- JSON.parse msg ;;
  let entity := LearningObject_constructor parent VUndefined in
  name <- get doc "name" ;;
  let entity := with_name name entity in
  date <- get doc "date" ;;
  let entity := with_date date entity in
  length <- get doc "length" ;;
  let entity := with_length length entity in
  doc_goals <- get doc "goals" ;;
  goals <- Array_map (fun a => LearningGoal_unserialize a entity) doc_goals ;;
  let entity := with_goals goals entity in
  doc_outcomes <- get doc "outcomes" ;;
  outcomes <- Array_map (fun a => LearningOutcome_unserialize a entity)
                doc_outcomes ;;
  let entity := with_outcomes outcomes entity in
  repository <- get doc "repository" ;;
  Ok (with_repository repository entity).

End Classes.

(** *** class AssessmentPlan, and the assessments of a LearningOutcome
        (lib/learning-outcome.ts) *)

Section Assessments.

(** The table [assessments] of the taxonomy package, from level to the set
    of assessment plans. *)
Variable assessments : list (string * list string).

Definition AssessmentPlan_constructor (source : LearningOutcome.t)
  : result AssessmentPlan.t :=
  let sourceBloom := LearningOutcome._bloom source in
  plan <- Array_from_entry_0 assessments (LearningOutcome._bloom source) ;;
  Ok (AssessmentPlan.Build_t sourceBloom plan (VStr "")).

Definition AssessmentPlan_set_plan (plan : value) (a : AssessmentPlan.t)
  : result AssessmentPlan.t :=
  match index assessments (AssessmentPlan._sourceBloom a) with
  | None => Throw TypeError
  | Some set =>
      if Set_has set plan
      then Ok (AssessmentPlan.Build_t (AssessmentPlan._sourceBloom a) plan
                 (AssessmentPlan._text a))
      else Throw (ThrowString
                    (ToString plan ++ " is not a valid assessment plan for the "
                     ++ ToString (AssessmentPlan._sourceBloom a) ++ " taxon"))
  end.

Definition AssessmentPlan_set_text (text : value) (a : AssessmentPlan.t)
  : result AssessmentPlan.t :=
  Ok (AssessmentPlan.Build_t (AssessmentPlan._sourceBloom a)
        (AssessmentPlan._plan a) text).

(** [addAssessment] returns the new plan, [removeAssessment] and
    [removeStrategy] the removed element; each with the outcome after the
    call. *)
Definition LearningOutcome_addAssessment (o : LearningOutcome.t)
  : result (AssessmentPlan.t * LearningOutcome.t) :=
  assessment <- AssessmentPlan_constructor o ;;
  Ok (assessment,
      with_assessments (fst (push (LearningOutcome._assessments o) assessment)) o).

Definition LearningOutcome_removeAssessment (i : Z) (o : LearningOutcome.t)
  : option AssessmentPlan.t * LearningOutcome.t :=
  let (x, a) := splice1 i (LearningOutcome._assessments o) in
  (x, with_assessments a o).

Definition LearningOutcome_removeStrategy (i : Z) (o : LearningOutcome.t)
  : option InstructionalStrategy.t * LearningOutcome.t :=
  let (x, a) := splice1 i (LearningOutcome._strategies o) in
  (x, with_strategies a o).

End Assessments.

(** *** The getters of LearningOutcome for the Outcome interface *)

Definition LearningOutcome_author (o : LearningOutcome.t) : result value :=
  author <- get (LearningOutcome._source o) "author" ;;
  get author "name".

Definition LearningOutcome_name (o : LearningOutcome.t) : result value :=
  get (LearningOutcome._source o) "name".

Definition LearningOutcome_date (o : LearningOutcome.t) : result value :=
  get (LearningOutcome._source o) "date".

Definition LearningOutcome_outcome (o : LearningOutcome.t) : string :=
  ToString (LearningOutcome._verb o) ++ " " ++ ToString (LearningOutcome._text o).

End Entity.

(** ** lib/learning-outcome/learning-outcome.ts and the StandardOutcome class
       it imports *)

Module Outcomes.
Import JS.

(** class StandardOutcome, as lib/learning-outcome.ts has it below its
    LearningOutcome: setters that validate, and getters that all return
    [_author]. *)
Module StandardOutcome.
Record t : Type := {
  _author : string;
  _name : string;
  _date : string;
  _outcome : string
}.
(** [Partial<StandardOutcome>]: what reading the four properties of the
    constructor's argument yields, [VUndefined] for an absent one. *)
Record Partial : Type := {
  author : value;
  name : value;
  date : value;
  outcome : value
}.
End StandardOutcome.

(** class LearningOutcome of lib/learning-outcome/learning-outcome.ts. *)
Module LearningOutcome.
Record t : Type := {
  id : value;
  _bloom : value;
  _verb : value;
  _text : value;
  _mappings : list StandardOutcome.t
}.
(** [Partial<LearningOutcome>]; [mappings] is [None] when absent. *)
Record Partial : Type := {
  bloom : value;
  verb : value;
  text : value;
  mappings : option (list StandardOutcome.t)
}.
End LearningOutcome.

(** *** class StandardOutcome *)

(** The test [x && x.trim()] of the four setters: [Ok (Some s)] when [x] is
    the string [s] and both [s] and its trimmed form are non-empty,
    [Ok None] when the test is falsy; a truthy [x] that is not a string has
    no [trim] method. *)
Definition present_and_trimmed (x : value) : result (option string) :=
  if ToBoolean x then
    match x with
    | VStr s => Ok (if ToBoolean (VStr (trim s)) then Some s else None)
    | _ => Throw TypeError
    end
  else Ok None.

Import StandardOutcome.

(** The getters: [name], [date] and [outcome] return [_author] as [author]
    does. *)
Definition StandardOutcome_author (o : StandardOutcome.t) : string := _author o.
Definition StandardOutcome_name (o : StandardOutcome.t) : string := _author o.
Definition StandardOutcome_date (o : StandardOutcome.t) : string := _author o.
Definition StandardOutcome_outcome (o : StandardOutcome.t) : string := _author o.

Definition StandardOutcome_set_author (author : value) (o : StandardOutcome.t)
  : result StandardOutcome.t :=
  ok <- present_and_trimmed author ;;
  match ok with
  | Some s => Ok (StandardOutcome.Build_t s (_name o) (_date o) (_outcome o))
  | None => Throw (ThrowError INVALID_AUTHOR)
  end.

Definition StandardOutcome_set_name (name : value) (o : StandardOutcome.t)
  : result StandardOutcome.t :=
  ok <- present_and_trimmed name ;;
  match ok with
  | Some s => Ok (StandardOutcome.Build_t (_author o) s (_date o) (_outcome o))
  | None => Throw (ThrowError INVALID_NAME)
  end.

Definition StandardOutcome_set_date (date : value) (o : StandardOutcome.t)
  : result StandardOutcome.t :=
  ok <- present_and_trimmed date ;;
  match ok with
  | Some s => Ok (StandardOutcome.Build_t (_author o) (_name o) s (_outcome o))
  | None => Throw (ThrowError INVALID_DATE)
  end.

Definition StandardOutcome_set_outcome (outcome : value) (o : StandardOutcome.t)
  : result StandardOutcome.t :=
  ok <- present_and_trimmed outcome ;;
  match ok with
  | Some s => Ok (StandardOutcome.Build_t (_author o) (_name o) (_date o) s)
  | None => Throw (ThrowError INVALID_OUTCOME)
  end.

(** [copyOutcome]: each truthy property is assigned through its setter. *)
Definition StandardOutcome_copyOutcome (outcome : StandardOutcome.Partial)
    (o : StandardOutcome.t) : result StandardOutcome.t :=
  o <- (if ToBoolean (author outcome)
        then StandardOutcome_set_author (author outcome) o else Ok o) ;;
  o <- (if ToBoolean (name outcome)
        then StandardOutcome_set_name (name outcome) o else Ok o) ;;
  o <- (if ToBoolean (date outcome)
        then StandardOutcome_set_date (date outcome) o else Ok o) ;;
  if ToBoolean (StandardOutcome.outcome outcome)
  then StandardOutcome_set_outcome (StandardOutcome.outcome outcome) o
  else Ok o.

(** The constructor; [None] is an omitted (or otherwise falsy) argument. *)
Definition StandardOutcome_constructor (outcome : option StandardOutcome.Partial)
  : result StandardOutcome.t :=
  let this := StandardOutcome.Build_t "" "" "" "" in
  match outcome with
  | Some outcome => StandardOutcome_copyOutcome outcome this
  | None => Ok this
  end.

(** A StandardOutcome instance passed as the partial object is read through
    its getters. *)
Definition StandardOutcome_as_partial (o : StandardOutcome.t)
  : StandardOutcome.Partial :=
  {| author := VStr (StandardOutcome_author o);
     name := VStr (StandardOutcome_name o);
     date := VStr (StandardOutcome_date o);
     outcome := VStr (StandardOutcome_outcome o) |}.

(** *** class LearningOutcome *)

Section Classes.

Variable levels : list string.
Variable verbs : list (string * list string).

Import LearningOutcome.

Definition LearningOutcome_set_bloom (bloom : value) (o : LearningOutcome.t)
  : result LearningOutcome.t :=
  if ToBoolean bloom && Set_has levels bloom
  then Ok (LearningOutcome.Build_t (id o) bloom (_verb o) (_text o) (_mappings o))
  else Throw (ThrowError (INVALID_BLOOM bloom)).

Definition LearningOutcome_set_verb (verb : value) (o : LearningOutcome.t)
  : result LearningOutcome.t :=
  ok <- (if ToBoolean verb then
           match index verbs (_bloom o) with
           | Some set => Ok (Set_has set verb)
           | None => Throw TypeError
           end
         else Ok false) ;;
  if ok : bool
  then Ok (LearningOutcome.Build_t (id o) (_bloom o) verb (_text o) (_mappings o))
  else Throw (ThrowError (INVALID_VERB (_bloom o) verb)).

Definition LearningOutcome_set_text (text : value) (o : LearningOutcome.t)
  : result LearningOutcome.t :=
  match text with
  | VUndefined | VNull => Throw (ThrowError INVALID_TEXT)
  | VStr s =>
      Ok (LearningOutcome.Build_t (id o) (_bloom o) (_verb o) (VStr (trim s))
            (_mappings o))
  | _ => Throw TypeError
  end.

(** [mapTo] returns what [push] returns, less one. *)
Definition LearningOutcome_mapTo (mapping : StandardOutcome.t)
    (o : LearningOutcome.t) : Z * LearningOutcome.t :=
  let (a, n) := push (_mappings o) mapping in
  (n - 1, LearningOutcome.Build_t (id o) (_bloom o) (_verb o) (_text o) a).

Definition LearningOutcome_unmap (i : Z) (o : LearningOutcome.t)
  : option StandardOutcome.t * LearningOutcome.t :=
  let (x, a) := splice1 i (_mappings o) in
  (x, LearningOutcome.Build_t (id o) (_bloom o) (_verb o) (_text o) a).

Definition LearningOutcome_copyOutcome (outcome : LearningOutcome.Partial)
    (o : LearningOutcome.t) : result LearningOutcome.t :=
  o <- LearningOutcome_set_bloom (or_else (bloom outcome) (_bloom o)) o ;;
  o <- LearningOutcome_set_verb (or_else (verb outcome) (_verb o)) o ;;
  o <- LearningOutcome_set_text (or_else (text outcome) (_text o)) o ;;
  match mappings outcome with
  | Some l => Ok (fold_left (fun o m => snd (LearningOutcome_mapTo m o)) l o)
  | None => Ok o
  end.

Definition LearningOutcome_constructor (outcome : option LearningOutcome.Partial)
  : result LearningOutcome.t :=
  let bloom := Array_from_0 levels in
  verb <- Array_from_entry_0 verbs bloom ;;
  let this := LearningOutcome.Build_t VUndefined bloom verb (VStr "") [] in
  match outcome with
  | Some outcome => LearningOutcome_copyOutcome outcome this
  | None => Ok this
  end.

Definition LearningOutcome_instantiate (outcome : option LearningOutcome.Partial)
  : result LearningOutcome.t :=
  LearningOutcome_constructor outcome.

End Classes.

(** *** Instances as values

    The own properties of an instance, in the order in which its
    constructor creates them: what [JSON.stringify] is given when it is
    given the instance, and what stands for the instance where another
    class holds a reference to it.  [id] is declared without a value and is
    a property once it has been assigned. *)
Definition StandardOutcome_own (o : StandardOutcome.t) : value :=
  VObj [("_author", VStr (StandardOutcome._author o));
        ("_name", VStr (StandardOutcome._name o));
        ("_date", VStr (StandardOutcome._date o));
        ("_outcome", VStr (StandardOutcome._outcome o))].

Definition LearningOutcome_own (o : LearningOutcome.t) : value :=
  VObj ([("_bloom", LearningOutcome._bloom o);
         ("_verb", LearningOutcome._verb o);
         ("_text", LearningOutcome._text o);
         ("_mappings",
          VArr (map StandardOutcome_own (LearningOutcome._mappings o)))]
        ++ match LearningOutcome.id o with
           | VUndefined => []
           | id => [("id", id)]
           end)%list.

End Outcomes.

(** ** The later class LearningObject (.circleci/config.yml, from line 199) *)

Module Objects.
Import JS.

(** enum AcademicLevel: its keys and values in the order of declaration. *)
Definition AcademicLevel : list (string * string) :=
  [("Elementary", "elementary"); ("Middle", "middle"); ("High", "high");
   ("Undergraduate", "undergraduate"); ("Graduate", "graduate");
   ("PostGraduate", "post graduate"); ("CC", "community college");
   ("Training", "training")].

(** class LearningObject.  The arrays hold references to objects the class
    never looks into (goals, outcomes, child learning objects, users): an
    element is represented by the value of the object's own properties. *)
Module LearningObject.
Record t : Type := {
  _author : value;
  _name : value;
  _date : value;
  _length : value;
  _levels : list value;
  _goals : list value;
  _outcomes : list value;
  _materials : value;
  _metrics : value;
  _published : value;
  _children : list value;
  _contributors : list value;
  _lock : value;
  _collection : value;
  _status : value
}.
End LearningObject.

(** *** The clock

    [Date.now()] is read from a clock, the sequence [now] of its readings
    in milliseconds.  A computation that may read the clock takes the number
    of readings made before it and gives, with its result, the number made
    after it. *)
Definition M (A : Type) : Type := nat -> result (A * nat).

Definition ret {A : Type} (a : A) : M A := fun n => Ok (a, n).

Definition bindM {A B : Type} (c : M A) (k : A -> M B) : M B :=
  fun n =>
    match c n with
    | Ok (a, n') => k a n'
    | Throw e => Throw e
    end.

Notation "x <~ c ;; k" := (bindM c (fun x => k))
  (at level 61, c at next level, right associativity).

(** A computation that leaves the clock alone. *)
Definition lift {A : Type} (r : result A) : M A :=
  fun n =>
    match r with
    | Ok a => Ok (a, n)
    | Throw e => Throw e
    end.

Definition throw {A : Type} (e : exn) : M A := fun _ => Throw e.

Definition Date_now (now : nat -> Z) : M Z := fun n => Ok (now n, S n).

(** [a.map(x => f(x))] for a callback that changes [this] and whose results
    are dropped; anything but an array has no callable [map]. *)
Fixpoint foldM {A S : Type} (f : A -> S -> M S) (l : list A) (s : S) : M S :=
  match l with
  | [] => ret s
  | a :: r => s' <~ f a s ;; foldM f r s'
  end.

Definition Array_map_this {S : Type} (f : value -> S -> M S) (v : value)
    (this : S) : M S :=
  match v with
  | VArr l => foldM f l this
  | _ => throw TypeError
  end.

Import LearningObject.

Definition with_author (v : value) (o : LearningObject.t)
  : LearningObject.t :=
  Build_t v (_name o) (_date o) (_length o) (_levels o) (_goals o)
    (_outcomes o) (_materials o) (_metrics o) (_published o) (_children o)
    (_contributors o) (_lock o) (_collection o) (_status o).
Definition with_name (v : value) (o : LearningObject.t)
  : LearningObject.t :=
  Build_t (_author o) v (_date o) (_length o) (_levels o) (_goals o)
    (_outcomes o) (_materials o) (_metrics o) (_published o) (_children o)
    (_contributors o) (_lock o) (_collection o) (_status o).
Definition with_date (v : value) (o : LearningObject.t)
  : LearningObject.t :=
  Build_t (_author o) (_name o) v (_length o) (_levels o) (_goals o)
    (_outcomes o) (_materials o) (_metrics o) (_published o) (_children o)
    (_contributors o) (_lock o) (_collection o) (_status o).
Definition with_length (v : value) (o : LearningObject.t)
  : LearningObject.t :=
  Build_t (_author o) (_name o) (_date o) v (_levels o) (_goals o)
    (_outcomes o) (_materials o) (_metrics o) (_published o) (_children o)
    (_contributors o) (_lock o) (_collection o) (_status o).
Definition with_levels (v : list value) (o : LearningObject.t)
  : LearningObject.t :=
  Build_t (_author o) (_name o) (_date o) (_length o) v (_goals o)
    (_outcomes o) (_materials o) (_metrics o) (_published o) (_children o)
    (_contributors o) (_lock o) (_collection o) (_status o).
Definition with_goals (v : list value) (o : LearningObject.t)
  : LearningObject.t :=
  Build_t (_author o) (_name o) (_date o) (_length o) (_levels o) v
    (_outcomes o) (_materials o) (_metrics o) (_published o) (_children o)
    (_contributors o) (_lock o) (_collection o) (_status o).
Definition with_outcomes (v : list value) (o : LearningObject.t)
  : LearningObject.t :=
  Build_t (_author o) (_name o) (_date o) (_length o) (_levels o) (_goals o)
    v (_materials o) (_metrics o) (_published o) (_children o)
    (_contributors o) (_lock o) (_collection o) (_status o).
Definition with_materials (v : value) (o : LearningObject.t)
  : LearningObject.t :=
  Build_t (_author o) (_name o) (_date o) (_length o) (_levels o) (_goals o)
    (_outcomes o) v (_metrics o) (_published o) (_children o)
    (_contributors o) (_lock o) (_collection o) (_status o).
Definition with_metrics (v : value) (o : LearningObject.t)
  : LearningObject.t :=
  Build_t (_author o) (_name o) (_date o) (_length o) (_levels o) (_goals o)
    (_outcomes o) (_materials o) v (_published o) (_children o)
    (_contributors o) (_lock o) (_collection o) (_status o).
Definition with_published (v : value) (o : LearningObject.t)
  : LearningObject.t :=
  Build_t (_author o) (_name o) (_date o) (_length o) (_levels o) (_goals o)
    (_outcomes o) (_materials o) (_metrics o) v (_children o)
    (_contributors o) (_lock o) (_collection o) (_status o).
Definition with_children (v : list value) (o : LearningObject.t)
  : LearningObject.t :=
  Build_t (_author o) (_name o) (_date o) (_length o) (_levels o) (_goals o)
    (_outcomes o) (_materials o) (_metrics o) (_published o) v
    (_contributors o) (_lock o) (_collection o) (_status o).
Definition with_contributors (v : list value) (o : LearningObject.t)
  : LearningObject.t :=
  Build_t (_author o) (_name o) (_date o) (_length o) (_levels o) (_goals o)
    (_outcomes o) (_materials o) (_metrics o) (_published o) (_children o) v
    (_lock o) (_collection o) (_status o).
Definition with_lock (v : value) (o : LearningObject.t)
  : LearningObject.t :=
  Build_t (_author o) (_name o) (_date o) (_length o) (_levels o) (_goals o)
    (_outcomes o) (_materials o) (_metrics o) (_published o) (_children o)
    (_contributors o) v (_collection o) (_status o).
Definition with_collection (v : value) (o : LearningObject.t)
  : LearningObject.t :=
  Build_t (_author o) (_name o) (_date o) (_length o) (_levels o) (_goals o)
    (_outcomes o) (_materials o) (_metrics o) (_published o) (_children o)
    (_contributors o) (_lock o) v (_status o).
Definition with_status (v : value) (o : LearningObject.t)
  : LearningObject.t :=
  Build_t (_author o) (_name o) (_date o) (_length o) (_levels o) (_goals o)
    (_outcomes o) (_materials o) (_metrics o) (_published o) (_children o)
    (_contributors o) (_lock o) (_collection o) v.

(** *** class LearningObject *)

Section Classes.

(** The vocabularies the imported LearningOutcome takes from the taxonomy
    package. *)
Variable levels : list string.
Variable verbs : list (string * list string).

(** The readings of the clock. *)
Variable now : nat -> Z.

(** Constructors of classes that are not among the sources:
    [new User('', '', '', '', '')] and [new LearningGoal(text)], each giving
    the new object or throwing. *)
Variable User_constructor : result value.
Variable LearningGoal_constructor : value -> result value.

Definition error {A : Type} (m : LEARNING_OBJECT_ERRORS.t) : M A :=
  throw (ThrowError (LearningObjectError m)).

(** The getters answer with the private field. *)
Definition LearningObject_name (o : LearningObject.t) : value := _name o.
Definition LearningObject_date (o : LearningObject.t) : value := _date o.
Definition LearningObject_length (o : LearningObject.t) : value := _length o.
Definition LearningObject_status (o : LearningObject.t) : value := _status o.

(** [updateDate]: [this._date = Date.now().toString()]. *)
Definition updateDate (o : LearningObject.t) : M LearningObject.t :=
  t <~ Date_now now ;;
  ret (with_date (VStr (ToString (VNum t))) o).

(** The [name] setter.  A value that is neither a string nor [null] nor
    [undefined] has no method [trim]. *)
Definition LearningObject_set_name (name : value) (o : LearningObject.t)
  : M LearningObject.t :=
  match name with
  | VUndefined | VNull => error LEARNING_OBJECT_ERRORS.INVALID_NAME
  | VStr s => updateDate (with_name (VStr (trim s)) o)
  | _ => throw TypeError
  end.

(** [o.date = v] from outside the class: [date] has a getter and no setter.
    In strict code the assignment throws a TypeError, elsewhere it does
    nothing. *)
Definition LearningObject_set_date (strict : bool) (date : value)
    (o : LearningObject.t) : result LearningObject.t :=
  if strict then Throw TypeError else Ok o.

Definition validLengths : list value :=
  [VStr "nanomodule"; VStr "micromodule"; VStr "module"; VStr "unit";
   VStr "course"].

Definition acceptLength (length : value) : bool :=
  if Array_includes validLengths length then true else false.

Definition LearningObject_set_length (length : value) (o : LearningObject.t)
  : M LearningObject.t :=
  if acceptLength length then updateDate (with_length length o)
  else error (LEARNING_OBJECT_ERRORS.INVALID_LENGTH length).

(** [acceptLevel]: the pair [[alreadyAdded, isValid]]. *)
Definition validLevels : list value := map (fun kv => VStr (snd kv)) AcademicLevel.

Definition acceptLevel (level : value) (o : LearningObject.t) : bool * bool :=
  let alreadyAdded := Array_includes (_levels o) level in
  let isValid := Array_includes validLevels level in
  (alreadyAdded, isValid).

Definition LearningObject_addLevel (level : value) (o : LearningObject.t)
  : M LearningObject.t :=
  let (alreadyAdded, isValid) := acceptLevel level o in
  if negb alreadyAdded && isValid then
    updateDate (with_levels (fst (push (_levels o) level)) o)
  else if alreadyAdded then error (LEARNING_OBJECT_ERRORS.LEVEL_EXISTS level)
  else error (LEARNING_OBJECT_ERRORS.INVALID_LEVEL level).

(** [removeLevel] updates the date before it splices, whether or not the
    index meets a level. *)
Definition LearningObject_removeLevel (index : Z) (o : LearningObject.t)
  : M (option value * LearningObject.t) :=
  if 1 <? Z.of_nat (List.length (_levels o)) then
    o <~ updateDate o ;;
    let (x, a) := splice1 index (_levels o) in
    ret (x, with_levels a o)
  else error LEARNING_OBJECT_ERRORS.INVALID_LEVELS.

(** [addGoal], [addOutcome], [addChild] and [addContributor] return what
    [push] returns, less one; the [remove] methods return the removed
    element; each with the object after the call.  None of them reads the
    clock. *)
Definition LearningObject_addGoal (text : value) (o : LearningObject.t)
  : result (Z * LearningObject.t) :=
  goal <- LearningGoal_constructor text ;;
  let (a, n) := push (_goals o) goal in
  Ok (n - 1, with_goals a o).

Definition LearningObject_removeGoal (index : Z) (o : LearningObject.t)
  : option value * LearningObject.t :=
  let (x, a) := splice1 index (_goals o) in (x, with_goals a o).

(** [outcome || new LearningOutcome()]. *)
Definition LearningObject_addOutcome (outcome : value) (o : LearningObject.t)
  : result (Z * LearningObject.t) :=
  addingOutcome <-
    (if ToBoolean outcome then Ok outcome
     else new <- Outcomes.LearningOutcome_constructor levels verbs None ;;
          Ok (Outcomes.LearningOutcome_own new)) ;;
  let (a, n) := push (_outcomes o) addingOutcome in
  Ok (n - 1, with_outcomes a o).

Definition LearningObject_removeOutcome (index : Z) (o : LearningObject.t)
  : option value * LearningObject.t :=
  let (x, a) := splice1 index (_outcomes o) in (x, with_outcomes a o).

Definition LearningObject_set_materials (material : value)
    (o : LearningObject.t) : LearningObject.t :=
  with_materials material o.

Definition LearningObject_set_metrics (metrics : value) (o : LearningObject.t)
  : LearningObject.t :=
  with_metrics metrics o.

Definition LearningObject_addChild (object : value) (o : LearningObject.t)
  : Z * LearningObject.t :=
  let (a, n) := push (_children o) object in (n - 1, with_children a o).

Definition LearningObject_removeChild (index : Z) (o : LearningObject.t)
  : option value * LearningObject.t :=
  let (x, a) := splice1 index (_children o) in (x, with_children a o).

Definition LearningObject_addContributor (contributor : value)
    (o : LearningObject.t) : Z * LearningObject.t :=
  let (a, n) := push (_contributors o) contributor in
  (n - 1, with_contributors a o).

Definition LearningObject_removeContributor (index : Z) (o : LearningObject.t)
  : option value * LearningObject.t :=
  let (x, a) := splice1 index (_contributors o) in (x, with_contributors a o).

Definition LearningObject_set_lock (lock : value) (o : LearningObject.t)
  : LearningObject.t :=
  with_lock lock o.

Definition LearningObject_set_collection (collection : value)
    (o : LearningObject.t) : LearningObject.t :=
  with_collection collection o.

Definition validStatuses : list value :=
  [VStr "unpublished"; VStr "waiting"; VStr "reviewed"; VStr "denied";
   VStr "published"].

Definition acceptStatus (status : value) : bool :=
  if Array_includes validStatuses status then true else false.

(** The [status] setter and [publish].  With the status already
    [published] the setter calls [publish], whose first statement assigns
    the status again, which calls [publish] again: the calls nest without
    end and without a change of the object, and the engine ends them with a
    RangeError. *)
Definition LearningObject_set_status (status : value) (o : LearningObject.t)
  : result LearningObject.t :=
  if acceptStatus status then
    if strict_equals (LearningObject_status o) (VStr "published")
    then Throw RangeError
    else Ok (with_status status o)
  else Throw (ThrowError (LearningObjectError
                            (LEARNING_OBJECT_ERRORS.INVALID_STATUS status))).

Definition LearningObject_publish (o : LearningObject.t)
  : result LearningObject.t :=
  o <- LearningObject_set_status (VStr "published") o ;;
  Ok (with_published (VBool true) o).

Definition LearningObject_unpublish (o : LearningObject.t) : LearningObject.t :=
  with_published (VBool false) o.

(** [copyObject]; [object] is the argument as it is, read property by
    property. *)
Definition LearningObject_copyObject (object : value) (this : LearningObject.t)
  : M LearningObject.t :=
  author <~ lift (get object "author") ;;
  let this := with_author (or_else author (_author this)) this in
  name <~ lift (get object "name") ;;
  this <~ LearningObject_set_name (or_else name (LearningObject_name this))
            this ;;
  date <~ lift (get object "date") ;;
  let this := with_date (or_else date (LearningObject_date this)) this in
  length <~ lift (get object "length") ;;
  this <~ LearningObject_set_length
            (or_else length (LearningObject_length this)) this ;;
  object_levels <~ lift (get object "levels") ;;
  this <~ Array_map_this LearningObject_addLevel object_levels this ;;
  object_goals <~ lift (get object "goals") ;;
  this <~ Array_map_this
            (fun goal this =>
               lift (text <- get goal "text" ;;
                     r <- LearningObject_addGoal text this ;;
                     Ok (snd r)))
            object_goals this ;;
  object_outcomes <~ lift (get object "outcomes") ;;
  this <~ Array_map_this
            (fun outcome this =>
               lift (r <- LearningObject_addOutcome outcome this ;; Ok (snd r)))
            object_outcomes this ;;
  materials <~ lift (get object "materials") ;;
  let this :=
    LearningObject_set_materials (or_else materials (_materials this)) this in
  object_children <~ lift (get object "children") ;;
  this <~ Array_map_this
            (fun child this => ret (snd (LearningObject_addChild child this)))
            object_children this ;;
  object_contributors <~ lift (get object "contributors") ;;
  this <~ Array_map_this
            (fun contributor this =>
               ret (snd (LearningObject_addContributor contributor this)))
            object_contributors this ;;
  collection <~ lift (get object "collection") ;;
  let this :=
    LearningObject_set_collection (or_else collection (_collection this))
      this in
  status <~ lift (get object "status") ;;
  this <~ lift (LearningObject_set_status
                  (or_else status (LearningObject_status this)) this) ;;
  metrics <~ lift (get object "metrics") ;;
  let this :=
    LearningObject_set_metrics (or_else metrics (_metrics this)) this in
  published <~ lift (get object "published") ;;
  let this := with_published (or_else published (_published this)) this in
  lock <~ lift (get object "lock") ;;
  ret (LearningObject_set_lock (or_else lock (_lock this)) this).

(** The object before the constructor has assigned anything. *)
Definition unassigned : LearningObject.t :=
  Build_t VUndefined VUndefined VUndefined VUndefined [] [] [] VUndefined
    VUndefined VUndefined [] [] VUndefined VUndefined VUndefined.

(** The constructor; [object] is [undefined] when the argument is left
    out. *)
Definition LearningObject_constructor (object : value) : M LearningObject.t :=
  author <~ lift User_constructor ;;
  let this := with_author author unassigned in
  this <~ LearningObject_set_name (VStr "") this ;;
  t <~ Date_now now ;;
  let this := with_date (VStr (ToString (VNum t))) this in
  this <~ LearningObject_set_length (VStr "nanomodule") this ;;
  let this := with_levels [VStr "undergraduate"] this in
  let this := with_goals [] this in
  let this := with_outcomes [] this in
  let this :=
    LearningObject_set_materials
      (VObj [("files", VArr []); ("urls", VArr []); ("notes", VStr "");
             ("folderDescriptions", VArr []);
             ("pdf", VObj [("name", VStr ""); ("url", VStr "")])]) this in
  let this := with_children [] this in
  let this := with_contributors [] this in
  let this := LearningObject_set_collection (VStr "") this in
  this <~ lift (LearningObject_set_status (VStr "unpublished") this) ;;
  let this :=
    LearningObject_set_metrics
      (VObj [("saves", VNum 0); ("downloads", VNum 0)]) this in
  let this := with_published (VBool false) this in
  let this := LearningObject_set_lock VUndefined this in
  if ToBoolean object then LearningObject_copyObject object this
  else ret this.

Definition LearningObject_instantiate (object : value) : M LearningObject.t :=
  LearningObject_constructor object.

End Classes.

(** The own properties of an instance, in the order in which the
    constructor creates them: what [JSON.stringify] is given when it is
    given the instance. *)
Definition LearningObject_own (o : LearningObject.t) : value :=
  VObj [("_author", _author o);
        ("_name", _name o);
        ("_date", _date o);
        ("_length", _length o);
        ("_levels", VArr (_levels o));
        ("_goals", VArr (_goals o));
        ("_outcomes", VArr (_outcomes o));
        ("_materials", _materials o);
        ("_children", VArr (_children o));
        ("_contributors", VArr (_contributors o));
        ("_collection", _collection o);
        ("_status", _status o);
        ("_metrics", _metrics o);
        ("_published", _published o);
        ("_lock", _lock o)].

End Objects.

(** ** Sample data: a taxonomy, stand-ins for the absent static methods,
       and a few instances *)

Module Sample.
Import JS.

Definition lengths : list string :=
  ["nanomodule"; "micromodule"; "module"; "unit"; "course"].

Definition levels : list string := ["remember"; "apply"; "evaluate"].

Definition verbs : list (string * list string) :=
  [("remember", ["define"; "list"; "recall"]);
   ("apply", ["use"; "solve"]);
   ("evaluate", ["judge"; "defend"])].

Definition AssessmentPlan_instantiate (outcome : Entity.LearningOutcome.t)
    (a : value) : result Entity.AssessmentPlan.t :=
  plan <- get a "_plan" ;;
  text <- get a "_text" ;;
  Ok (Entity.AssessmentPlan.Build_t (Entity.LearningOutcome._bloom outcome)
        plan text).

Definition InstructionalStrategy_instantiate
    (outcome : Entity.LearningOutcome.t) (a : value)
  : result Entity.InstructionalStrategy.t :=
  instruction <- get a "_instruction" ;;
  text <- get a "_text" ;;
  Ok (Entity.InstructionalStrategy.Build_t
        (Entity.LearningOutcome._bloom outcome) instruction text).

Definition LearningOutcome_serialize (o : Entity.LearningOutcome.t) : string :=
  ToString
    (JSON.stringify
       (VObj [("tag", Entity.LearningOutcome._tag o);
              ("bloom", Entity.LearningOutcome._bloom o);
              ("verb", Entity.LearningOutcome._verb o);
              ("text", Entity.LearningOutcome._text o)])).

Definition LearningOutcome_unserialize (msg : value)
    (parent : Entity.LearningObject.t) : result Entity.LearningOutcome.t :=
  doc <- JSON.parse msg ;;
  o <- Entity.LearningOutcome_constructor levels verbs (Some parent) ;;
  tag <- get doc "tag" ;;
  bloom <- get doc "bloom" ;;
  verb <- get doc "verb" ;;
  text <- get doc "text" ;;
  Ok (Entity.LearningOutcome.Build_t (Entity.LearningOutcome._source o)
        tag bloom verb text (VArr []) [] [] []).

Definition author : value :=
  VObj [("id", VStr "u1"); ("name", VStr "Ada")].

(** An outcome as the constructor leaves it, with the given tag. *)
Definition outcome_tagged (tag : value) : Entity.LearningOutcome.t :=
  Entity.LearningOutcome.Build_t
    (VObj [("author", author); ("name", VStr "Networks"); ("date", VStr "")])
    tag (VStr "remember") (VStr "define") (VStr "") (VArr []) [] [] [].

(** A learning object with two goals and outcomes tagged 0, 2, 1, 5 and an
    outcome without a number for a tag. *)
Definition object : Entity.LearningObject.t :=
  Entity.LearningObject.Build_t author (VStr "Networks") (VStr "")
    (VStr "module")
    [Entity.LearningGoal.Build_t (VStr "know the layers");
     Entity.LearningGoal.Build_t (VStr "")]
    [outcome_tagged (VNum 0); outcome_tagged (VNum 2);
     outcome_tagged VUndefined; outcome_tagged (VNum 1);
     outcome_tagged (VNum 5)]
    (VObj [("files", VArr []); ("urls", VArr [VStr "http://x"]);
           ("notes", VStr "")]).

(** What the sample serializer and unserializer make of the outcomes of
    [object]: an outcome without a number for a tag loses the property. *)
Definition outcomes_read_back : list Entity.LearningOutcome.t :=
  [outcome_tagged (VNum 0); outcome_tagged (VNum 2);
   outcome_tagged VUndefined; outcome_tagged (VNum 1);
   outcome_tagged (VNum 5)].

(** The properties of an outcome as a store hands them over, with two
    properties of its own. *)
Definition properties : list (string * value) :=
  [("_tag", VNum 7); ("_bloom", VStr "apply"); ("_verb", VStr "use");
   ("_text", VStr "a packet sniffer"); ("_mappings", VArr []);
   ("_assessments",
    VArr [VObj [("_plan", VStr "essay"); ("_text", VStr "")]]);
   ("_strategies", VArr []);
   ("id", VStr "abc"); ("note", VNum 1)].




(** Assessment plans by level. *)
Definition assessments : list (string * list string) :=
  [("remember", ["quiz"; "test"]);
   ("apply", ["lab"; "project"]);
   ("evaluate", ["essay"])].

(** The no-break space U+00A0, as a string. *)
Definition nbsp : string := String (ascii_of_nat 160) EmptyString.

(** A StandardOutcome as the constructor without argument leaves it, and a
    partial object to construct one from. *)
Definition blank_standard : Outcomes.StandardOutcome.t :=
  Outcomes.StandardOutcome.Build_t "" "" "" "".

Definition partial_standard : Outcomes.StandardOutcome.Partial :=
  Outcomes.StandardOutcome.Build_Partial
    (VStr "NICE") (VStr "") VUndefined (VStr "Explain a firewall").

(** A partial learning outcome with a bloom, a verb of it and a mapping. *)
Definition partial_outcome : Outcomes.LearningOutcome.Partial :=
  Outcomes.LearningOutcome.Build_Partial
    (VStr "apply") (VStr "solve") (VStr "  a routing problem ")
    (Some [blank_standard]).

(** A clock that advances by a millisecond with every reading, and
    stand-ins for the constructors of User and LearningGoal that the later
    LearningObject calls. *)
Definition now (n : nat) : Z := 1541030400000 + Z.of_nat n.

Definition User_constructor : result value :=
  Ok (VObj [("_username", VStr ""); ("_name", VStr ""); ("_email", VStr "");
            ("_organization", VStr ""); ("_password", VStr "")]).

Definition LearningGoal_constructor (text : value) : result value :=
  Ok (VObj [("_text", text)]).

(** A LearningObject of the later class, with two levels and one goal. *)
Definition later_object : Objects.LearningObject.t :=
  Objects.LearningObject.Build_t
    (VObj [("_username", VStr "ada")]) (VStr "Networks")
    (VStr "1541030400000") (VStr "module")
    [VStr "undergraduate"; VStr "graduate"]
    [VObj [("_text", VStr "know the layers")]] []
    (VObj [("files", VArr []); ("urls", VArr []); ("notes", VStr "")])
    (VObj [("saves", VNum 0); ("downloads", VNum 0)]) (VBool false) [] []
    VUndefined (VStr "") (VStr "unpublished").

End Sample.

(* ===================================================================== *)
(** * Part III: properties                                                *)
(* ===================================================================== *)

(** ** JSON.parse inverts JSON.stringify *)

Module JSONFacts.
Import JS JSON.
Local Open Scope char_scope.
Local Open Scope list_scope.

(** Induction over values, with the elements of arrays and the property
    values of objects as premises. *)
Section ValueInd.
Variable P : value -> Prop.
Hypothesis Hundefined : P VUndefined.
Hypothesis Hnull : P VNull.
Hypothesis Hbool : forall b, P (VBool b).
Hypothesis Hnum : forall n, P (VNum n).
Hypothesis Hstr : forall s, P (VStr s).
Hypothesis Harr : forall l, Forall P l -> P (VArr l).
Hypothesis Hobj : forall ps, Forall (fun p => P (snd p)) ps -> P (VObj ps).

Fixpoint value_ind (v : value) : P v :=
  match v with
  | VUndefined => Hundefined
  | VNull => Hnull
  | VBool b => Hbool b
  | VNum n => Hnum n
  | VStr s => Hstr s
  | VArr l =>
      Harr l
        ((fix elems (l : list value) : Forall P l :=
            match l with
            | [] => Forall_nil P
            | x :: r => Forall_cons x (value_ind x) (elems r)
            end) l)
  | VObj ps =>
      Hobj ps
        ((fix fields (ps : list (string * value))
            : Forall (fun p => P (snd p)) ps :=
            match ps with
            | [] => Forall_nil _
            | p :: r => Forall_cons p (value_ind (snd p)) (fields r)
            end) ps)
  end.
End ValueInd.

(** *** Strings *)

Lemma parse_chars_escape (c : ascii) (r : list ascii) :
  parse_chars (escape c ++ r) = cons_char c (parse_chars r).
Proof.
  destruct c as [[] [] [] [] [] [] [] []]; reflexivity.
Qed.

Lemma parse_chars_quote (s : string) (r : list ascii) :
  parse_chars (quote_chars s ++ dquote :: r) = Some (s, r).
Proof.
  induction s as [|c s IH]; simpl.
  - reflexivity.
  - rewrite <- app_assoc, parse_chars_escape, IH. reflexivity.
Qed.

(** *** Numbers *)

Definition starts_with_digit (r : list ascii) : bool :=
  match r with
  | [] => false
  | c :: _ => match digit_of c with Some _ => true | None => false end
  end.

Lemma read_digits_uint_chars (u : uint) (r : list ascii) :
  starts_with_digit r = false ->
  read_digits (uint_chars u ++ r) = (u, r).
Proof.
  intros Hr. induction u; simpl; try (rewrite IHu; reflexivity).
  destruct r as [|c r]; [reflexivity|]. simpl in *.
  destruct (digit_of c); [discriminate|reflexivity].
Qed.

(** What may follow a value inside a text: nothing, or the comma or closing
    bracket of the enclosing array or object. *)
Definition delimited (r : list ascii) : bool :=
  match r with
  | [] => true
  | c :: _ => Ascii.eqb c "," || Ascii.eqb c "]" || Ascii.eqb c "}"
  end.

Lemma delimited_cases (r : list ascii) :
  delimited r = true ->
  r = [] \/ exists t, r = "," :: t \/ r = "]" :: t \/ r = "}" :: t.
Proof.
  destruct r as [|c t]; [now left|]. simpl. intros H. right. exists t.
  apply orb_true_iff in H. destruct H as [H|H].
  - apply orb_true_iff in H. destruct H as [H|H];
      apply Ascii.eqb_eq in H; subst; auto.
  - apply Ascii.eqb_eq in H; subst; auto.
Qed.

Lemma leading_zero_unorm (u : uint) : leading_zero (unorm u) = false.
Proof.
  unfold unorm. pose proof (nzhead_nonzero u) as H.
  destruct (nzhead u) as [|d|d|d|d|d|d|d|d|d|d]; try reflexivity.
  exfalso. apply (H d). reflexivity.
Qed.

Lemma leading_zero_nzhead (u : uint) : leading_zero (nzhead u) = false.
Proof.
  pose proof (nzhead_nonzero u) as H.
  destruct (nzhead u) as [|d|d|d|d|d|d|d|d|d|d]; try reflexivity.
  exfalso. apply (H d). reflexivity.
Qed.

(** The digits [Z.to_int] produces: at least one, and no leading zero. *)
Lemma to_int_normal (n : Z) :
  match Z.to_int n with
  | Pos u | Neg u => u <> Nil /\ leading_zero u = false
  end.
Proof.
  pose proof (DecimalZ.to_of (Z.to_int n)) as H.
  rewrite DecimalZ.of_to in H.
  destruct (Z.to_int n) as [u|u]; simpl in H.
  - injection H as H. rewrite H. split.
    + apply unorm_nonnil.
    + apply leading_zero_unorm.
  - destruct (nzhead u) eqn:E; try discriminate;
      injection H as H; rewrite <- E in H; rewrite H;
      (split; [rewrite E; discriminate | apply leading_zero_nzhead]).
Qed.

Lemma safe_integer_opp (n : Z) : safe_integer (- n) = safe_integer n.
Proof. unfold safe_integer. rewrite Z.abs_opp. reflexivity. Qed.

Lemma parse_number_uint (u : uint) (r : list ascii) :
  u <> Nil -> leading_zero u = false -> delimited r = true ->
  safe_integer (Z.of_uint u) = true ->
  parse_number (uint_chars u ++ r) = Some (Z.of_uint u, r) /\
  (Z.of_uint u <> 0 ->
   parse_number ("-" :: uint_chars u ++ r) = Some ((- Z.of_uint u)%Z, r)).
Proof.
  intros Hu Hz Hr Hsafe.
  assert (Hd : starts_with_digit r = false).
  { destruct (delimited_cases r Hr) as [->|[t [->|[->| ->]]]]; reflexivity. }
  pose proof (read_digits_uint_chars u r Hd) as Hread.
  assert (Htail : match r with
                  | "." :: _ | "e" :: _ | "E" :: _ => @None (Z * list ascii)
                  | _ => if safe_integer (Z.of_uint u)
                            && negb (false && (Z.of_uint u =? 0)%Z)
                         then Some (Z.of_uint u, r) else None
                  end = Some (Z.of_uint u, r)).
  { rewrite Hsafe.
    destruct (delimited_cases r Hr) as [->|[t [->|[->| ->]]]]; reflexivity. }
  assert (Htail' : Z.of_uint u <> 0 ->
                   match r with
                   | "." :: _ | "e" :: _ | "E" :: _ => @None (Z * list ascii)
                   | _ => if safe_integer (- Z.of_uint u)
                             && negb (true && (- Z.of_uint u =? 0)%Z)
                          then Some ((- Z.of_uint u)%Z, r) else None
                   end = Some ((- Z.of_uint u)%Z, r)).
  { intros Hnz. rewrite safe_integer_opp, Hsafe.
    assert (Hz0 : (- Z.of_uint u =? 0)%Z = false) by (apply Z.eqb_neq; lia).
    rewrite Hz0.
    destruct (delimited_cases r Hr) as [->|[t [->|[->| ->]]]]; reflexivity. }
  split.
  - unfold parse_number.
    assert (Hs : match uint_chars u ++ r with
                 | "-" :: r0 => (true, r0)
                 | _ => (false, uint_chars u ++ r)
                 end = (false, uint_chars u ++ r)).
    { destruct u; try reflexivity. congruence. }
    rewrite Hs, Hread, Hz.
    destruct u; try exact Htail. congruence.
  - intros Hnz. unfold parse_number. rewrite Hread, Hz.
    destruct u; try exact (Htail' Hnz). congruence.
Qed.

Lemma parse_number_chars (n : Z) (r : list ascii) :
  delimited r = true -> safe_integer n = true ->
  parse_number (number_chars n ++ r) = Some (n, r).
Proof.
  intros Hr Hsafe. unfold number_chars.
  pose proof (to_int_normal n) as Hn.
  pose proof (DecimalZ.of_to n) as Hof.
  destruct (Z.to_int n) as [u|u] eqn:E; destruct Hn as [Hu Hz]; simpl in Hof.
  - assert (Hs : safe_integer (Z.of_uint u) = true) by (rewrite Hof; exact Hsafe).
    destruct (parse_number_uint u r Hu Hz Hr Hs) as [Hp _].
    rewrite Hp, Hof. reflexivity.
  - assert (Hs : safe_integer (Z.of_uint u) = true).
    { rewrite <- safe_integer_opp. unfold Z.of_int in Hof. rewrite Hof.
      exact Hsafe. }
    destruct (parse_number_uint u r Hu Hz Hr Hs) as [_ Hm].
    assert (Hnz : Z.of_uint u <> 0).
    { unfold Z.of_int in Hof. destruct n; simpl in E; try discriminate.
      lia. }
    simpl. rewrite (Hm Hnz).
    unfold Z.of_int in Hof. rewrite Hof. reflexivity.
Qed.

(** *** Values *)

(** Fuel that suffices to parse the text of a value. *)
Fixpoint need (v : value) : nat :=
  match v with
  | VArr l => S (list_sum (map (fun e => S (need e)) l))
  | VObj ps => S (list_sum (map (fun p => S (need (snd p))) ps))
  | _ => 1
  end.

Definition roundtrips (v : value) : Prop :=
  forall fuel r, (need v <= fuel)%nat -> delimited r = true ->
  parse_value fuel (text_of v ++ r) = Some (v, r).

(** The characters a text can begin with. *)
Definition token_start (c : ascii) : bool :=
  existsb (Ascii.eqb c)
    ["n"; "t"; "f"; dquote; "["; "{"; "-";
     "0"; "1"; "2"; "3"; "4"; "5"; "6"; "7"; "8"; "9"].

Definition number_start (c : ascii) : bool :=
  existsb (Ascii.eqb c)
    ["-"; "0"; "1"; "2"; "3"; "4"; "5"; "6"; "7"; "8"; "9"].

Ltac char_cases H :=
  unfold token_start, number_start, existsb in H;
  repeat match type of H with
         | (_ || _)%bool = true =>
             apply orb_true_iff in H; destruct H as [H|H]
         end;
  try discriminate H; apply Ascii.eqb_eq in H; subst.

Lemma uint_chars_head (u : uint) :
  u <> Nil -> exists c t, uint_chars u = c :: t /\ number_start c = true.
Proof.
  destruct u; [congruence| | | | | | | | | |]; intros _;
    eexists; eexists; (split; [reflexivity|reflexivity]).
Qed.

Lemma number_chars_head (n : Z) :
  exists c t, number_chars n = c :: t /\ number_start c = true.
Proof.
  unfold number_chars. pose proof (to_int_normal n) as Hn.
  destruct (Z.to_int n) as [u|u]; destruct Hn as [Hu _].
  - apply uint_chars_head, Hu.
  - eexists; eexists; split; reflexivity.
Qed.

Lemma number_token (c : ascii) : number_start c = true -> token_start c = true.
Proof. intros H. char_cases H; reflexivity. Qed.

Lemma text_of_head (v : value) :
  exists c t, text_of v = c :: t /\ token_start c = true.
Proof.
  destruct v as [| |[]|n|s|l|ps];
    try (eexists; eexists; split; reflexivity).
  destruct (number_chars_head n) as (c & t & E & H).
  exists c, t. split; [exact E|apply number_token, H].
Qed.

Lemma skip_ws_token (c : ascii) (t : list ascii) :
  token_start c = true -> skip_ws (c :: t) = c :: t.
Proof. intros H. char_cases H; reflexivity. Qed.

Lemma skip_ws_delimited (r : list ascii) :
  delimited r = true -> skip_ws r = r.
Proof.
  intros H. destruct (delimited_cases r H) as [->|[t [->|[->| ->]]]];
    reflexivity.
Qed.

Lemma parse_value_number (f : nat) (c : ascii) (t : list ascii) :
  number_start c = true ->
  parse_value (S f) (c :: t) = tag_value VNum (parse_number (c :: t)).
Proof. intros H. char_cases H; reflexivity. Qed.

Lemma parse_value_array (f : nat) (c : ascii) (t : list ascii) :
  token_start c = true ->
  parse_value (S f) ("[" :: c :: t) =
  tag_value VArr (parse_elements (parse_value f) f (c :: t)).
Proof. intros H. char_cases H; reflexivity. Qed.

Lemma parse_value_object (f : nat) (t : list ascii) :
  parse_value (S f) ("{" :: dquote :: t) =
  tag_value VObj (parse_members (parse_value f) f (dquote :: t) []).
Proof. reflexivity. Qed.

Lemma commas_cons (t t' : list ascii) (ts : list (list ascii)) :
  commas (t :: t' :: ts) = t ++ "," :: commas (t' :: ts).
Proof. reflexivity. Qed.

Lemma list_sum_in (x : nat) (l : list nat) :
  In x l -> (x <= list_sum l)%nat.
Proof.
  induction l as [|y l IH]; simpl; [tauto|]. intros [->|H]; [lia|].
  specialize (IH H). lia.
Qed.

Lemma list_sum_length {A : Type} (g : A -> nat) (l : list A) :
  (List.length l <= list_sum (map (fun a => S (g a)) l))%nat.
Proof. induction l as [|a l IH]; simpl; lia. Qed.

(** Elements of a non-empty array, up to the closing bracket. *)
Lemma parse_elements_texts (l : list value) :
  Forall roundtrips l -> l <> [] ->
  forall f n r,
    Forall (fun e => (need e <= f)%nat) l -> (List.length l <= n)%nat ->
    parse_elements (parse_value f) n (commas (map text_of l) ++ "]" :: r)
    = Some (l, r).
Proof.
  induction 1 as [|e l He Hl IH]; [congruence|]. intros _ f n r Hf Hn.
  inversion Hf as [|? ? Hfe Hfl]; subst.
  destruct n as [|n]; [simpl in Hn; lia|].
  destruct l as [|e' l'].
  - simpl. rewrite (He f ("]" :: r) Hfe eq_refl). reflexivity.
  - change (map text_of (e :: e' :: l'))
      with (text_of e :: text_of e' :: map text_of l').
    rewrite commas_cons, <- app_assoc. simpl.
    rewrite (He f ("," :: _) Hfe eq_refl). simpl.
    change (text_of e' :: map text_of l') with (map text_of (e' :: l')).
    rewrite IH; [reflexivity|discriminate|exact Hfl|simpl in *; lia].
Qed.

(** Members of a non-empty object, up to the closing brace. *)
Definition member_text (p : string * value) : list ascii :=
  quote (fst p) ++ ":" :: text_of (snd p).

Lemma members_clean (ps : list (string * value)) :
  forallb (fun p => clean (snd p)) ps = true ->
  members_with text_of ps = map member_text ps.
Proof.
  induction ps as [|[k x] ps IH]; simpl; [reflexivity|].
  intros H. apply andb_true_iff in H. destruct H as [Hx Hps].
  rewrite (IH Hps). destruct x; try reflexivity. discriminate.
Qed.

Lemma set_prop_fresh (k : string) (v : value) (acc : list (string * value)) :
  existsb (String.eqb k) (map fst acc) = false ->
  set_prop k v acc = acc ++ [(k, v)].
Proof.
  induction acc as [|[k' v'] acc IH]; simpl; [reflexivity|].
  intros H. apply orb_false_iff in H. destruct H as [Hk Hacc].
  rewrite Hk, (IH Hacc). reflexivity.
Qed.

Lemma nodup_keys_app (l1 l2 : list string) (k : string) :
  nodup_keys (l1 ++ k :: l2) = true ->
  existsb (String.eqb k) l1 = false /\ nodup_keys ((l1 ++ [k]) ++ l2) = true.
Proof.
  rewrite <- app_assoc. simpl. intros H. split; [|exact H].
  induction l1 as [|a l1 IH]; simpl in *; [reflexivity|].
  apply andb_true_iff in H. destruct H as [Ha Hl].
  rewrite (IH Hl), orb_false_r.
  apply negb_true_iff in Ha. rewrite existsb_app in Ha.
  apply orb_false_iff in Ha. destruct Ha as [_ Ha]. simpl in Ha.
  apply orb_false_iff in Ha. destruct Ha as [Ha _].
  rewrite String.eqb_sym. exact Ha.
Qed.

Lemma parse_members_step (pv : parser value) (n : nat) (k : string)
    (s : list ascii) (acc : list (string * value)) :
  parse_members pv (S n) (quote k ++ ":" :: s) acc =
  match pv s with
  | None => None
  | Some (v, r3) =>
      match skip_ws r3 with
      | "," :: r4 => parse_members pv n r4 (set_prop k v acc)
      | "}" :: r4 => Some (set_prop k v acc, r4)
      | _ => None
      end
  end.
Proof.
  unfold quote. rewrite <- app_comm_cons, <- app_assoc.
  change (parse_members pv (S n) (dquote :: ?t) acc)
    with (match parse_chars t with
          | None => None
          | Some (k, r1) =>
              match skip_ws r1 with
              | ":" :: r2 =>
                  match pv r2 with
                  | None => None
                  | Some (v, r3) =>
                      match skip_ws r3 with
                      | "," :: r4 => parse_members pv n r4 (set_prop k v acc)
                      | "}" :: r4 => Some (set_prop k v acc, r4)
                      | _ => None
                      end
                  end
              | _ => None
              end
          end).
  change ([dquote] ++ ":" :: s) with (dquote :: ":" :: s).
  rewrite parse_chars_quote. reflexivity.
Qed.

Lemma parse_members_texts (ps : list (string * value)) :
  Forall (fun p => roundtrips (snd p)) ps -> ps <> [] ->
  forall f n r acc,
    Forall (fun p => (need (snd p) <= f)%nat) ps ->
    (List.length ps <= n)%nat ->
    nodup_keys (map fst (acc ++ ps)) = true ->
    parse_members (parse_value f) n
      (commas (map member_text ps) ++ "}" :: r) acc
    = Some (acc ++ ps, r).
Proof.
  induction 1 as [|[k x] ps Hx Hps IH]; [congruence|].
  intros _ f n r acc Hf Hn Hnd.
  inversion Hf as [|? ? Hfx Hfps]; subst. simpl in Hfx, Hx.
  destruct n as [|n]; [simpl in Hn; lia|].
  rewrite map_app in Hnd. simpl in Hnd.
  destruct (nodup_keys_app _ _ _ Hnd) as [Hfresh Hnd'].
  destruct ps as [|p' ps'].
  - simpl commas. unfold member_text at 1. simpl fst. simpl snd.
    rewrite <- app_assoc, <- app_comm_cons, parse_members_step.
    rewrite (Hx f ("}" :: r) Hfx eq_refl). simpl.
    rewrite (set_prop_fresh _ _ _ Hfresh). reflexivity.
  - change (map member_text ((k, x) :: p' :: ps'))
      with (member_text (k, x) :: member_text p' :: map member_text ps').
    rewrite commas_cons, <- app_assoc. unfold member_text at 1.
    simpl fst. simpl snd.
    rewrite <- app_assoc, <- app_comm_cons, parse_members_step.
    rewrite <- app_comm_cons.
    rewrite (Hx f ("," :: _) Hfx eq_refl). simpl skip_ws. cbv iota beta.
    change (member_text p' :: map member_text ps')
      with (map member_text (p' :: ps')).
    rewrite (set_prop_fresh _ _ _ Hfresh).
    rewrite IH; [|discriminate|exact Hfps|simpl in *; lia|].
    + rewrite <- app_assoc. reflexivity.
    + rewrite !map_app. exact Hnd'.
Qed.

Lemma Forall_forallb_clean {A : Type} (g : A -> value) (l : list A) :
  Forall (fun a => clean (g a) = true -> roundtrips (g a)) l ->
  forallb (fun a => clean (g a)) l = true ->
  Forall (fun a => roundtrips (g a)) l.
Proof.
  induction 1 as [|a l Ha Hl IH]; simpl; intros H; constructor;
    apply andb_true_iff in H; destruct H as [H1 H2]; auto.
Qed.

Lemma need_bound {A : Type} (g : A -> value) (l : list A) (f : nat) :
  (list_sum (map (fun a => S (need (g a))) l) <= f)%nat ->
  Forall (fun a => (need (g a) <= f)%nat) l /\ (List.length l <= f)%nat.
Proof.
  intros H. split.
  - apply Forall_forall. intros a Ha.
    assert (In (S (need (g a))) (map (fun a => S (need (g a))) l))
      by (apply in_map_iff; exists a; auto).
    apply list_sum_in in H0. lia.
  - pose proof (list_sum_length (fun a => need (g a)) l). lia.
Qed.

(** Parsing the text of a clean value returns the value and leaves what
    follows the text. *)
Lemma parse_value_text_of (v : value) : clean v = true -> roundtrips v.
Proof.
  induction v as [| |b|n|s|l IH|ps IH] using value_ind;
    intros Hc fuel r Hfuel Hr;
    (destruct fuel as [|f]; [simpl in Hfuel; lia|]).
  - discriminate.
  - reflexivity.
  - destruct b; reflexivity.
  - destruct (number_chars_head n) as (c & t & E & Hs).
    pose proof (parse_number_chars n r Hr Hc) as Hp.
    simpl text_of. rewrite E in *. rewrite <- app_comm_cons in *.
    rewrite (parse_value_number f c (t ++ r) Hs), Hp. reflexivity.
  - simpl text_of. unfold quote. rewrite <- app_comm_cons, <- app_assoc.
    change (parse_value (S f) (dquote :: ?t))
      with (tag_value VStr (parse_chars t)).
    change ([dquote] ++ r) with (dquote :: r).
    rewrite parse_chars_quote. reflexivity.
  - simpl in Hc, Hfuel. apply le_S_n in Hfuel.
    destruct (need_bound (fun e => e) l f Hfuel) as [Hf Hn].
    pose proof (Forall_forallb_clean (fun e => e) l IH Hc) as Hrt.
    destruct l as [|e l']; [reflexivity|].
    destruct (text_of_head e) as (c & t & E & Hs).
    change (text_of (VArr (e :: l')))
      with ("[" :: commas (map text_of (e :: l')) ++ ["]"]).
    rewrite <- app_comm_cons, <- app_assoc.
    assert (Hcs : exists t', commas (map text_of (e :: l')) ++ ["]"] ++ r
                             = c :: t').
    { destruct l' as [|e' l''].
      - simpl. rewrite E. eexists; reflexivity.
      - change (map text_of (e :: e' :: l''))
          with (text_of e :: text_of e' :: map text_of l'').
        rewrite commas_cons, E. eexists; reflexivity. }
    destruct Hcs as [t' Ht']. rewrite Ht'.
    rewrite (parse_value_array f c t' Hs), <- Ht'.
    change (["]"] ++ r) with ("]" :: r).
    rewrite (parse_elements_texts (e :: l') Hrt); auto; discriminate.
  - simpl in Hc, Hfuel. apply le_S_n in Hfuel.
    apply andb_true_iff in Hc. destruct Hc as [Hnd Hc].
    destruct (need_bound snd ps f Hfuel) as [Hf Hn].
    pose proof (Forall_forallb_clean snd ps IH Hc) as Hrt.
    change (text_of (VObj ps))
      with ("{" :: commas (members_with text_of ps) ++ ["}"]).
    rewrite (members_clean ps Hc).
    destruct ps as [|[k x] ps']; [reflexivity|].
    rewrite <- app_comm_cons, <- app_assoc.
    assert (Hcs : exists t', commas (map member_text ((k, x) :: ps'))
                             ++ ["}"] ++ r = dquote :: t').
    { destruct ps' as [|p' ps''].
      - simpl. eexists; reflexivity.
      - change (map member_text ((k, x) :: p' :: ps''))
          with (member_text (k, x) :: member_text p' :: map member_text ps'').
        rewrite commas_cons. eexists; reflexivity. }
    destruct Hcs as [t' Ht']. rewrite Ht'.
    rewrite (parse_value_object f t'), <- Ht'.
    change (["}"] ++ r) with ("}" :: r).
    rewrite (parse_members_texts ((k, x) :: ps') Hrt); auto; discriminate.
Qed.

Lemma commas_length (ts : list (list ascii)) :
  (list_sum (map (fun t => S (List.length t)) ts)
   <= S (List.length (commas ts)))%nat.
Proof.
  induction ts as [|t ts IH]; simpl; [lia|].
  destruct ts as [|t' ts']; simpl in *; [lia|].
  rewrite length_app. simpl. lia.
Qed.

Lemma list_sum_le {A : Type} (g h : A -> nat) (l : list A) :
  Forall (fun a => (g a <= h a)%nat) l ->
  (list_sum (map g l) <= list_sum (map h l))%nat.
Proof. induction 1; simpl; lia. Qed.

Lemma need_le_length (v : value) :
  clean v = true -> (need v <= List.length (text_of v))%nat.
Proof.
  induction v as [| |b|n|s|l IH|ps IH] using value_ind; intros Hc.
  - discriminate.
  - simpl. lia.
  - destruct b; simpl; lia.
  - destruct (number_chars_head n) as (c & t & E & _).
    simpl. rewrite E. simpl. lia.
  - simpl. lia.
  - simpl in *. rewrite length_app. simpl.
    pose proof (commas_length (map text_of l)) as Hl.
    rewrite map_map in Hl.
    assert (Hle : (list_sum (map (fun e => S (need e)) l)
                   <= list_sum (map (fun e => S (List.length (text_of e))) l))%nat).
    { apply list_sum_le. rewrite Forall_forall in *. intros e He.
      rewrite forallb_forall in Hc. specialize (IH e He (Hc e He)). lia. }
    lia.
  - simpl in *. apply andb_true_iff in Hc. destruct Hc as [_ Hc].
    rewrite (members_clean ps Hc), length_app. simpl.
    pose proof (commas_length (map member_text ps)) as Hl.
    rewrite map_map in Hl.
    assert (Hle : (list_sum (map (fun p => S (need (snd p))) ps)
                   <= list_sum (map (fun p => S (List.length (member_text p))) ps))%nat).
    { apply list_sum_le. rewrite Forall_forall in *. intros p Hp.
      rewrite forallb_forall in Hc. specialize (IH p Hp (Hc p Hp)).
      unfold member_text. rewrite length_app. simpl. lia. }
    lia.
Qed.

(** [JSON.parse(JSON.stringify(v))] is [v] for a clean value. *)
Lemma parse_stringify (v : value) :
  clean v = true -> parse (stringify v) = Ok v.
Proof.
  intros Hc. unfold parse, parse_text.
  assert (Hs : ToString (stringify v) = string_of_list_ascii (text_of v)).
  { destruct v; try reflexivity. discriminate. }
  rewrite Hs, list_ascii_of_string_of_list_ascii.
  pose proof (parse_value_text_of v Hc (S (List.length (text_of v))) []) as Hp.
  rewrite List.app_nil_r in Hp. rewrite Hp; [reflexivity| |reflexivity].
  pose proof (need_le_length v Hc). lia.
Qed.

(** *** What [stringify] leaves out *)

Lemma kept_defined (v : value) : kept v <> VUndefined.
Proof. destruct v; discriminate. Qed.

Lemma text_of_kept (v : value) : text_of (kept v) = text_of v.
Proof.
  induction v as [| |b|n|s|l IH|ps IH] using value_ind; try reflexivity.
  - assert (Hm : map text_of (map kept l) = map text_of l).
    { induction IH as [|e l He Hl IHl]; simpl; [reflexivity|].
      rewrite He, IHl. reflexivity. }
    simpl. rewrite Hm. reflexivity.
  - assert (Hm : members_with text_of (kept_members kept ps)
                 = members_with text_of ps).
    { induction IH as [|[k x] ps Hx Hps IHps]; simpl; [reflexivity|].
      simpl in Hx.
      destruct x as [| |b|n|s|l|qs]; try exact IHps;
        simpl; rewrite IHps; try reflexivity.
      - simpl in Hx. rewrite Hx. reflexivity.
      - simpl in Hx. rewrite Hx. reflexivity. }
    simpl. rewrite Hm. reflexivity.
Qed.

(** [JSON.parse(JSON.stringify(v))] is what [stringify] keeps of [v], when
    that is clean. *)
Lemma parse_stringify_kept (v : value) :
  v <> VUndefined -> clean (kept v) = true ->
  parse (stringify v) = Ok (kept v).
Proof.
  intros Hv Hc.
  assert (Hs : stringify v = stringify (kept v)).
  { unfold stringify. pose proof (kept_defined v) as Hk.
    rewrite text_of_kept.
    destruct v; try contradiction; reflexivity. }
  rewrite Hs. apply parse_stringify, Hc.
Qed.

Lemma lookup_kept_members (f : value -> value) (k : string)
    (ps : list (string * value)) :
  lookup k ps = None -> lookup k (kept_members f ps) = None.
Proof.
  induction ps as [|[k' x] ps IH]; simpl; [reflexivity|].
  destruct (k =? k')%string eqn:E; [discriminate|].
  intros H. destruct x; simpl; rewrite ?E; auto.
Qed.

End JSONFacts.

(** ** Tags of learning outcomes *)

Module TagFacts.
Import JS Entity.

(** The tags carried by the outcomes of a learning object. *)
Definition tags (source : LearningObject.t) : list value :=
  map LearningOutcome._tag (LearningObject._outcomes source).

(** [t] is the smallest non-negative integer that is not in [S]. *)
Definition least_unused (S : list value) (t : Z) : Prop :=
  0 <= t /\ ~ In (VNum t) S /\ forall k, 0 <= k < t -> In (VNum k) S.

(** Under a key of its own the table holds a set. *)
Lemma Array_from_entry_0_own (table : list (string * list string)) (k : value)
    (set : list string) :
  index table k = Some set ->
  Array_from_entry_0 table k = Ok (Array_from_0 set).
Proof. intros H. unfold Array_from_entry_0. rewrite H. reflexivity. Qed.

Lemma scan_In (outcomes : list LearningOutcome.t) (tag : Z) :
  scan outcomes tag = true <->
  In (VNum tag) (map LearningOutcome._tag outcomes).
Proof.
  induction outcomes as [|o r IH]; simpl.
  - split; [discriminate|tauto].
  - unfold tag_equals. destruct (LearningOutcome._tag o) as [| |b|n|s|l|ps];
      try (rewrite IH; split; [auto|intros [H|H]; [discriminate|exact H]]).
    destruct (Z.eqb_spec n tag) as [->|Hne].
    + split; auto.
    + rewrite IH. split; [auto|]. intros [H|H]; [congruence|exact H].
Qed.

(** The loop, unfolded once. *)
Lemma search_unfold (outcomes : list LearningOutcome.t) (tag : Z) :
  search outcomes tag =
  if scan outcomes tag then search outcomes (tag + 1) else tag.
Proof.
  funelim (search outcomes tag).
  - rewrite e. reflexivity.
  - rewrite e. reflexivity.
Qed.

(** The loop stops at the first candidate, from [tag] upwards, that no
    outcome carries. *)
Lemma search_first_free (outcomes : list LearningOutcome.t) (tag : Z) :
  tag <= search outcomes tag /\
  scan outcomes (search outcomes tag) = false /\
  forall k, tag <= k < search outcomes tag -> scan outcomes k = true.
Proof.
  funelim (search outcomes tag).
  - destruct H as (Hle & Hfree & Hbelow).
    repeat split; [lia|exact Hfree|].
    intros k Hk. destruct (Z.eq_dec k tag) as [->|Hne]; [exact e|].
    apply Hbelow. lia.
  - repeat split; [lia|exact e|]. intros k Hk. lia.
Qed.

End TagFacts.

(** ** Reconstruction of learning outcomes *)

Module InstantiateFacts.
Import JS Entity.

(** The properties [instantiate] knows and deletes. *)
Definition known_props : list string :=
  ["_tag"; "_bloom"; "_verb"; "_text"; "_mappings"; "_assessments";
   "_strategies"].

Definition known (k : string) : bool := existsb (String.eqb k) known_props.

(** An object without its known properties. *)
Definition strip (object : list (string * value)) : list (string * value) :=
  filter (fun p => negb (known (fst p))) object.

Lemma filter_filter {A : Type} (f g : A -> bool) (l : list A) :
  filter f (filter g l) = filter (fun a => g a && f a) l.
Proof.
  induction l as [|a l IH]; simpl; [reflexivity|].
  destruct (g a); simpl; [destruct (f a)|]; rewrite IH; reflexivity.
Qed.

Lemma deletes_strip (object : list (string * value)) :
  delete "_strategies"
    (delete "_assessments"
       (delete "_mappings"
          (delete "_text"
             (delete "_verb" (delete "_bloom" (delete "_tag" object))))))
  = strip object.
Proof.
  unfold delete, strip. rewrite !filter_filter. apply filter_ext.
  intros [k v]. unfold known, known_props, existsb, fst.
  rewrite !(String.eqb_sym k).
  destruct ("_tag" =? k)%string, ("_bloom" =? k)%string,
    ("_verb" =? k)%string, ("_text" =? k)%string,
    ("_mappings" =? k)%string, ("_assessments" =? k)%string,
    ("_strategies" =? k)%string; reflexivity.
Qed.

Lemma lookup_strip (k : string) (object : list (string * value)) :
  lookup k (strip object) = if known k then None else lookup k object.
Proof.
  induction object as [|[k' v] r IH]; simpl.
  - destruct (known k); reflexivity.
  - destruct (known k') eqn:Ek'; simpl.
    + rewrite IH. destruct (String.eqb_spec k k') as [->|Hne];
        [rewrite Ek'|]; reflexivity.
    + rewrite IH. destruct (String.eqb_spec k k') as [->|Hne];
        [rewrite Ek'|]; reflexivity.
Qed.

(** The keys left for the copy loop of [instantiate] are none of the known
    ones. *)
Lemma copied_keys_unknown (k : string) (object : list (string * value)) :
  In k (keys (strip object)) -> known k = false.
Proof.
  unfold keys, strip. rewrite in_map_iff. intros ([k' v] & <- & Hin).
  apply filter_In in Hin. destruct Hin as [_ Hk].
  apply negb_true_iff in Hk. exact Hk.
Qed.

Lemma known_In (k : string) : known k = true <-> In k known_props.
Proof.
  unfold known. rewrite existsb_exists. split.
  - intros (x & Hx & E). apply String.eqb_eq in E. subst. exact Hx.
  - intros H. exists k. split; [exact H|apply String.eqb_refl].
Qed.

Section Instantiate.
Variable levels : list string.
Variable verbs : list (string * list string).
Variable AssessmentPlan_instantiate :
  LearningOutcome.t -> value -> result AssessmentPlan.t.
Variable InstructionalStrategy_instantiate :
  LearningOutcome.t -> value -> result InstructionalStrategy.t.

Let instantiate :=
  LearningOutcome_instantiate levels verbs AssessmentPlan_instantiate
    InstructionalStrategy_instantiate.

(** The assignments of the first half of [instantiate], up to the two
    [map] calls. *)
Definition rebuilt (source : option LearningObject.t)
    (object : list (string * value)) : result LearningOutcome.t :=
  outcome <- LearningOutcome_constructor levels verbs source ;;
  let outcome :=
    LearningOutcome.Build_t (LearningOutcome._source outcome)
      (prop object "_tag") (prop object "_bloom") (prop object "_verb")
      (prop object "_text") (prop object "_mappings")
      (LearningOutcome._assessments outcome)
      (LearningOutcome._strategies outcome)
      (LearningOutcome.injected outcome) in
  assessments <- Array_map (AssessmentPlan_instantiate outcome)
                   (prop object "_assessments") ;;
  let outcome := with_assessments assessments outcome in
  strategies <- Array_map (InstructionalStrategy_instantiate outcome)
                  (prop object "_strategies") ;;
  Ok (with_strategies strategies outcome).

(** The copy of the remaining properties. *)
Definition copy_injected (object : list (string * value))
    (outcome : LearningOutcome.t) : result LearningOutcome.t :=
  fold_left
    (fun acc key =>
       outcome <- acc ;;
       LearningOutcome_assign levels verbs key (prop object key) outcome)
    (keys object) (Ok outcome).

Lemma instantiate_unfold (source : option LearningObject.t)
    (object : list (string * value)) :
  instantiate source object =
  match rebuilt source object with
  | Throw e => (Throw e, object)
  | Ok outcome => (copy_injected (strip object) outcome, strip object)
  end.
Proof.
  unfold instantiate, LearningOutcome_instantiate.
  fold (rebuilt source object).
  destruct (rebuilt source object); [|reflexivity].
  cbv zeta. rewrite deletes_strip. reflexivity.
Qed.

(** The constructor throws nothing but a TypeError. *)
Lemma constructor_throws (source : option LearningObject.t) (e : exn) :
  LearningOutcome_constructor levels verbs source = Throw e -> e = TypeError.
Proof.
  unfold LearningOutcome_constructor, Array_from_entry_0.
  destruct source as [src|]; simpl; [|congruence].
  destruct (index verbs (Array_from_0 levels)); simpl; [congruence|].
  destruct (inherited (Array_from_0 levels)); simpl; congruence.
Qed.

(** Without [_assessments] the first half throws a TypeError. *)
Lemma rebuilt_stripped (source : option LearningObject.t)
    (object : list (string * value)) :
  rebuilt source (strip object) = Throw TypeError.
Proof.
  unfold rebuilt.
  destruct (LearningOutcome_constructor levels verbs source) eqn:E; simpl.
  - unfold prop at 6. rewrite lookup_strip. reflexivity.
  - apply constructor_throws in E. subst. reflexivity.
Qed.


Lemma fold_assign_throw (object : list (string * value)) (ks : list string)
    (e : exn) :
  fold_left
    (fun acc key =>
       outcome <- acc ;;
       LearningOutcome_assign levels verbs key (prop object key) outcome)
    ks (Throw e) = Throw e.
Proof. induction ks as [|k ks IH]; simpl; auto. Qed.




End Instantiate.

End InstantiateFacts.

(** ** Serialization of learning objects *)

Module SerializeFacts.
Import JS Entity JSONFacts.

(** A learning object is valid for serialization when its fields hold JSON
    values: the name, the date, the length and the texts of the goals
    (strings, by their declared types) and the repository contain nothing
    [undefined] and no object with a repeated key. *)
Definition valid (obj : LearningObject.t) : bool :=
  JSON.clean (LearningObject._name obj) &&
  JSON.clean (LearningObject._date obj) &&
  JSON.clean (LearningObject._length obj) &&
  forallb (fun g => JSON.clean (LearningGoal._text g)) (LearningObject._goals obj) &&
  JSON.clean (LearningObject._repository obj).

(** The entity [unserialize] has built when it turns to the outcomes: the
    name, date, length and goals are in place, the outcomes are still empty
    and the repository is the constructor's. *)
Definition before_outcomes (lengths : list string) (parent : value)
    (obj : LearningObject.t) : LearningObject.t :=
  with_goals (LearningObject._goals obj)
    (with_length (LearningObject._length obj)
       (with_date (LearningObject._date obj)
          (with_name (LearningObject._name obj)
             (LearningObject_constructor lengths parent VUndefined)))).

Lemma stringify_string (v : value) :
  v <> VUndefined -> exists s, JSON.stringify v = VStr s.
Proof. destruct v; try (eexists; reflexivity). congruence. Qed.

Lemma goal_roundtrip {Source : Type} (g : LearningGoal.t) (parent : Source) :
  JSON.clean (LearningGoal._text g) = true ->
  LearningGoal_unserialize (LearningGoal_serialize g) parent = Ok g.
Proof.
  intros Hc. unfold LearningGoal_unserialize, LearningGoal_serialize.
  rewrite parse_stringify.
  - simpl. destruct g. reflexivity.
  - simpl. unfold LearningGoal_text. rewrite Hc. reflexivity.
Qed.

Lemma mapM_map {A B C : Type} (f : B -> result C) (h : A -> B)
    (l : list A) (l' : list C) :
  Forall2 (fun a c => f (h a) = Ok c) l l' -> mapM f (map h l) = Ok l'.
Proof.
  induction 1 as [|a c l l' Hac Hl IH]; simpl; [reflexivity|].
  rewrite Hac. simpl. rewrite IH. reflexivity.
Qed.

Lemma goals_roundtrip {Source : Type} (gs : list LearningGoal.t)
    (parent : Source) :
  forallb (fun g => JSON.clean (LearningGoal._text g)) gs = true ->
  Forall2 (fun g g' => LearningGoal_unserialize (LearningGoal_serialize g)
                         parent = Ok g') gs gs.
Proof.
  induction gs as [|g gs IH]; simpl; intros H; constructor;
    apply andb_true_iff in H; destruct H as [Hg Hgs].
  - apply goal_roundtrip, Hg.
  - apply IH, Hgs.
Qed.

Lemma mapM_map_eq {A B C : Type} (f : B -> result C) (h : A -> B)
    (l : list A) :
  mapM f (map h l) = mapM (fun a => f (h a)) l.
Proof.
  induction l as [|a l IH]; simpl; [reflexivity|]. rewrite IH. reflexivity.
Qed.

Lemma mapM_Forall2 {A B : Type} (f : A -> result B) (l : list A)
    (l' : list B) :
  mapM f l = Ok l' -> Forall2 (fun a b => f a = Ok b) l l'.
Proof.
  revert l'. induction l as [|a l IH]; simpl; intros l' H.
  - injection H as <-. constructor.
  - destruct (f a) as [b|] eqn:E; simpl in H; [|discriminate].
    destruct (mapM f l) as [bs|]; simpl in H; [|discriminate].
    injection H as <-. constructor; [exact E|]. apply IH. reflexivity.
Qed.

Lemma serialized_goals_clean (gs : list LearningGoal.t) :
  forallb JSON.clean (map LearningGoal_serialize gs) = true.
Proof. induction gs as [|g gs IH]; simpl; auto. Qed.

Lemma serialized_outcomes_clean {A : Type} (ser : A -> string) (l : list A) :
  forallb JSON.clean (map (fun a => VStr (ser a)) l) = true.
Proof. induction l as [|a l IH]; simpl; auto. Qed.

End SerializeFacts.

(** ** Standard outcomes *)

Module StandardOutcomeFacts.
Import JS Outcomes.

(** Empty, or white space only. *)
Fixpoint blank (s : string) : bool :=
  match s with
  | EmptyString => true
  | String c r => is_white_space c && blank r
  end.

Lemma trimStart_blank (s : string) :
  blank s = true -> trimStart s = EmptyString.
Proof.
  induction s as [|c r IH]; simpl; [reflexivity|].
  intros H. apply andb_true_iff in H. destruct H as [Hc Hr].
  rewrite Hc. apply IH, Hr.
Qed.

Lemma trimStart_not_blank (s : string) :
  blank s = false ->
  exists c r, trimStart s = String c r /\ is_white_space c = false.
Proof.
  induction s as [|c r IH]; simpl; [discriminate|].
  destruct (is_white_space c) eqn:E; simpl.
  - exact IH.
  - intros _. exists c, r. split; [reflexivity|exact E].
Qed.

(** [trim] leaves nothing exactly of the blank strings. *)
Lemma trim_empty_iff (s : string) :
  (trim s =? "")%string = blank s.
Proof.
  unfold trim. destruct (blank s) eqn:E.
  - rewrite (trimStart_blank s E). reflexivity.
  - destruct (trimStart_not_blank s E) as (c & r & -> & Hc).
    simpl. rewrite Hc. reflexivity.
Qed.

Lemma blank_empty_string (s : string) : (s =? "")%string = true -> blank s = true.
Proof. intros H. apply String.eqb_eq in H. subst. reflexivity. Qed.

(** The test of the setters, on strings. *)
Lemma present_and_trimmed_string (s : string) :
  present_and_trimmed (VStr s) = Ok (if blank s then None else Some s).
Proof.
  unfold present_and_trimmed. simpl. rewrite trim_empty_iff.
  destruct (s =? "")%string eqn:E; simpl.
  - rewrite (blank_empty_string s E). reflexivity.
  - destruct (blank s); reflexivity.
Qed.

(** The string a property of the partial object contributes, and the
    properties the copy can take: absent ones, and strings that are empty
    or not blank. *)
Definition copied (v : value) (default : string) : string :=
  match v with
  | VStr s => if (s =? "")%string then default else s
  | _ => default
  end.

Definition refused (v : value) : bool :=
  match v with
  | VStr s => negb (s =? "")%string && blank s
  | _ => false
  end.

Definition string_or_absent (v : value) : bool :=
  match v with
  | VUndefined | VStr _ => true
  | _ => false
  end.

(** The error of the first refused property, in the order of the copy. *)
Definition first_refused (p : StandardOutcome.Partial) : option message :=
  if refused (StandardOutcome.author p) then Some INVALID_AUTHOR
  else if refused (StandardOutcome.name p) then Some INVALID_NAME
  else if refused (StandardOutcome.date p) then Some INVALID_DATE
  else if refused (StandardOutcome.outcome p) then Some INVALID_OUTCOME
  else None.

(** One guarded assignment of [copyOutcome]. *)
Lemma guarded_set (v : value) (o : StandardOutcome.t)
    (set : value -> StandardOutcome.t -> result StandardOutcome.t)
    (put : string -> StandardOutcome.t) (m : message) :
  string_or_absent v = true ->
  (forall s, set (VStr s) o =
             if blank s then Throw (ThrowError m) else Ok (put s)) ->
  (if ToBoolean v then set v o else Ok o) =
  if refused v then Throw (ThrowError m)
  else Ok (match v with
           | VStr s => if (s =? "")%string then o else put s
           | _ => o
           end).
Proof.
  intros Hv Hset. destruct v; try discriminate; simpl; [reflexivity|].
  destruct (s =? "")%string eqn:E; simpl; [reflexivity|].
  rewrite Hset. destruct (blank s); reflexivity.
Qed.

(** The four setters, on strings. *)
Lemma set_author_string (s : string) (o : StandardOutcome.t) :
  StandardOutcome_set_author (VStr s) o =
  if blank s then Throw (ThrowError INVALID_AUTHOR)
  else Ok (StandardOutcome.Build_t s (StandardOutcome._name o)
             (StandardOutcome._date o) (StandardOutcome._outcome o)).
Proof.
  unfold StandardOutcome_set_author. rewrite present_and_trimmed_string.
  destruct (blank s); reflexivity.
Qed.

Lemma set_name_string (s : string) (o : StandardOutcome.t) :
  StandardOutcome_set_name (VStr s) o =
  if blank s then Throw (ThrowError INVALID_NAME)
  else Ok (StandardOutcome.Build_t (StandardOutcome._author o) s
             (StandardOutcome._date o) (StandardOutcome._outcome o)).
Proof.
  unfold StandardOutcome_set_name. rewrite present_and_trimmed_string.
  destruct (blank s); reflexivity.
Qed.

Lemma set_date_string (s : string) (o : StandardOutcome.t) :
  StandardOutcome_set_date (VStr s) o =
  if blank s then Throw (ThrowError INVALID_DATE)
  else Ok (StandardOutcome.Build_t (StandardOutcome._author o)
             (StandardOutcome._name o) s (StandardOutcome._outcome o)).
Proof.
  unfold StandardOutcome_set_date. rewrite present_and_trimmed_string.
  destruct (blank s); reflexivity.
Qed.

Lemma set_outcome_string (s : string) (o : StandardOutcome.t) :
  StandardOutcome_set_outcome (VStr s) o =
  if blank s then Throw (ThrowError INVALID_OUTCOME)
  else Ok (StandardOutcome.Build_t (StandardOutcome._author o)
             (StandardOutcome._name o) (StandardOutcome._date o) s).
Proof.
  unfold StandardOutcome_set_outcome. rewrite present_and_trimmed_string.
  destruct (blank s); reflexivity.
Qed.

End StandardOutcomeFacts.

(** ** The later LearningObject *)

Module ObjectFacts.
Import JS Objects JSONFacts.
Local Open Scope list_scope.

(** The date [updateDate] writes at a reading of the clock. *)
Definition stamp (t : Z) : value := VStr (ToString (VNum t)).

(** The object the constructor has built before it turns to its argument:
    the defaults, with the author the User constructor gave and the date of
    the last of the three readings the constructor makes.  The length setter
    writes that date over the one the constructor assigns itself. *)
Definition initial (author : value) (t : Z) : LearningObject.t :=
  LearningObject.Build_t author (VStr "") (stamp t) (VStr "nanomodule")
    [VStr "undergraduate"] [] []
    (VObj [("files", VArr []); ("urls", VArr []); ("notes", VStr "");
           ("folderDescriptions", VArr []);
           ("pdf", VObj [("name", VStr ""); ("url", VStr "")])])
    (VObj [("saves", VNum 0); ("downloads", VNum 0)]) (VBool false) [] []
    VUndefined (VStr "") (VStr "unpublished").

Section Later.
Variable levels : list string.
Variable verbs : list (string * list string).
Variable now : nat -> Z.
Variable User_constructor : result value.
Variable LearningGoal_constructor : value -> result value.

Lemma updateDate_run (o : LearningObject.t) (n : nat) :
  updateDate now o n = Ok (with_date (stamp (now n)) o, S n).
Proof. reflexivity. Qed.

Lemma name_assigned (s : string) (o : LearningObject.t) (n : nat) :
  LearningObject_set_name now (VStr s) o n
  = Ok (with_date (stamp (now n)) (with_name (VStr (trim s)) o), S n).
Proof. reflexivity. Qed.

Lemma length_assigned (length : value) (o : LearningObject.t) (n : nat) :
  acceptLength length = true ->
  LearningObject_set_length now length o n
  = Ok (with_date (stamp (now n)) (with_length length o), S n).
Proof.
  intros H. unfold LearningObject_set_length. rewrite H. reflexivity.
Qed.

(** The constructor, up to the test of its argument. *)
Lemma constructor_defaults (object author : value) (n : nat) :
  User_constructor = Ok author ->
  LearningObject_constructor levels verbs now User_constructor
    LearningGoal_constructor object n
  = if ToBoolean object
    then LearningObject_copyObject levels verbs now LearningGoal_constructor
           object (initial author (now (S (S n)))) (S (S (S n)))
    else Ok (initial author (now (S (S n))), S (S (S n))).
Proof.
  intros Hu. unfold LearningObject_constructor. rewrite Hu.
  destruct (ToBoolean object); reflexivity.
Qed.

(** An argument without the properties [name], [length] and [levels]: the
    copy keeps the name and the length of the object and throws where it
    reads [levels]. *)
Lemma copyObject_without_levels (ps : list (string * value))
    (this : LearningObject.t) (s : string) (n : nat) :
  lookup "name" ps = None ->
  lookup "length" ps = None ->
  lookup "levels" ps = None ->
  LearningObject._name this = VStr s ->
  acceptLength (LearningObject._length this) = true ->
  LearningObject_copyObject levels verbs now LearningGoal_constructor
    (VObj ps) this n = Throw TypeError.
Proof.
  intros Hname Hlength Hlevels Hs Hl.
  unfold LearningObject_copyObject, bindM, lift, get, prop.
  rewrite Hname, Hlength, Hlevels.
  cbn [or_else ToBoolean LearningObject_name LearningObject_length
         LearningObject_date LearningObject._name with_author].
  rewrite Hs, name_assigned.
  cbn [LearningObject._length with_date with_name].
  rewrite length_assigned by exact Hl.
  reflexivity.
Qed.

End Later.

(** The own properties of an instance carry the private names. *)
Lemma own_has_no_public_name (o : LearningObject.t) (k : string) :
  In k ["author"; "name"; "date"; "length"; "levels"; "goals"; "outcomes";
        "materials"; "children"; "contributors"; "collection"; "status";
        "metrics"; "published"; "lock"] ->
  exists ps,
    JSON.kept (LearningObject_own o) = VObj ps /\ lookup k ps = None.
Proof.
  intros Hk. eexists. split; [reflexivity|].
  apply lookup_kept_members.
  simpl in Hk. decompose [or] Hk; subst; try reflexivity; contradiction.
Qed.

End ObjectFacts.

(* ===================================================================== *)
(** * The claims                                                          *)
(* ===================================================================== *)

Module Claims.
Import JS TagFacts InstantiateFacts SerializeFacts StandardOutcomeFacts.

(** C1.  Constructing a LearningOutcome with a learning object as source
    gives it the smallest non-negative integer that is the tag of none of
    the object's outcomes: the candidate starts at 0, a pass over the
    outcomes that meets the candidate increments it and the scan starts
    again from the top, and the loop ends with the first pass that meets no
    collision.  The construction completes whenever the taxonomy has a verb
    set for its first level. *)
Theorem tag_is_least_unused
    (levels : list string) (verbs : list (string * list string))
    (set : list string) (source : Entity.LearningObject.t) :
  index verbs (Array_from_0 levels) = Some set ->
  (forall tag,
      Entity.search (Entity.LearningObject._outcomes source) tag =
      if Entity.scan (Entity.LearningObject._outcomes source) tag
      then Entity.search (Entity.LearningObject._outcomes source) (tag + 1)
      else tag) /\
  (forall tag,
      Entity.scan (Entity.LearningObject._outcomes source) tag = true <->
      In (VNum tag) (tags source)) /\
  exists outcome t,
    Entity.LearningOutcome_constructor levels verbs (Some source) = Ok outcome /\
    Entity.LearningOutcome._tag outcome = VNum t /\
    least_unused (tags source) t.
Proof.
  intros Hset. split; [|split].
  - intros tag. apply search_unfold.
  - intros tag. apply scan_In.
  - unfold Entity.LearningOutcome_constructor. simpl.
    rewrite (Array_from_entry_0_own _ _ _ Hset). simpl.
    eexists. eexists. split; [reflexivity|]. split; [reflexivity|].
    destruct (search_first_free (Entity.LearningObject._outcomes source) 0)
      as (Hle & Hfree & Hbelow).
    split; [exact Hle|]. split.
    + intros Hin. apply scan_In in Hin. congruence.
    + intros k Hk. apply scan_In. apply Hbelow. exact Hk.
Qed.

(** With outcomes tagged 0, 2, 1 and 5 the new outcome gets tag 3. *)
Lemma tag_is_least_unused_witness :
  index Sample.verbs (Array_from_0 Sample.levels) = Some ["define"; "list"; "recall"] /\
  exists outcome,
    Entity.LearningOutcome_constructor Sample.levels Sample.verbs
      (Some Sample.object) = Ok outcome /\
    Entity.LearningOutcome._tag outcome = VNum 3.
Proof.
  split; [reflexivity|].
  destruct (tag_is_least_unused Sample.levels Sample.verbs
              ["define"; "list"; "recall"] Sample.object eq_refl)
    as (_ & _ & outcome & t & Hc & Ht & _).
  exists outcome. split; [exact Hc|].
  vm_compute in Hc. injection Hc as <-. reflexivity.
Defined.

(** C9.  The constructor reads [source.author], [source.name] and
    [source.date] before it tests [source]: called with [null] or
    [undefined] it throws a TypeError, so a call that completes had a source,
    went through the guarded tag search, and holds the snapshot of that
    source's author, name and date. *)
Theorem constructor_needs_source
    (levels : list string) (verbs : list (string * list string)) :
  Entity.LearningOutcome_constructor levels verbs None = Throw TypeError /\
  forall source outcome,
    Entity.LearningOutcome_constructor levels verbs source = Ok outcome ->
    exists src,
      source = Some src /\
      Entity.LearningOutcome._source outcome =
        VObj [("author", Entity.LearningObject._author src);
              ("name", Entity.LearningObject._name src);
              ("date", Entity.LearningObject._date src)] /\
      Entity.LearningOutcome._tag outcome =
        VNum (Entity.search (Entity.LearningObject._outcomes src) 0).
Proof.
  split; [reflexivity|]. intros [src|] outcome H; [|discriminate].
  exists src. split; [reflexivity|].
  unfold Entity.LearningOutcome_constructor in H. simpl in H.
  destruct (Array_from_entry_0 verbs (Array_from_0 levels)); simpl in H;
    [|discriminate].
  injection H as <-. split; reflexivity.
Qed.

Lemma constructor_needs_source_witness :
  exists outcome,
    Entity.LearningOutcome_constructor Sample.levels Sample.verbs
      (Some Sample.object) = Ok outcome /\
    Entity.LearningOutcome._source outcome =
      VObj [("author", Sample.author); ("name", VStr "Networks");
            ("date", VStr "")].
Proof.
  eexists. split; [reflexivity|].
  destruct (proj2 (constructor_needs_source Sample.levels Sample.verbs)
              (Some Sample.object) _ eq_refl) as (src & Hs & Hsrc & _).
  injection Hs as <-. exact Hsrc.
Defined.

(** C10 (as amended).  [LearningOutcome.instantiate] changes the object it
    is given once it comes to its [delete] statements.  A call whose first
    half completes (the constructor, the five assignments and the two [map]
    calls) leaves the object without [_tag], [_bloom], [_verb], [_text],
    [_mappings], [_assessments] and [_strategies] and with exactly its other
    properties, whether it then returns or throws in the copy loop; a second
    call with that object finds no [_assessments] to map over and throws a
    TypeError, for any source.  A call whose first half throws, as it does
    for a [null] or [undefined] source, leaves the object as it was. *)
Theorem instantiate_consumes_object
    (levels : list string) (verbs : list (string * list string))
    (AssessmentPlan_instantiate :
       Entity.LearningOutcome.t -> value -> result Entity.AssessmentPlan.t)
    (InstructionalStrategy_instantiate :
       Entity.LearningOutcome.t -> value ->
       result Entity.InstructionalStrategy.t)
    (source : option Entity.LearningObject.t)
    (object : list (string * value)) :
  let instantiate :=
    Entity.LearningOutcome_instantiate levels verbs AssessmentPlan_instantiate
      InstructionalStrategy_instantiate in
  let first_half :=
    rebuilt levels verbs AssessmentPlan_instantiate
      InstructionalStrategy_instantiate in
  (forall outcome,
      first_half source object = Ok outcome ->
      instantiate source object
      = (copy_injected levels verbs (strip object) outcome, strip object) /\
      (forall k, In k known_props -> lookup k (strip object) = None) /\
      (forall k, ~ In k known_props ->
                 lookup k (strip object) = lookup k object) /\
      forall source',
        instantiate source' (strip object) = (Throw TypeError, strip object)) /\
  (forall e,
      first_half source object = Throw e ->
      instantiate source object = (Throw e, object)) /\
  first_half None object = Throw TypeError /\
  forall outcome object',
    instantiate source object = (Ok outcome, object') ->
    object' = strip object /\
    exists outcome0, first_half source object = Ok outcome0.
Proof.
  intros instantiate first_half. subst instantiate first_half.
  split; [|split; [|split]].
  - intros outcome H. rewrite instantiate_unfold, H.
    split; [reflexivity|]. split; [|split].
    + intros k Hk. rewrite lookup_strip.
      apply known_In in Hk. rewrite Hk. reflexivity.
    + intros k Hk. rewrite lookup_strip.
      destruct (known k) eqn:E; [|reflexivity].
      apply known_In in E. contradiction.
    + intros source'. rewrite instantiate_unfold, rebuilt_stripped.
      reflexivity.
  - intros e H. rewrite instantiate_unfold, H. reflexivity.
  - reflexivity.
  - intros outcome object' H. rewrite instantiate_unfold in H.
    destruct (rebuilt levels verbs AssessmentPlan_instantiate
                InstructionalStrategy_instantiate source object) as [o|e];
      [|discriminate].
    injection H as _ <-. split; [reflexivity|]. exists o. reflexivity.
Qed.

(** An object with the seven known properties and two more: the call
    returns, and the two are what is left of the object. *)
Lemma instantiate_consumes_object_witness :
  exists outcome,
    Entity.LearningOutcome_instantiate Sample.levels Sample.verbs
      Sample.AssessmentPlan_instantiate
      Sample.InstructionalStrategy_instantiate
      (Some Sample.object) Sample.properties
    = (Ok outcome, [("id", VStr "abc"); ("note", VNum 1)]) /\
    lookup "_assessments" [("id", VStr "abc"); ("note", VNum 1)] = None /\
    Entity.LearningOutcome_instantiate Sample.levels Sample.verbs
      Sample.AssessmentPlan_instantiate
      Sample.InstructionalStrategy_instantiate
      (Some Sample.object) [("id", VStr "abc"); ("note", VNum 1)]
    = (Throw TypeError, [("id", VStr "abc"); ("note", VNum 1)]).
Proof.
  eexists. split; [reflexivity|].
  destruct (proj1 (instantiate_consumes_object Sample.levels Sample.verbs
                     Sample.AssessmentPlan_instantiate
                     Sample.InstructionalStrategy_instantiate
                     (Some Sample.object) Sample.properties) _ eq_refl)
    as (_ & Hgone & _ & Hagain).
  split.
  - apply Hgone. simpl. tauto.
  - apply Hagain.
Defined.

(** C10, the counterexample.  With a [null] source the constructor throws
    before any [delete]: the call throws a TypeError and the object still
    has all its properties, the seven known ones included.  The same holds
    with a source when [_assessments] is no array. *)
Lemma instantiate_without_source_keeps_object :
  Entity.LearningOutcome_instantiate Sample.levels Sample.verbs
    Sample.AssessmentPlan_instantiate Sample.InstructionalStrategy_instantiate
    None Sample.properties
  = (Throw TypeError, Sample.properties) /\
  map (fun k => lookup k Sample.properties) known_props
  = [Some (VNum 7); Some (VStr "apply"); Some (VStr "use");
     Some (VStr "a packet sniffer"); Some (VArr []);
     Some (VArr [VObj [("_plan", VStr "essay"); ("_text", VStr "")]]);
     Some (VArr [])] /\
  Entity.LearningOutcome_instantiate Sample.levels Sample.verbs
    Sample.AssessmentPlan_instantiate Sample.InstructionalStrategy_instantiate
    (Some Sample.object) [("_tag", VNum 7); ("_assessments", VStr "none")]
  = (Throw TypeError, [("_tag", VNum 7); ("_assessments", VStr "none")]).
Proof. repeat split. Qed.




(** C3 (as amended).  For the LearningObject of lib/learning-object.ts,
    which has neither a status nor children: serializing a valid object and
    unserializing the text gives the object with the parent supplied for
    author, the same name, date, length and repository, the same goals
    (each goal is what its own serialize and unserialize make of it), and
    for outcomes what [LearningOutcome.unserialize] makes of
    [LearningOutcome.serialize] of each outcome in turn, as many as there
    were when each of these calls returns; the whole call throws what the
    first failing one of them throws.  For the later LearningObject, which
    has a status and children and no [serialize]: [JSON.stringify] prints
    the private names of the fields, so the parsed text has no [levels],
    and [instantiate] of it throws a TypeError where it maps over them. *)
Theorem serialize_unserialize_roundtrip
    (lengths levels : list string) (verbs : list (string * list string))
    (LearningOutcome_serialize : Entity.LearningOutcome.t -> string)
    (LearningOutcome_unserialize :
       value -> Entity.LearningObject.t -> result Entity.LearningOutcome.t)
    (now : nat -> Z) (User_constructor : result value)
    (LearningGoal_constructor : value -> result value) :
  (forall obj parent,
      valid obj = true ->
      let roundtrip :=
        Entity.LearningObject_unserialize lengths LearningOutcome_unserialize
          (Entity.LearningObject_serialize LearningOutcome_serialize obj)
          parent in
      roundtrip
      = (outcomes <-
           mapM (fun o =>
                   LearningOutcome_unserialize
                     (VStr (LearningOutcome_serialize o))
                     (before_outcomes lengths parent obj))
             (Entity.LearningObject._outcomes obj) ;;
         Ok (Entity.LearningObject.Build_t parent
               (Entity.LearningObject._name obj)
               (Entity.LearningObject._date obj)
               (Entity.LearningObject._length obj)
               (Entity.LearningObject._goals obj)
               outcomes
               (Entity.LearningObject._repository obj))) /\
      Forall
        (fun g =>
           Entity.LearningGoal_unserialize (Entity.LearningGoal_serialize g)
             (before_outcomes lengths parent obj) = Ok g)
        (Entity.LearningObject._goals obj) /\
      forall obj',
        roundtrip = Ok obj' ->
        Entity.LearningObject._author obj' = parent /\
        Entity.LearningObject._name obj' = Entity.LearningObject._name obj /\
        Entity.LearningObject._date obj' = Entity.LearningObject._date obj /\
        Entity.LearningObject._length obj'
        = Entity.LearningObject._length obj /\
        Entity.LearningObject._repository obj'
        = Entity.LearningObject._repository obj /\
        Entity.LearningObject._goals obj' = Entity.LearningObject._goals obj /\
        List.length (Entity.LearningObject._outcomes obj')
        = List.length (Entity.LearningObject._outcomes obj) /\
        Forall2
          (fun o o' =>
             LearningOutcome_unserialize (VStr (LearningOutcome_serialize o))
               (before_outcomes lengths parent obj) = Ok o')
          (Entity.LearningObject._outcomes obj)
          (Entity.LearningObject._outcomes obj')) /\
  (forall obj author n,
      User_constructor = Ok author ->
      JSON.clean (JSON.kept (Objects.LearningObject_own obj)) = true ->
      exists ps,
        JSON.parse (JSON.stringify (Objects.LearningObject_own obj))
        = Ok (VObj ps) /\
        lookup "levels" ps = None /\
        lookup "status" ps = None /\
        lookup "children" ps = None /\
        Objects.LearningObject_instantiate levels verbs now User_constructor
          LearningGoal_constructor (VObj ps) n
        = Throw TypeError).
Proof.
  split.
  - intros obj parent Hv roundtrip.
    assert (Hgoals : forallb (fun g => JSON.clean (Entity.LearningGoal._text g))
                       (Entity.LearningObject._goals obj) = true).
    { unfold valid in Hv.
      repeat (apply andb_true_iff in Hv; destruct Hv as [Hv ?]). assumption. }
    assert (Hrt : roundtrip
                  = (outcomes <-
                       mapM (fun o =>
                               LearningOutcome_unserialize
                                 (VStr (LearningOutcome_serialize o))
                                 (before_outcomes lengths parent obj))
                         (Entity.LearningObject._outcomes obj) ;;
                     Ok (Entity.LearningObject.Build_t parent
                           (Entity.LearningObject._name obj)
                           (Entity.LearningObject._date obj)
                           (Entity.LearningObject._length obj)
                           (Entity.LearningObject._goals obj)
                           outcomes
                           (Entity.LearningObject._repository obj)))).
    { subst roundtrip. unfold valid in Hv.
      repeat (apply andb_true_iff in Hv; destruct Hv as [Hv ?]).
      rename Hv into Hname, H2 into Hdate, H1 into Hlength, H into Hrepo.
      unfold Entity.LearningObject_unserialize, Entity.LearningObject_serialize.
      rewrite JSONFacts.parse_stringify.
      - cbn [bind get prop lookup String.eqb Ascii.eqb Bool.eqb Array_map].
        rewrite (mapM_map _ _ _ _ (goals_roundtrip _ _ Hgoals)).
        cbn [bind]. rewrite mapM_map_eq.
        fold (before_outcomes lengths parent obj).
        destruct (mapM _ (Entity.LearningObject._outcomes obj)); reflexivity.
      - cbn [JSON.clean JSON.nodup_keys map fst snd forallb existsb
               String.eqb Ascii.eqb Bool.eqb negb andb orb].
        rewrite Hname, Hdate, Hlength, Hrepo, serialized_goals_clean,
          serialized_outcomes_clean. reflexivity. }
    split; [exact Hrt|]. split.
    + apply Forall_forall. intros g Hg. apply goal_roundtrip.
      rewrite forallb_forall in Hgoals. apply Hgoals, Hg.
    + intros obj' Hobj. rewrite Hrt in Hobj.
      destruct (mapM _ (Entity.LearningObject._outcomes obj)) as [os|] eqn:E;
        cbn [bind] in Hobj; [|discriminate].
      injection Hobj as <-. cbn.
      apply mapM_Forall2 in E.
      repeat split; try reflexivity; [|exact E].
      symmetry. eapply Forall2_length, E.
  - intros obj author n Hu Hc.
    destruct (ObjectFacts.own_has_no_public_name obj "levels") as (ps & Hk & Hl);
      [simpl; tauto|].
    exists ps.
    assert (Hp : lookup "name" ps = None /\ lookup "length" ps = None /\
                 lookup "status" ps = None /\ lookup "children" ps = None).
    { destruct (ObjectFacts.own_has_no_public_name obj "name")
        as (ps1 & Hk1 & H1); [simpl; tauto|].
      destruct (ObjectFacts.own_has_no_public_name obj "length")
        as (ps2 & Hk2 & H2); [simpl; tauto|].
      destruct (ObjectFacts.own_has_no_public_name obj "status")
        as (ps3 & Hk3 & H3); [simpl; tauto|].
      destruct (ObjectFacts.own_has_no_public_name obj "children")
        as (ps4 & Hk4 & H4); [simpl; tauto|].
      rewrite Hk in Hk1, Hk2, Hk3, Hk4.
      injection Hk1 as <-. injection Hk2 as <-. injection Hk3 as <-.
      injection Hk4 as <-. repeat split; assumption. }
    destruct Hp as (Hname & Hlength & Hstatus & Hchildren).
    split; [|split; [exact Hl|split; [exact Hstatus|split; [exact Hchildren|]]]].
    + rewrite <- Hk. apply JSONFacts.parse_stringify_kept; [discriminate|exact Hc].
    + unfold Objects.LearningObject_instantiate.
      rewrite (ObjectFacts.constructor_defaults _ _ _ _ _ _ author n Hu).
      cbn [ToBoolean].
      apply (ObjectFacts.copyObject_without_levels _ _ _ _ _ _ "");
        auto; reflexivity.
Qed.

(** The sample object of lib/learning-object.ts, with the sample serializer
    of outcomes; and the sample object of the later class. *)
Lemma serialize_unserialize_roundtrip_witness :
  (exists obj',
      Entity.LearningObject_unserialize Sample.lengths
        Sample.LearningOutcome_unserialize
        (Entity.LearningObject_serialize Sample.LearningOutcome_serialize
           Sample.object) Sample.author
      = Ok obj' /\
      Entity.LearningObject._name obj' = VStr "Networks" /\
      Entity.LearningObject._goals obj'
      = Entity.LearningObject._goals Sample.object /\
      List.length (Entity.LearningObject._outcomes obj') = 5%nat) /\
  (exists ps,
      JSON.parse (JSON.stringify (Objects.LearningObject_own
                                    Sample.later_object)) = Ok (VObj ps) /\
      Objects.LearningObject_instantiate Sample.levels Sample.verbs Sample.now
        Sample.User_constructor Sample.LearningGoal_constructor (VObj ps)
        0%nat
      = Throw TypeError).
Proof.
  pose proof (serialize_unserialize_roundtrip Sample.lengths Sample.levels
                Sample.verbs Sample.LearningOutcome_serialize
                Sample.LearningOutcome_unserialize Sample.now
                Sample.User_constructor Sample.LearningGoal_constructor)
    as [Hold Hlater].
  split.
  - destruct (Hold Sample.object Sample.author eq_refl) as (_ & _ & Hobj).
    eexists. split; [reflexivity|].
    destruct (Hobj _ eq_refl) as (_ & Hname & _ & _ & _ & Hgoals & Hlen & _).
    repeat split; assumption.
  - destruct (Hlater Sample.later_object _ 0%nat eq_refl eq_refl)
      as (ps & Hparse & _ & _ & _ & Hthrow).
    exists ps. split; assumption.
Defined.

(** C3, the counterexample.  A later LearningObject as its constructor
    leaves it has the status [unpublished] and no children; the text
    [JSON.stringify] prints of it parses to an object with a property
    [_levels] and none called [levels], and [instantiate] of that object
    throws a TypeError: no object comes back, with or without the same
    status and children. *)
Lemma later_object_does_not_roundtrip :
  exists obj ps,
    Objects.LearningObject_constructor Sample.levels Sample.verbs Sample.now
      Sample.User_constructor Sample.LearningGoal_constructor VUndefined
      0%nat
    = Ok (obj, 3%nat) /\
    Objects.LearningObject._status obj = VStr "unpublished" /\
    Objects.LearningObject._children obj = [] /\
    JSON.parse (JSON.stringify (Objects.LearningObject_own obj))
    = Ok (VObj ps) /\
    lookup "_levels" ps = Some (VArr [VStr "undergraduate"]) /\
    lookup "levels" ps = None /\
    Objects.LearningObject_instantiate Sample.levels Sample.verbs Sample.now
      Sample.User_constructor Sample.LearningGoal_constructor (VObj ps)
      3%nat
    = Throw TypeError.
Proof.
  eexists. eexists.
  split; [vm_compute; reflexivity|].
  split; [reflexivity|]. split; [reflexivity|].
  split; [vm_compute; reflexivity|].
  split; [reflexivity|]. split; [reflexivity|].
  vm_compute. reflexivity.
Qed.

(** C7 (as amended).  In the StandardOutcome whose [name], [date] and
    [outcome] getters return the author field, every setter validates: for
    every string, the assignment stores the string when it has a character
    that is not white space, and throws the error of its field when the
    string is empty or white space only. *)
Theorem standard_outcome_setters_validate
    (s : string) (o : Outcomes.StandardOutcome.t) :
  Outcomes.StandardOutcome_name o = Outcomes.StandardOutcome_author o /\
  Outcomes.StandardOutcome_date o = Outcomes.StandardOutcome_author o /\
  Outcomes.StandardOutcome_outcome o = Outcomes.StandardOutcome_author o /\
  Outcomes.StandardOutcome_set_author (VStr s) o =
    (if blank s then Throw (ThrowError INVALID_AUTHOR)
     else Ok (Outcomes.StandardOutcome.Build_t s
                (Outcomes.StandardOutcome._name o)
                (Outcomes.StandardOutcome._date o)
                (Outcomes.StandardOutcome._outcome o))) /\
  Outcomes.StandardOutcome_set_name (VStr s) o =
    (if blank s then Throw (ThrowError INVALID_NAME)
     else Ok (Outcomes.StandardOutcome.Build_t
                (Outcomes.StandardOutcome._author o) s
                (Outcomes.StandardOutcome._date o)
                (Outcomes.StandardOutcome._outcome o))) /\
  Outcomes.StandardOutcome_set_date (VStr s) o =
    (if blank s then Throw (ThrowError INVALID_DATE)
     else Ok (Outcomes.StandardOutcome.Build_t
                (Outcomes.StandardOutcome._author o)
                (Outcomes.StandardOutcome._name o) s
                (Outcomes.StandardOutcome._outcome o))) /\
  Outcomes.StandardOutcome_set_outcome (VStr s) o =
    (if blank s then Throw (ThrowError INVALID_OUTCOME)
     else Ok (Outcomes.StandardOutcome.Build_t
                (Outcomes.StandardOutcome._author o)
                (Outcomes.StandardOutcome._name o)
                (Outcomes.StandardOutcome._date o) s)).
Proof.
  repeat split; auto using set_author_string, set_name_string,
    set_date_string, set_outcome_string.
Qed.

(** C7, the counterexample.  On a fresh StandardOutcome, whose getters all
    return the author field, assigning the empty string or a blank string,
    be it of spaces or of a no-break space, throws. *)
Lemma standard_outcome_setters_throw :
  Outcomes.StandardOutcome_constructor None = Ok Sample.blank_standard /\
  Outcomes.StandardOutcome_name Sample.blank_standard
  = Outcomes.StandardOutcome._author Sample.blank_standard /\
  Outcomes.StandardOutcome_set_author (VStr "") Sample.blank_standard
  = Throw (ThrowError INVALID_AUTHOR) /\
  Outcomes.StandardOutcome_set_author (VStr Sample.nbsp) Sample.blank_standard
  = Throw (ThrowError INVALID_AUTHOR) /\
  Outcomes.StandardOutcome_set_name (VStr "   ") Sample.blank_standard
  = Throw (ThrowError INVALID_NAME) /\
  Outcomes.StandardOutcome_set_date (VStr "") Sample.blank_standard
  = Throw (ThrowError INVALID_DATE) /\
  Outcomes.StandardOutcome_set_outcome (VStr " ") Sample.blank_standard
  = Throw (ThrowError INVALID_OUTCOME).
Proof. repeat split. Qed.

(** C8 (as amended).  Constructing a StandardOutcome from a partial object
    copies each truthy property through its public setter.  Without an
    argument the four fields are empty strings.  With an argument whose
    properties are strings or absent: a property that is absent or the
    empty string leaves its field the empty string, a string with a
    character that is not white space is stored, and a non-empty string of
    white space only makes the construction throw the error of the first
    such property. *)
Theorem standard_outcome_copy_through_setters
    (p : Outcomes.StandardOutcome.Partial) :
  string_or_absent (Outcomes.StandardOutcome.author p) = true ->
  string_or_absent (Outcomes.StandardOutcome.name p) = true ->
  string_or_absent (Outcomes.StandardOutcome.date p) = true ->
  string_or_absent (Outcomes.StandardOutcome.outcome p) = true ->
  Outcomes.StandardOutcome_constructor None
  = Ok (Outcomes.StandardOutcome.Build_t "" "" "" "") /\
  Outcomes.StandardOutcome_constructor (Some p) =
  match first_refused p with
  | Some m => Throw (ThrowError m)
  | None =>
      Ok (Outcomes.StandardOutcome.Build_t
            (copied (Outcomes.StandardOutcome.author p) "")
            (copied (Outcomes.StandardOutcome.name p) "")
            (copied (Outcomes.StandardOutcome.date p) "")
            (copied (Outcomes.StandardOutcome.outcome p) ""))
  end.
Proof.
  intros Ha Hn Hd Ho. split; [reflexivity|].
  unfold Outcomes.StandardOutcome_constructor,
    Outcomes.StandardOutcome_copyOutcome, first_refused.
  rewrite (guarded_set _ _ _ _ INVALID_AUTHOR Ha
             (fun s => set_author_string s _)).
  destruct (refused (Outcomes.StandardOutcome.author p)); [reflexivity|].
  cbn [bind].
  rewrite (guarded_set _ _ _ _ INVALID_NAME Hn
             (fun s => set_name_string s _)).
  destruct (refused (Outcomes.StandardOutcome.name p)); [reflexivity|].
  cbn [bind].
  rewrite (guarded_set _ _ _ _ INVALID_DATE Hd
             (fun s => set_date_string s _)).
  destruct (refused (Outcomes.StandardOutcome.date p)); [reflexivity|].
  cbn [bind].
  rewrite (guarded_set _ _ _ _ INVALID_OUTCOME Ho
             (fun s => set_outcome_string s _)).
  destruct (refused (Outcomes.StandardOutcome.outcome p)); [reflexivity|].
  f_equal.
  destruct (Outcomes.StandardOutcome.author p) as [| |?|?|sa|?|?],
    (Outcomes.StandardOutcome.name p) as [| |?|?|sn|?|?],
    (Outcomes.StandardOutcome.date p) as [| |?|?|sd|?|?],
    (Outcomes.StandardOutcome.outcome p) as [| |?|?|so|?|?];
    try discriminate; simpl;
    repeat match goal with
           | |- context [(?x =? "")%string] => destruct (x =? "")%string
           end; reflexivity.
Qed.

(** A partial object with an author, an empty name and no date. *)
Lemma standard_outcome_copy_through_setters_witness :
  Outcomes.StandardOutcome_constructor (Some Sample.partial_standard)
  = Ok (Outcomes.StandardOutcome.Build_t "NICE" "" "" "Explain a firewall").
Proof.
  exact (proj2 (standard_outcome_copy_through_setters Sample.partial_standard
                  eq_refl eq_refl eq_refl eq_refl)).
Defined.

(** C8, the counterexample.  A partial object whose author is a blank
    string, a space or a no-break space: the guard lets it through, the
    setter throws, and so does the constructor. *)
Lemma standard_outcome_constructor_throws :
  ToBoolean (VStr " ") = true /\
  Outcomes.StandardOutcome_constructor
    (Some (Outcomes.StandardOutcome.Build_Partial
             (VStr " ") VUndefined VUndefined VUndefined))
  = Throw (ThrowError INVALID_AUTHOR) /\
  ToBoolean (VStr Sample.nbsp) = true /\
  Outcomes.StandardOutcome_constructor
    (Some (Outcomes.StandardOutcome.Build_Partial
             (VStr Sample.nbsp) VUndefined VUndefined VUndefined))
  = Throw (ThrowError INVALID_AUTHOR).
Proof. repeat split; reflexivity. Qed.

(** C4 (as amended).  [mapTo] of the LearningOutcome of
    lib/learning-outcome.ts appends the mapping and returns the new length of
    the mappings; [mapTo] of the LearningOutcome of
    lib/learning-outcome/learning-outcome.ts appends the mapping and returns
    its index, the length before the call; [addGoal] and [addOutcome] of the
    LearningObject of lib/learning-object.ts append and return the new
    element itself, which then is the last element of the collection; and
    [addGoal], [addOutcome], [addChild] and [addContributor] of the later
    LearningObject append and return the index of the new element, the
    length before the call. *)
Theorem add_methods_return_values
    (levels : list string) (verbs : list (string * list string))
    (LearningGoal_constructor : value -> result value)
    (obj : Entity.LearningObject.t) (later : Objects.LearningObject.t) :
  (forall mapping o a,
      Entity.LearningOutcome._mappings o = VArr a ->
      Entity.LearningOutcome_mapTo mapping o =
      Ok (Z.of_nat (List.length a) + 1,
          Entity.with_mappings (VArr (a ++ [mapping])%list) o)) /\
  (forall mapping o,
      Outcomes.LearningOutcome_mapTo mapping o =
      (Z.of_nat (List.length (Outcomes.LearningOutcome._mappings o)),
       Outcomes.LearningOutcome.Build_t
         (Outcomes.LearningOutcome.id o) (Outcomes.LearningOutcome._bloom o)
         (Outcomes.LearningOutcome._verb o) (Outcomes.LearningOutcome._text o)
         (Outcomes.LearningOutcome._mappings o ++ [mapping])%list)) /\
  (Entity.LearningObject._goals (snd (Entity.LearningObject_addGoal obj))
   = (Entity.LearningObject._goals obj
      ++ [fst (Entity.LearningObject_addGoal obj)])%list) /\
  (forall outcome obj',
      Entity.LearningObject_addOutcome levels verbs obj = Ok (outcome, obj') ->
      Entity.LearningObject._outcomes obj'
      = (Entity.LearningObject._outcomes obj ++ [outcome])%list) /\
  (forall text i later',
      Objects.LearningObject_addGoal LearningGoal_constructor text later
      = Ok (i, later') ->
      i = Z.of_nat (List.length (Objects.LearningObject._goals later)) /\
      exists goal,
        LearningGoal_constructor text = Ok goal /\
        Objects.LearningObject._goals later'
        = (Objects.LearningObject._goals later ++ [goal])%list /\
        nth_error (Objects.LearningObject._goals later') (Z.to_nat i)
        = Some goal) /\
  (forall outcome i later',
      Objects.LearningObject_addOutcome levels verbs outcome later
      = Ok (i, later') ->
      i = Z.of_nat (List.length (Objects.LearningObject._outcomes later)) /\
      exists added,
        (ToBoolean outcome = true -> added = outcome) /\
        Objects.LearningObject._outcomes later'
        = (Objects.LearningObject._outcomes later ++ [added])%list /\
        nth_error (Objects.LearningObject._outcomes later') (Z.to_nat i)
        = Some added) /\
  (forall child,
      Objects.LearningObject_addChild child later
      = (Z.of_nat (List.length (Objects.LearningObject._children later)),
         Objects.with_children
           (Objects.LearningObject._children later ++ [child])%list later)) /\
  (forall contributor,
      Objects.LearningObject_addContributor contributor later
      = (Z.of_nat (List.length (Objects.LearningObject._contributors later)),
         Objects.with_contributors
           (Objects.LearningObject._contributors later ++ [contributor])%list
           later)).
Proof.
  assert (Hnth : forall (a : list value) (x : value),
             nth_error (a ++ [x])%list
               (Z.to_nat (Z.of_nat (List.length (a ++ [x])%list) - 1))
             = Some x).
  { intros a x. rewrite length_app. simpl.
    replace (Z.to_nat (Z.of_nat (List.length a + 1) - 1)) with (List.length a)
      by lia.
    rewrite nth_error_app2 by lia. rewrite Nat.sub_diag. reflexivity. }
  assert (Hlen : forall (a : list value) (x : value),
             Z.of_nat (List.length (a ++ [x])%list) - 1
             = Z.of_nat (List.length a)).
  { intros a x. rewrite length_app. simpl. lia. }
  split; [|split; [|split; [|split; [|split; [|split; [|split]]]]]].
  - intros mapping o a Ha. unfold Entity.LearningOutcome_mapTo, push.
    rewrite Ha, length_app. simpl. do 2 f_equal. lia.
  - intros mapping o. unfold Outcomes.LearningOutcome_mapTo, push.
    rewrite length_app. simpl. f_equal. lia.
  - reflexivity.
  - intros outcome obj' H. unfold Entity.LearningObject_addOutcome in H.
    destruct (Entity.LearningOutcome_constructor levels verbs (Some obj));
      simpl in H; [|discriminate].
    injection H as <- <-. reflexivity.
  - intros text i later' H. unfold Objects.LearningObject_addGoal, push in H.
    destruct (LearningGoal_constructor text) as [goal|]; cbn [bind] in H;
      [|discriminate].
    injection H as <- <-. split; [apply Hlen|].
    exists goal. split; [reflexivity|]. split; [reflexivity|]. apply Hnth.
  - intros outcome i later' H.
    unfold Objects.LearningObject_addOutcome, push in H.
    destruct (if ToBoolean outcome then Ok outcome else _) as [added|] eqn:E;
      cbn [bind] in H; [|discriminate].
    injection H as <- <-. split; [apply Hlen|].
    exists added. split; [|split; [reflexivity|apply Hnth]].
    intros Ht. rewrite Ht in E. injection E as <-. reflexivity.
  - intros child. unfold Objects.LearningObject_addChild, push.
    rewrite Hlen. reflexivity.
  - intros contributor. unfold Objects.LearningObject_addContributor, push.
    rewrite Hlen. reflexivity.
Qed.

(** On a fresh outcome of lib/learning-outcome.ts [mapTo] returns 1; on the
    sample object of the later class, which has one goal, [addGoal]
    returns 1. *)
Lemma add_methods_return_values_witness :
  Entity.LearningOutcome_mapTo (VObj []) (Sample.outcome_tagged (VNum 0))
  = Ok (1, Entity.with_mappings (VArr [VObj []])
             (Sample.outcome_tagged (VNum 0))) /\
  exists later',
    Objects.LearningObject_addGoal Sample.LearningGoal_constructor
      (VStr "know the ports") Sample.later_object = Ok (1, later').
Proof.
  pose proof (add_methods_return_values Sample.levels Sample.verbs
                Sample.LearningGoal_constructor Sample.object
                Sample.later_object) as (Hmap & _ & _ & _ & Hgoal & _).
  split.
  - exact (Hmap (VObj []) (Sample.outcome_tagged (VNum 0)) [] eq_refl).
  - eexists.
    destruct (Hgoal (VStr "know the ports") _ _ eq_refl) as (Hi & _).
    vm_compute in Hi. reflexivity.
Defined.

(** C4, the counterexample.  On a fresh LearningOutcome of
    lib/learning-outcome/learning-outcome.ts, [mapTo] returns 0 while the
    mappings then have length 1; and [addGoal] on a learning object of
    lib/learning-object.ts with two goals returns the new goal, not the
    number 2. *)
Lemma mapTo_returns_the_index :
  exists o,
    Outcomes.LearningOutcome_constructor Sample.levels Sample.verbs None
    = Ok o /\
    fst (Outcomes.LearningOutcome_mapTo Sample.blank_standard o) = 0 /\
    List.length
      (Outcomes.LearningOutcome._mappings
         (snd (Outcomes.LearningOutcome_mapTo Sample.blank_standard o)))
    = 1%nat /\
    List.length (Entity.LearningObject._goals Sample.object) = 2%nat /\
    fst (Entity.LearningObject_addGoal Sample.object)
    = Entity.LearningGoal.Build_t (VStr "").
Proof. eexists. repeat split. Qed.

(** C5 (as amended).  In the later LearningObject, assigning [null] or
    [undefined] to [name] fails with INVALID_NAME, assigning a string, the
    empty one included, completes and stores the trimmed string, so that
    after a completed assignment the name is the trimmed argument, and the
    date becomes the time of the assignment while nothing else changes; a
    value that is none of these has no [trim] and the assignment throws a
    TypeError.  In the LearningObject of lib/learning-object.ts assigning to
    [name] never fails and stores its argument as it is, [null],
    [undefined] or a string, untrimmed; nothing else of the object
    changes. *)
Theorem name_setter_stores_argument
    (now : nat -> Z) (name : value)
    (later : Objects.LearningObject.t) (n : nat)
    (obj : Entity.LearningObject.t) :
  (Objects.LearningObject_set_name now VNull later n
   = Throw (ThrowError (LearningObjectError LEARNING_OBJECT_ERRORS.INVALID_NAME)) /\
   Objects.LearningObject_set_name now VUndefined later n
   = Throw (ThrowError (LearningObjectError LEARNING_OBJECT_ERRORS.INVALID_NAME)) /\
   (forall s,
       Objects.LearningObject_set_name now (VStr s) later n
       = Ok (Objects.with_date (ObjectFacts.stamp (now n))
               (Objects.with_name (VStr (trim s)) later), S n)) /\
   (forall later' n',
       Objects.LearningObject_set_name now name later n = Ok (later', n') ->
       exists s,
         name = VStr s /\
         Objects.LearningObject_name later' = VStr (trim s) /\
         later' = Objects.with_date (Objects.LearningObject._date later')
                    (Objects.with_name (VStr (trim s)) later)) /\
   (forall e,
       Objects.LearningObject_set_name now name later n = Throw e ->
       match name with
       | VNull | VUndefined =>
           e = ThrowError
                 (LearningObjectError LEARNING_OBJECT_ERRORS.INVALID_NAME)
       | _ => e = TypeError
       end)) /\
  exists obj',
    Entity.LearningObject_set_name name obj = Ok obj' /\
    Entity.LearningObject._name obj' = name /\
    Entity.LearningObject._author obj' = Entity.LearningObject._author obj /\
    Entity.LearningObject._date obj' = Entity.LearningObject._date obj /\
    Entity.LearningObject._length obj' = Entity.LearningObject._length obj /\
    Entity.LearningObject._goals obj' = Entity.LearningObject._goals obj /\
    Entity.LearningObject._outcomes obj' = Entity.LearningObject._outcomes obj /\
    Entity.LearningObject._repository obj'
    = Entity.LearningObject._repository obj.
Proof.
  split.
  - split; [reflexivity|]. split; [reflexivity|]. split; [reflexivity|].
    split.
    + intros later' n' H. destruct name as [| |?|?|s|?|?]; try discriminate.
      exists s. rewrite ObjectFacts.name_assigned in H. injection H as <- _.
      repeat split.
    + intros e H. destruct name as [| |?|?|s|?|?];
        try (injection H as <-; reflexivity).
      rewrite ObjectFacts.name_assigned in H. discriminate.
  - eexists. repeat split.
Qed.

(** The name of the sample object of the later class, assigned with white
    space around it. *)
Lemma name_setter_stores_argument_witness :
  exists later',
    Objects.LearningObject_set_name Sample.now (VStr "  Networks ")
      Sample.later_object 7%nat = Ok (later', 8%nat) /\
    Objects.LearningObject_name later' = VStr "Networks".
Proof.
  eexists. split; [reflexivity|].
  destruct (proj1 (proj2 (proj2 (proj2 (proj1
              (name_setter_stores_argument Sample.now (VStr "  Networks ")
                 Sample.later_object 7%nat Sample.object)))))
              _ _ eq_refl) as (s & Hs & Hname & _).
  injection Hs as <-. exact Hname.
Defined.

(** C5, the counterexample.  In the LearningObject of
    lib/learning-object.ts, [null] and [undefined] are stored without an
    error, and a string with white space around it is stored with the white
    space. *)
Lemma name_setter_takes_null_and_keeps_spaces :
  Entity.LearningObject_set_name VNull Sample.object
  = Ok (Entity.with_name VNull Sample.object) /\
  Entity.LearningObject_set_name VUndefined Sample.object
  = Ok (Entity.with_name VUndefined Sample.object) /\
  Entity.LearningObject_set_name (VStr "  Networks ") Sample.object
  = Ok (Entity.with_name (VStr "  Networks ") Sample.object) /\
  trim "  Networks " = "Networks" /\
  Entity.LearningObject._name
    (Entity.with_name (VStr "  Networks ") Sample.object)
  <> VStr (trim "  Networks ").
Proof. repeat split. discriminate. Qed.

(** C6 (as amended).  In the later LearningObject every completed
    assignment to [name] or [length] and every completed [addLevel] or
    [removeLevel] reads the clock and leaves its reading, as a decimal
    text, in [date]; [date] has no setter, and an assignment to it from
    outside returns no changed object; but adding or removing a goal, an
    outcome, a child or a contributor, assigning the materials, the
    metrics, the collection, the lock or the status, and publishing or
    unpublishing leave [date] as it was.  In the LearningObject of
    lib/learning-object.ts no method reads a clock: assigning the name, the
    length or the repository and adding or removing a goal or an outcome
    leave [date] as it was, and [date] has a public setter that stores
    whatever it is given. *)
Theorem date_changes_only_by_its_setter
    (lengths levels : list string) (verbs : list (string * list string))
    (now : nat -> Z) (LearningGoal_constructor : value -> result value)
    (obj : Entity.LearningObject.t)
    (later : Objects.LearningObject.t) (n : nat) :
  ((forall name later' n',
       Objects.LearningObject_set_name now name later n = Ok (later', n') ->
       Objects.LearningObject_date later' = ObjectFacts.stamp (now n)) /\
   (forall length later' n',
       Objects.LearningObject_set_length now length later n = Ok (later', n') ->
       Objects.LearningObject_date later' = ObjectFacts.stamp (now n)) /\
   (forall level later' n',
       Objects.LearningObject_addLevel now level later n = Ok (later', n') ->
       Objects.LearningObject_date later' = ObjectFacts.stamp (now n)) /\
   (forall index level later' n',
       Objects.LearningObject_removeLevel now index later n
       = Ok (level, later', n') ->
       Objects.LearningObject_date later' = ObjectFacts.stamp (now n)) /\
   (forall strict date later',
       Objects.LearningObject_set_date strict date later = Ok later' ->
       later' = later) /\
   (forall text i later',
       Objects.LearningObject_addGoal LearningGoal_constructor text later
       = Ok (i, later') ->
       Objects.LearningObject_date later' = Objects.LearningObject_date later) /\
   (forall index,
       Objects.LearningObject_date
         (snd (Objects.LearningObject_removeGoal index later))
       = Objects.LearningObject_date later) /\
   (forall outcome i later',
       Objects.LearningObject_addOutcome levels verbs outcome later
       = Ok (i, later') ->
       Objects.LearningObject_date later' = Objects.LearningObject_date later) /\
   (forall index,
       Objects.LearningObject_date
         (snd (Objects.LearningObject_removeOutcome index later))
       = Objects.LearningObject_date later) /\
   (forall v index,
       Objects.LearningObject_date
         (snd (Objects.LearningObject_addChild v later))
       = Objects.LearningObject_date later /\
       Objects.LearningObject_date
         (snd (Objects.LearningObject_removeChild index later))
       = Objects.LearningObject_date later /\
       Objects.LearningObject_date
         (snd (Objects.LearningObject_addContributor v later))
       = Objects.LearningObject_date later /\
       Objects.LearningObject_date
         (snd (Objects.LearningObject_removeContributor index later))
       = Objects.LearningObject_date later /\
       Objects.LearningObject_date
         (Objects.LearningObject_set_materials v later)
       = Objects.LearningObject_date later /\
       Objects.LearningObject_date
         (Objects.LearningObject_set_metrics v later)
       = Objects.LearningObject_date later /\
       Objects.LearningObject_date
         (Objects.LearningObject_set_collection v later)
       = Objects.LearningObject_date later /\
       Objects.LearningObject_date (Objects.LearningObject_set_lock v later)
       = Objects.LearningObject_date later /\
       Objects.LearningObject_date (Objects.LearningObject_unpublish later)
       = Objects.LearningObject_date later) /\
   (forall status later',
       Objects.LearningObject_set_status status later = Ok later' ->
       Objects.LearningObject_date later' = Objects.LearningObject_date later) /\
   (forall later',
       Objects.LearningObject_publish later = Ok later' ->
       Objects.LearningObject_date later'
       = Objects.LearningObject_date later)) /\
  (forall name obj',
      Entity.LearningObject_set_name name obj = Ok obj' ->
      Entity.LearningObject._date obj' = Entity.LearningObject._date obj) /\
  (forall length obj',
      Entity.LearningObject_set_length lengths length obj = Ok obj' ->
      Entity.LearningObject._date obj' = Entity.LearningObject._date obj) /\
  (forall repository obj',
      Entity.LearningObject_set_repository repository obj = Ok obj' ->
      Entity.LearningObject._date obj' = Entity.LearningObject._date obj) /\
  Entity.LearningObject._date (snd (Entity.LearningObject_addGoal obj))
  = Entity.LearningObject._date obj /\
  (forall i,
      Entity.LearningObject._date (snd (Entity.LearningObject_removeGoal i obj))
      = Entity.LearningObject._date obj) /\
  (forall outcome obj',
      Entity.LearningObject_addOutcome levels verbs obj = Ok (outcome, obj') ->
      Entity.LearningObject._date obj' = Entity.LearningObject._date obj) /\
  (forall i,
      Entity.LearningObject._date
        (snd (Entity.LearningObject_removeOutcome i obj))
      = Entity.LearningObject._date obj) /\
  (forall date,
      exists obj',
        Entity.LearningObject_set_date date obj = Ok obj' /\
        Entity.LearningObject._date obj' = date).
Proof.
  split; [|split; [|split; [|split; [|split; [|split; [|split; [|split]]]]]]].
  - split; [|split; [|split; [|split; [|split; [|split; [|split; [|split;
      [|split; [|split; [|split]]]]]]]]]].
    + intros name later' n' H. destruct name as [| |?|?|s|?|?];
        try discriminate.
      rewrite ObjectFacts.name_assigned in H. injection H as <- _.
      reflexivity.
    + intros length later' n' H. unfold Objects.LearningObject_set_length in H.
      destruct (Objects.acceptLength length); [|discriminate].
      rewrite ObjectFacts.updateDate_run in H. injection H as <- _.
      reflexivity.
    + intros level later' n' H. unfold Objects.LearningObject_addLevel in H.
      destruct (Objects.acceptLevel level later) as [alreadyAdded isValid].
      destruct (negb alreadyAdded && isValid).
      * rewrite ObjectFacts.updateDate_run in H. injection H as <- _.
        reflexivity.
      * destruct alreadyAdded; discriminate.
    + intros index level later' n' H.
      unfold Objects.LearningObject_removeLevel in H.
      destruct (1 <? Z.of_nat (List.length (Objects.LearningObject._levels later)));
        [|discriminate].
      unfold Objects.bindM in H. rewrite ObjectFacts.updateDate_run in H.
      destruct (splice1 index _) as [x a]. injection H as _ <- _.
      reflexivity.
    + intros strict date later' H. destruct strict; [discriminate|].
      injection H as <-. reflexivity.
    + intros text i later' H. unfold Objects.LearningObject_addGoal in H.
      destruct (LearningGoal_constructor text); cbn [bind] in H;
        [|discriminate].
      destruct (push _ _). injection H as _ <-. reflexivity.
    + intros index. unfold Objects.LearningObject_removeGoal.
      destruct (splice1 index _). reflexivity.
    + intros outcome i later' H. unfold Objects.LearningObject_addOutcome in H.
      destruct (if ToBoolean outcome then _ else _); cbn [bind] in H;
        [|discriminate].
      destruct (push _ _). injection H as _ <-. reflexivity.
    + intros index. unfold Objects.LearningObject_removeOutcome.
      destruct (splice1 index _). reflexivity.
    + intros v index.
      unfold Objects.LearningObject_addChild, Objects.LearningObject_removeChild,
        Objects.LearningObject_addContributor,
        Objects.LearningObject_removeContributor.
      destruct (push (Objects.LearningObject._children later) v),
        (splice1 index (Objects.LearningObject._children later)),
        (push (Objects.LearningObject._contributors later) v),
        (splice1 index (Objects.LearningObject._contributors later)).
      repeat split.
    + intros status later' H. unfold Objects.LearningObject_set_status in H.
      destruct (Objects.acceptStatus status); [|discriminate].
      destruct (strict_equals _ _); [discriminate|]. injection H as <-.
      reflexivity.
    + intros later' H.
      unfold Objects.LearningObject_publish,
        Objects.LearningObject_set_status in H.
      destruct (Objects.acceptStatus _); [|discriminate].
      destruct (strict_equals _ _); [discriminate|]. cbn [bind] in H.
      injection H as <-. reflexivity.
  - intros name obj' H. injection H as <-. reflexivity.
  - intros length obj' H. unfold Entity.LearningObject_set_length in H.
    destruct (Set_has lengths length); [|discriminate].
    injection H as <-. reflexivity.
  - intros repository obj' H. injection H as <-. reflexivity.
  - reflexivity.
  - intros i. reflexivity.
  - intros outcome obj' H. unfold Entity.LearningObject_addOutcome in H.
    destruct (Entity.LearningOutcome_constructor levels verbs (Some obj));
      simpl in H; [|discriminate].
    injection H as _ <-. reflexivity.
  - intros i. reflexivity.
  - intros date. eexists. split; reflexivity.
Qed.

(** The length of the sample object of each class, assigned: the later
    class takes the date from the clock, the other keeps its date. *)
Lemma date_changes_only_by_its_setter_witness :
  (exists later',
      Objects.LearningObject_set_length Sample.now (VStr "unit")
        Sample.later_object 7%nat = Ok (later', 8%nat) /\
      Objects.LearningObject_length later' = VStr "unit" /\
      Objects.LearningObject_date later' = VStr "1541030400007") /\
  (exists obj',
      Entity.LearningObject_set_length Sample.lengths (VStr "unit")
        Sample.object = Ok obj' /\
      Entity.LearningObject._length obj' = VStr "unit" /\
      Entity.LearningObject._date obj' = VStr "").
Proof.
  pose proof (date_changes_only_by_its_setter Sample.lengths Sample.levels
                Sample.verbs Sample.now Sample.LearningGoal_constructor
                Sample.object Sample.later_object 7%nat)
    as ((_ & Hlater & _) & _ & Hold & _).
  split.
  - eexists. split; [reflexivity|]. split; [reflexivity|].
    exact (Hlater (VStr "unit") _ _ eq_refl).
  - eexists. split; [reflexivity|]. split; [reflexivity|].
    exact (Hold (VStr "unit") _ eq_refl).
Defined.

(** C6, the counterexample.  In the later class, adding a goal and an
    outcome to the sample object, at a time when the clock has moved on,
    leaves its date as it was.  In the class of lib/learning-object.ts a
    fresh learning object has the empty string for a date; after its length
    is assigned and a goal and an outcome are added the date still is the
    empty string; and the date setter accepts an assignment from
    outside. *)
Lemma mutations_leave_date_alone :
  (exists l1 l2,
      Objects.LearningObject_date Sample.later_object = VStr "1541030400000" /\
      Sample.now 7%nat = 1541030400007 /\
      Objects.LearningObject_addGoal Sample.LearningGoal_constructor
        (VStr "know the ports") Sample.later_object = Ok (1, l1) /\
      Objects.LearningObject_addOutcome Sample.levels Sample.verbs VUndefined l1
      = Ok (0, l2) /\
      List.length (Objects.LearningObject._goals l2) = 2%nat /\
      List.length (Objects.LearningObject._outcomes l2) = 1%nat /\
      Objects.LearningObject_date l2 = VStr "1541030400000") /\
  exists o1 o2 outcome o3 o4,
    Entity.LearningObject._date
      (Entity.LearningObject_constructor Sample.lengths Sample.author
         (VStr "Networks")) = VStr "" /\
    Entity.LearningObject_set_length Sample.lengths (VStr "module")
      (Entity.LearningObject_constructor Sample.lengths Sample.author
         (VStr "Networks")) = Ok o1 /\
    Entity.LearningObject._length o1 = VStr "module" /\
    snd (Entity.LearningObject_addGoal o1) = o2 /\
    Entity.LearningObject_addOutcome Sample.levels Sample.verbs o2
    = Ok (outcome, o3) /\
    List.length (Entity.LearningObject._goals o3) = 1%nat /\
    List.length (Entity.LearningObject._outcomes o3) = 1%nat /\
    Entity.LearningObject._date o3 = VStr "" /\
    Entity.LearningObject_set_date (VStr "1999-12-31") o3 = Ok o4 /\
    Entity.LearningObject._date o4 = VStr "1999-12-31".
Proof.
  split.
  - eexists. eexists. repeat split.
  - do 5 eexists. repeat split.
Qed.

End Claims.

(* ===================================================================== *)
(** * Further properties of the classes                                   *)
(* ===================================================================== *)

(** ** Removal by index *)

Module SpliceFacts.
Import JS.
Local Open Scope list_scope.

Lemma firstn_skipn_middle {A : Type} (l1 l2 : list A) (x : A) :
  firstn (List.length l1) (l1 ++ x :: l2) = l1 /\
  skipn (S (List.length l1)) (l1 ++ x :: l2) = l2.
Proof.
  induction l1 as [|y l1 [IH1 IH2]]; simpl; [auto|].
  split; [f_equal; exact IH1|exact IH2].
Qed.

(** Removing at the position of an element takes that element out. *)
Lemma splice1_at {A : Type} (l1 l2 : list A) (x : A) :
  splice1 (Z.of_nat (List.length l1)) (l1 ++ x :: l2) = (Some x, l1 ++ l2).
Proof.
  unfold splice1.
  assert (Hlen : (List.length l1 <= List.length (l1 ++ x :: l2))%nat)
    by (rewrite length_app; lia).
  destruct (Z.ltb_spec (Z.of_nat (List.length l1)) 0); [lia|].
  rewrite Z.min_l by lia. rewrite Nat2Z.id. f_equal.
  - rewrite nth_error_app2 by lia. rewrite Nat.sub_diag. reflexivity.
  - destruct (firstn_skipn_middle l1 l2 x) as [-> ->]. reflexivity.
Qed.

(** A negative index counts from the end of the array. *)
Lemma splice1_negative {A : Type} (i : Z) (a : list A) :
  - Z.of_nat (List.length a) <= i < 0 ->
  splice1 i a = splice1 (Z.of_nat (List.length a) + i) a.
Proof.
  intros Hi. unfold splice1.
  destruct (Z.ltb_spec i 0); [|lia].
  destruct (Z.ltb_spec (Z.of_nat (List.length a) + i) 0); [lia|].
  rewrite Z.max_l by lia. rewrite Z.min_l by lia. reflexivity.
Qed.

(** An index below minus the length stands for the first position. *)
Lemma splice1_far_negative {A : Type} (i : Z) (a : list A) :
  i < - Z.of_nat (List.length a) -> splice1 i a = splice1 0 a.
Proof.
  intros Hi. unfold splice1.
  destruct (Z.ltb_spec i 0); [|lia].
  rewrite Z.max_r by lia. simpl. rewrite Z.min_l by lia. reflexivity.
Qed.

(** At or past the end nothing is removed. *)
Lemma splice1_past_end {A : Type} (i : Z) (a : list A) :
  Z.of_nat (List.length a) <= i -> splice1 i a = (None, a).
Proof.
  intros Hi. unfold splice1.
  destruct (Z.ltb_spec i 0); [lia|].
  rewrite Z.min_r by lia. rewrite Nat2Z.id. f_equal.
  - apply nth_error_None. lia.
  - rewrite firstn_all, skipn_all2 by lia. apply List.app_nil_r.
Qed.

(** What [splice1] leaves is the array without at most one element. *)
Lemma splice1_cases {A : Type} (i : Z) (a : list A) :
  splice1 i a = (None, a) \/
  exists l1 x l2, a = l1 ++ x :: l2 /\ splice1 i a = (Some x, l1 ++ l2).
Proof.
  unfold splice1.
  set (k := Z.to_nat (if i <? 0
                      then Z.max (Z.of_nat (List.length a) + i) 0
                      else Z.min i (Z.of_nat (List.length a)))).
  destruct (nth_error a k) as [x|] eqn:E.
  - right. apply nth_error_split in E. destruct E as (l1 & l2 & -> & Hk).
    exists l1, x, l2. split; [reflexivity|]. f_equal. rewrite <- Hk.
    destruct (firstn_skipn_middle l1 l2 x) as [-> ->]. reflexivity.
  - left. f_equal. apply nth_error_None in E.
    rewrite firstn_all2, skipn_all2 by lia. apply List.app_nil_r.
Qed.

End SpliceFacts.

(** ** Collections of a learning object and of a learning outcome *)

Module Collections.
Import JS SpliceFacts.
Local Open Scope list_scope.

Lemma with_goals_same (o : Entity.LearningObject.t) :
  Entity.with_goals (Entity.LearningObject._goals o) o = o.
Proof. destruct o. reflexivity. Qed.

Lemma with_outcomes_same (o : Entity.LearningObject.t) :
  Entity.with_outcomes (Entity.LearningObject._outcomes o) o = o.
Proof. destruct o. reflexivity. Qed.

(** X1.  [removeGoal(i)] removes by position: at the position of a goal it
    returns that goal and keeps the goals before and after it in order; a
    negative index counts from the end; an index at or past the end returns
    [undefined] and leaves the object as it is; an index below minus the
    length removes the first goal. *)
Theorem removeGoal_by_index (o : Entity.LearningObject.t) :
  (forall l1 g l2,
      Entity.LearningObject._goals o = l1 ++ g :: l2 ->
      Entity.LearningObject_removeGoal (Z.of_nat (List.length l1)) o
      = (Some g, Entity.with_goals (l1 ++ l2) o) /\
      Entity.LearningObject_removeGoal (- Z.of_nat (S (List.length l2))) o
      = (Some g, Entity.with_goals (l1 ++ l2) o)) /\
  (forall i,
      Z.of_nat (List.length (Entity.LearningObject._goals o)) <= i ->
      Entity.LearningObject_removeGoal i o = (None, o)) /\
  (forall i,
      i < - Z.of_nat (List.length (Entity.LearningObject._goals o)) ->
      Entity.LearningObject_removeGoal i o
      = Entity.LearningObject_removeGoal 0 o).
Proof.
  unfold Entity.LearningObject_removeGoal. repeat split.
  - rewrite H, splice1_at. reflexivity.
  - rewrite H, splice1_negative.
    + replace (Z.of_nat (List.length (l1 ++ g :: l2))
               + - Z.of_nat (S (List.length l2)))
        with (Z.of_nat (List.length l1))
        by (rewrite length_app; simpl List.length; lia).
      rewrite splice1_at. reflexivity.
    + rewrite length_app. simpl List.length. lia.
  - intros i Hi. rewrite (splice1_past_end i _ Hi).
    rewrite with_goals_same. reflexivity.
  - intros i Hi. rewrite (splice1_far_negative i _ Hi). reflexivity.
Qed.

Lemma removeGoal_by_index_witness :
  Entity.LearningObject_removeGoal 0 Sample.object
  = (Some (Entity.LearningGoal.Build_t (VStr "know the layers")),
     Entity.with_goals [Entity.LearningGoal.Build_t (VStr "")] Sample.object) /\
  Entity.LearningObject_removeGoal 2 Sample.object = (None, Sample.object).
Proof.
  split.
  - exact (proj1 (proj1 (removeGoal_by_index Sample.object) []
                    (Entity.LearningGoal.Build_t (VStr "know the layers"))
                    [Entity.LearningGoal.Build_t (VStr "")] eq_refl)).
  - apply (proj1 (proj2 (removeGoal_by_index Sample.object))). simpl. lia.
Defined.

(** X2.  Adding a goal or an outcome and removing at the position it was
    added at, or at -1, returns the added element and gives back the object
    as it was before the addition. *)
Theorem add_then_remove_restores
    (levels : list string) (verbs : list (string * list string))
    (o : Entity.LearningObject.t) :
  (Entity.LearningObject_removeGoal
     (Z.of_nat (List.length (Entity.LearningObject._goals o)))
     (snd (Entity.LearningObject_addGoal o))
   = (Some (fst (Entity.LearningObject_addGoal o)), o) /\
   Entity.LearningObject_removeGoal (-1)
     (snd (Entity.LearningObject_addGoal o))
   = (Some (fst (Entity.LearningObject_addGoal o)), o)) /\
  forall outcome o1,
    Entity.LearningObject_addOutcome levels verbs o = Ok (outcome, o1) ->
    Entity.LearningObject_removeOutcome
      (Z.of_nat (List.length (Entity.LearningObject._outcomes o))) o1
    = (Some outcome, o) /\
    Entity.LearningObject_removeOutcome (-1) o1 = (Some outcome, o).
Proof.
  assert (Hlast : forall (A : Type) (a : list A) (x : A),
             splice1 (Z.of_nat (List.length a)) (a ++ [x]) = (Some x, a) /\
             splice1 (-1) (a ++ [x]) = (Some x, a)).
  { intros A a x.
    pose proof (splice1_at a [] x) as H. rewrite List.app_nil_r in H.
    split; [exact H|].
    rewrite splice1_negative by (rewrite length_app; simpl; lia).
    replace (Z.of_nat (List.length (a ++ [x])) + -1)
      with (Z.of_nat (List.length a)) by (rewrite length_app; simpl; lia).
    exact H. }
  split.
  - unfold Entity.LearningObject_removeGoal.
    change (Entity.LearningObject._goals
              (snd (Entity.LearningObject_addGoal o)))
      with (Entity.LearningObject._goals o
            ++ [Entity.LearningGoal_constructor o]).
    destruct (Hlast _ (Entity.LearningObject._goals o)
                (Entity.LearningGoal_constructor o)) as [-> ->].
    destruct o; split; reflexivity.
  - intros outcome o1 H. unfold Entity.LearningObject_addOutcome in H.
    destruct (Entity.LearningOutcome_constructor levels verbs (Some o))
      as [out|]; simpl in H; [|discriminate].
    injection H as <- <-.
    unfold Entity.LearningObject_removeOutcome.
    change (Entity.LearningObject._outcomes
              (Entity.with_outcomes
                 (fst (push (Entity.LearningObject._outcomes o) out)) o))
      with (Entity.LearningObject._outcomes o ++ [out]).
    change (Entity.LearningObject._outcomes
              (Entity.with_outcomes
                 (Entity.LearningObject._outcomes o ++ [out]) o))
      with (Entity.LearningObject._outcomes o ++ [out]).
    destruct (Hlast _ (Entity.LearningObject._outcomes o) out) as [-> ->].
    destruct o; split; reflexivity.
Qed.

Lemma add_then_remove_restores_witness :
  exists outcome o1,
    Entity.LearningObject_addOutcome Sample.levels Sample.verbs Sample.object
    = Ok (outcome, o1) /\
    Entity.LearningObject_removeOutcome (-1) o1 = (Some outcome, Sample.object).
Proof.
  eexists. eexists. split; [reflexivity|].
  exact (proj2 (proj2 (add_then_remove_restores Sample.levels Sample.verbs
                         Sample.object) _ _ eq_refl)).
Defined.

(** X3.  In lib/learning-outcome/learning-outcome.ts the number [mapTo]
    returns is the position [unmap] takes: unmapping what [mapTo] returned
    gives back the mapping and the outcome as it was. *)
Theorem unmap_undoes_mapTo
    (mapping : Outcomes.StandardOutcome.t) (o : Outcomes.LearningOutcome.t) :
  Outcomes.LearningOutcome_unmap
    (fst (Outcomes.LearningOutcome_mapTo mapping o))
    (snd (Outcomes.LearningOutcome_mapTo mapping o))
  = (Some mapping, o).
Proof.
  unfold Outcomes.LearningOutcome_unmap, Outcomes.LearningOutcome_mapTo, push.
  cbn [fst snd Outcomes.LearningOutcome._mappings].
  replace (Z.of_nat (List.length (Outcomes.LearningOutcome._mappings o ++ [mapping])) - 1)
    with (Z.of_nat (List.length (Outcomes.LearningOutcome._mappings o)))
    by (rewrite length_app; simpl; lia).
  pose proof (splice1_at (Outcomes.LearningOutcome._mappings o) [] mapping) as H.
  rewrite List.app_nil_r in H. rewrite H. destruct o. reflexivity.
Qed.

(** X4.  In lib/learning-outcome.ts the number [mapTo] returns is one past
    the position of the new mapping: unmapping at that number removes
    nothing and returns [undefined], and unmapping at one less gives back
    the mapping and the outcome as it was. *)
Theorem unmap_after_mapTo_is_off_by_one
    (mapping : value) (o o1 : Entity.LearningOutcome.t) (n : Z) :
  Entity.LearningOutcome_mapTo mapping o = Ok (n, o1) ->
  Entity.LearningOutcome_unmap n o1 = Ok (None, o1) /\
  Entity.LearningOutcome_unmap (n - 1) o1 = Ok (Some mapping, o).
Proof.
  unfold Entity.LearningOutcome_mapTo, Entity.LearningOutcome_unmap, push.
  destruct (Entity.LearningOutcome._mappings o) as [| | | | |a|] eqn:E;
    try discriminate.
  intros H. injection H as <- <-.
  cbn [Entity.with_mappings Entity.LearningOutcome._mappings]. split.
  - rewrite splice1_past_end by lia. reflexivity.
  - replace (Z.of_nat (List.length (a ++ [mapping])) - 1)
      with (Z.of_nat (List.length a)) by (rewrite length_app; simpl; lia).
    pose proof (splice1_at a [] mapping) as H.
    rewrite List.app_nil_r in H. rewrite H.
    destruct o. simpl in E. subst. reflexivity.
Qed.

Lemma unmap_after_mapTo_is_off_by_one_witness :
  Entity.LearningOutcome_unmap 1
    (Entity.with_mappings (VArr [VObj []]) (Sample.outcome_tagged (VNum 0)))
  = Ok (None,
        Entity.with_mappings (VArr [VObj []]) (Sample.outcome_tagged (VNum 0))).
Proof.
  exact (proj1 (unmap_after_mapTo_is_off_by_one (VObj [])
                  (Sample.outcome_tagged (VNum 0)) _ 1 eq_refl)).
Defined.

End Collections.

(** ** Tags under addition and removal of outcomes *)

Module TagInvariants.
Import JS TagFacts SpliceFacts.
Local Open Scope list_scope.

(** [n] calls of [addOutcome] in a row. *)
Fixpoint addOutcomes (levels : list string) (verbs : list (string * list string))
    (n : nat) (o : Entity.LearningObject.t) : result Entity.LearningObject.t :=
  match n with
  | O => Ok o
  | S n' =>
      r <- Entity.LearningObject_addOutcome levels verbs o ;;
      addOutcomes levels verbs n' (snd r)
  end.

(** The tags 0, 1, ..., n-1. *)
Definition first_tags (n : nat) : list value :=
  map (fun k => VNum (Z.of_nat k)) (seq 0 n).

Lemma addOutcome_tags (levels : list string) (verbs : list (string * list string))
    (o o1 : Entity.LearningObject.t) (outcome : Entity.LearningOutcome.t) :
  Entity.LearningObject_addOutcome levels verbs o = Ok (outcome, o1) ->
  Entity.LearningOutcome._tag outcome
  = VNum (Entity.search (Entity.LearningObject._outcomes o) 0) /\
  tags o1 = tags o ++ [Entity.LearningOutcome._tag outcome].
Proof.
  unfold Entity.LearningObject_addOutcome, Entity.LearningOutcome_constructor.
  simpl. destruct (Array_from_entry_0 verbs (Array_from_0 levels)); simpl;
    [|discriminate].
  intros H. injection H as <- <-. split; [reflexivity|].
  unfold tags. simpl. rewrite map_app. reflexivity.
Qed.

Lemma search_not_in (o : Entity.LearningObject.t) :
  ~ In (VNum (Entity.search (Entity.LearningObject._outcomes o) 0)) (tags o).
Proof.
  destruct (search_first_free (Entity.LearningObject._outcomes o) 0)
    as (_ & Hfree & _).
  intros Hin. apply scan_In in Hin. congruence.
Qed.

Lemma In_first_tags (n : nat) (k : Z) :
  In (VNum k) (first_tags n) <-> 0 <= k < Z.of_nat n.
Proof.
  unfold first_tags. rewrite in_map_iff. split.
  - intros (j & E & Hj). injection E as <-. apply in_seq in Hj. lia.
  - intros Hk. exists (Z.to_nat k). split.
    + f_equal. lia.
    + apply in_seq. lia.
Qed.

Lemma search_first_tags (o : Entity.LearningObject.t) (n : nat) :
  tags o = first_tags n ->
  Entity.search (Entity.LearningObject._outcomes o) 0 = Z.of_nat n.
Proof.
  intros Ht.
  destruct (search_first_free (Entity.LearningObject._outcomes o) 0)
    as (Hle & Hfree & Hbelow).
  set (t := Entity.search (Entity.LearningObject._outcomes o) 0) in *.
  assert (Hfree' : ~ In (VNum t) (first_tags n)).
  { rewrite <- Ht. intros Hin. apply scan_In in Hin. congruence. }
  rewrite In_first_tags in Hfree'.
  destruct (Z.lt_trichotomy t (Z.of_nat n)) as [Hlt|[Heq|Hgt]];
    [lia|exact Heq|].
  assert (Hin : In (VNum (Z.of_nat n)) (first_tags n)).
  { rewrite <- Ht. apply scan_In. apply Hbelow. lia. }
  rewrite In_first_tags in Hin. lia.
Qed.

Lemma first_tags_S (n : nat) :
  first_tags (S n) = first_tags n ++ [VNum (Z.of_nat n)].
Proof. unfold first_tags. rewrite seq_S, map_app. reflexivity. Qed.

Lemma NoDup_splice1 {A : Type} (i : Z) (a : list A) :
  NoDup a -> NoDup (snd (splice1 i a)).
Proof.
  intros Ha. destruct (splice1_cases i a) as [->|(l1 & x & l2 & -> & ->)];
    simpl; [exact Ha|].
  apply NoDup_remove_1 in Ha. exact Ha.
Qed.

(** X5.  Tags stay unique: a fresh learning object has no outcomes; when
    the tags of the outcomes are pairwise different, the outcome that
    [addOutcome] adds carries a tag none of them has, so the tags are
    pairwise different after [addOutcome], and they are after
    [removeOutcome], whatever the index. *)
Theorem tags_stay_unique
    (lengths levels : list string) (verbs : list (string * list string))
    (o : Entity.LearningObject.t) :
  NoDup (tags o) ->
  (forall author name,
      tags (Entity.LearningObject_constructor lengths author name) = []) /\
  (forall outcome o1,
      Entity.LearningObject_addOutcome levels verbs o = Ok (outcome, o1) ->
      ~ In (Entity.LearningOutcome._tag outcome) (tags o) /\
      NoDup (tags o1)) /\
  (forall i, NoDup (tags (snd (Entity.LearningObject_removeOutcome i o)))).
Proof.
  intros Hnd. split; [reflexivity|]. split.
  - intros outcome o1 H.
    destruct (addOutcome_tags _ _ _ _ _ H) as [Ht Htags].
    assert (Hfresh : ~ In (Entity.LearningOutcome._tag outcome) (tags o))
      by (rewrite Ht; apply search_not_in).
    split; [exact Hfresh|]. rewrite Htags.
    apply NoDup_app; [exact Hnd|repeat constructor; simpl; tauto|].
    intros x Hx [<-|[]]. exact (Hfresh Hx).
  - intros i. unfold Entity.LearningObject_removeOutcome, tags in *.
    destruct (splice1_cases i (Entity.LearningObject._outcomes o))
      as [->|(l1 & x & l2 & E & ->)]; simpl.
    + exact Hnd.
    + rewrite E, map_app in Hnd. simpl in Hnd.
      apply NoDup_remove_1 in Hnd. rewrite map_app. exact Hnd.
Qed.

Lemma tags_stay_unique_witness :
  exists outcome o1,
    Entity.LearningObject_addOutcome Sample.levels Sample.verbs Sample.object
    = Ok (outcome, o1) /\
    NoDup (tags o1).
Proof.
  assert (Hnd : NoDup (tags Sample.object)).
  { repeat constructor; simpl; intuition discriminate. }
  eexists. eexists. split; [reflexivity|].
  exact (proj2 (proj1 (proj2 (tags_stay_unique Sample.lengths Sample.levels
                                Sample.verbs Sample.object Hnd))
                  _ _ eq_refl)).
Defined.

(** X6.  Adding [n] outcomes to a learning object without outcomes gives
    them the tags 0, 1, ..., n-1 in the order of addition; the additions
    complete whenever the taxonomy has a verb set for its first level. *)
Theorem added_outcomes_are_numbered
    (levels : list string) (verbs : list (string * list string))
    (set : list string) (n : nat) (o : Entity.LearningObject.t) :
  index verbs (Array_from_0 levels) = Some set ->
  Entity.LearningObject._outcomes o = [] ->
  exists o',
    addOutcomes levels verbs n o = Ok o' /\
    tags o' = first_tags n /\
    List.length (Entity.LearningObject._outcomes o') = n.
Proof.
  intros Hset Hempty.
  assert (Hgen : forall n k o,
             tags o = first_tags k ->
             exists o', addOutcomes levels verbs n o = Ok o' /\
                        tags o' = first_tags (k + n)).
  { clear o Hempty n. induction n as [|n IH]; intros k o Ht.
    - exists o. rewrite Nat.add_0_r. split; [reflexivity|exact Ht].
    - assert (Hc : exists outcome,
                 Entity.LearningOutcome_constructor levels verbs (Some o)
                 = Ok outcome).
      { unfold Entity.LearningOutcome_constructor. simpl.
        rewrite (TagFacts.Array_from_entry_0_own _ _ _ Hset).
        simpl. eexists. reflexivity. }
      destruct Hc as [outcome Hc].
      simpl. unfold Entity.LearningObject_addOutcome at 1. rewrite Hc. simpl.
      assert (Hadd : Entity.LearningObject_addOutcome levels verbs o
                     = Ok (outcome,
                           Entity.with_outcomes
                             (Entity.LearningObject._outcomes o ++ [outcome]) o)).
      { unfold Entity.LearningObject_addOutcome. rewrite Hc. reflexivity. }
      destruct (addOutcome_tags _ _ _ _ _ Hadd) as [Htag Htags].
      rewrite (search_first_tags o k Ht) in Htag.
      rewrite Htag, Ht, <- first_tags_S in Htags.
      destruct (IH (S k) _ Htags) as (o' & Ho' & Ht').
      exists o'. split; [exact Ho'|].
      rewrite Ht'. f_equal. lia. }
  destruct (Hgen n 0%nat o) as (o' & Ho' & Ht').
  { unfold tags. rewrite Hempty. reflexivity. }
  exists o'. repeat split; [exact Ho'|exact Ht'|].
  unfold tags in Ht'. apply (f_equal (@List.length value)) in Ht'.
  unfold first_tags in Ht'. rewrite !length_map, length_seq in Ht'. exact Ht'.
Qed.

Lemma added_outcomes_are_numbered_witness :
  exists o',
    addOutcomes Sample.levels Sample.verbs 3
      (Entity.LearningObject_constructor Sample.lengths Sample.author
         (VStr "Networks")) = Ok o' /\
    tags o' = [VNum 0; VNum 1; VNum 2].
Proof.
  destruct (added_outcomes_are_numbered Sample.levels Sample.verbs
              ["define"; "list"; "recall"] 3
              (Entity.LearningObject_constructor Sample.lengths Sample.author
                 (VStr "Networks")) eq_refl eq_refl)
    as (o' & Ho' & Ht' & _).
  exists o'. split; assumption.
Defined.

End TagInvariants.

(** ** Invariants of learning objects *)

Module ObjectInvariants.
Import JS TagFacts SpliceFacts TagInvariants.
Local Open Scope list_scope.

Section Steps.
Variable lengths levels : list string.
Variable verbs : list (string * list string).

(** One call of a setter or method of LearningObject that completes. *)
Inductive step : Entity.LearningObject.t -> Entity.LearningObject.t -> Prop :=
| step_name (v : value) (o o' : Entity.LearningObject.t) :
    Entity.LearningObject_set_name v o = Ok o' -> step o o'
| step_date (v : value) (o o' : Entity.LearningObject.t) :
    Entity.LearningObject_set_date v o = Ok o' -> step o o'
| step_length (v : value) (o o' : Entity.LearningObject.t) :
    Entity.LearningObject_set_length lengths v o = Ok o' -> step o o'
| step_repository (v : value) (o o' : Entity.LearningObject.t) :
    Entity.LearningObject_set_repository v o = Ok o' -> step o o'
| step_addGoal (o : Entity.LearningObject.t) :
    step o (snd (Entity.LearningObject_addGoal o))
| step_removeGoal (i : Z) (o : Entity.LearningObject.t) :
    step o (snd (Entity.LearningObject_removeGoal i o))
| step_addOutcome (o o' : Entity.LearningObject.t)
    (outcome : Entity.LearningOutcome.t) :
    Entity.LearningObject_addOutcome levels verbs o = Ok (outcome, o') ->
    step o o'
| step_removeOutcome (i : Z) (o : Entity.LearningObject.t) :
    step o (snd (Entity.LearningObject_removeOutcome i o)).

(** The learning objects one gets from the constructor, called with
    [author], by such calls. *)
Inductive built (author : value) : Entity.LearningObject.t -> Prop :=
| built_new (name : value) :
    built author (Entity.LearningObject_constructor lengths author name)
| built_step (o o' : Entity.LearningObject.t) :
    built author o -> step o o' -> built author o'.

(** Every tag is a number that is not negative. *)
Definition tags_are_numbers (o : Entity.LearningObject.t) : Prop :=
  Forall (fun t => exists n, t = VNum n /\ 0 <= n) (tags o).

Definition invariant (author : value) (o : Entity.LearningObject.t) : Prop :=
  Entity.LearningObject._author o = author /\
  Set_has lengths (Entity.LearningObject._length o) = true /\
  NoDup (tags o) /\
  tags_are_numbers o.

Lemma Forall_splice1 {A : Type} (P : A -> Prop) (i : Z) (a : list A) :
  Forall P a -> Forall P (snd (splice1 i a)).
Proof.
  intros Ha. destruct (splice1_cases i a) as [->|(l1 & x & l2 & -> & ->)];
    simpl; [exact Ha|].
  apply Forall_app in Ha. destruct Ha as [H1 H2].
  apply Forall_app. split; [exact H1|]. inversion H2; assumption.
Qed.

Lemma splice1_map {A B : Type} (f : A -> B) (i : Z) (a : list A) :
  snd (splice1 i (map f a)) = map f (snd (splice1 i a)).
Proof.
  unfold splice1. cbn [snd]. rewrite length_map, map_app, firstn_map, skipn_map.
  reflexivity.
Qed.

Lemma removeOutcome_unfold (i : Z) (o : Entity.LearningObject.t) :
  Entity.LearningObject_removeOutcome i o =
  (fst (splice1 i (Entity.LearningObject._outcomes o)),
   Entity.with_outcomes (snd (splice1 i (Entity.LearningObject._outcomes o))) o).
Proof.
  unfold Entity.LearningObject_removeOutcome.
  destruct (splice1 i (Entity.LearningObject._outcomes o)). reflexivity.
Qed.

Lemma step_invariant (author : value) (o o' : Entity.LearningObject.t) :
  step o o' -> invariant author o -> invariant author o'.
Proof.
  intros Hstep (Ha & Hl & Hnd & Hnum).
  destruct Hstep as [v o o' H|v o o' H|v o o' H|v o o' H|o|i o|o o' out H|i o].
  - injection H as <-. repeat split; assumption.
  - injection H as <-. repeat split; assumption.
  - unfold Entity.LearningObject_set_length in H.
    destruct (Set_has lengths v) eqn:E; [|discriminate].
    injection H as <-. repeat split; assumption.
  - injection H as <-. repeat split; assumption.
  - repeat split; assumption.
  - unfold Entity.LearningObject_removeGoal.
    destruct (splice1 i (Entity.LearningObject._goals o)).
    repeat split; assumption.
  - destruct (addOutcome_tags _ _ _ _ _ H) as [Ht Htags].
    assert (Hfresh : ~ In (Entity.LearningOutcome._tag out) (tags o))
      by (rewrite Ht; apply search_not_in).
    unfold Entity.LearningObject_addOutcome in H.
    destruct (Entity.LearningOutcome_constructor levels verbs (Some o));
      simpl in H; [|discriminate].
    injection H as <- <-. repeat split; try assumption.
    + rewrite Htags. apply NoDup_app; [exact Hnd|repeat constructor; simpl; tauto|].
      intros x Hx [<-|[]]. exact (Hfresh Hx).
    + unfold tags_are_numbers. rewrite Htags. apply Forall_app.
      split; [exact Hnum|]. constructor; [|constructor].
      eexists. split; [exact Ht|].
      apply (search_first_free (Entity.LearningObject._outcomes o) 0).
  - rewrite removeOutcome_unfold.
    unfold invariant, tags_are_numbers, tags in *.
    cbn [snd Entity.with_outcomes Entity.LearningObject._outcomes
           Entity.LearningObject._author Entity.LearningObject._length].
    rewrite <- splice1_map. repeat split; try assumption.
    + apply NoDup_splice1, Hnd.
    + apply Forall_splice1, Hnum.
Qed.

End Steps.

(** X7.  Whatever sequence of setters and of [addGoal], [removeGoal],
    [addOutcome] and [removeOutcome] calls a learning object has gone
    through since its construction, its author is the one it was
    constructed with, its length is a member of the length set (given that
    the set is not empty), and the tags of its outcomes are pairwise
    different numbers that are not negative. *)
Theorem built_objects_keep_invariants
    (lengths levels : list string) (verbs : list (string * list string))
    (author : value) (o : Entity.LearningObject.t) :
  lengths <> [] ->
  built lengths levels verbs author o ->
  Entity.LearningObject._author o = author /\
  Set_has lengths (Entity.LearningObject._length o) = true /\
  NoDup (tags o) /\
  tags_are_numbers o.
Proof.
  intros Hne Hb. change (invariant lengths author o).
  induction Hb as [name|o o' Hb IH Hstep].
  - repeat split; try constructor.
    destruct lengths as [|l ls]; [congruence|].
    simpl. rewrite String.eqb_refl. reflexivity.
  - exact (step_invariant lengths levels verbs author o o' Hstep IH).
Qed.

Lemma built_objects_keep_invariants_witness :
  Set_has Sample.lengths
    (Entity.LearningObject._length
       (Entity.with_length (VStr "unit")
          (Entity.LearningObject_constructor Sample.lengths Sample.author
             VUndefined))) = true.
Proof.
  assert (Hb : built Sample.lengths Sample.levels Sample.verbs Sample.author
                 (Entity.with_length (VStr "unit")
                    (Entity.LearningObject_constructor Sample.lengths
                       Sample.author VUndefined))).
  { eapply built_step; [apply built_new|].
    apply step_length with (v := VStr "unit"). reflexivity. }
  assert (Hne : Sample.lengths <> []) by discriminate.
  exact (proj1 (proj2 (built_objects_keep_invariants Sample.lengths
                         Sample.levels Sample.verbs Sample.author _ Hne Hb))).
Defined.

End ObjectInvariants.

(** ** Bloom, verb and assessment plans of a learning outcome
       (lib/learning-outcome.ts) *)

Module OutcomeInvariants.
Import JS.
Local Open Scope list_scope.

(** The verb of an outcome is one of the verbs of its bloom. *)
Definition verb_legal (verbs : list (string * list string))
    (o : Entity.LearningOutcome.t) : Prop :=
  exists set,
    index verbs (Entity.LearningOutcome._bloom o) = Some set /\
    Set_has set (Entity.LearningOutcome._verb o) = true.

(** The plan of an assessment plan is one of the plans of its bloom
    snapshot. *)
Definition plan_legal (assessments : list (string * list string))
    (a : Entity.AssessmentPlan.t) : Prop :=
  exists set,
    index assessments (Entity.AssessmentPlan._sourceBloom a) = Some set /\
    Set_has set (Entity.AssessmentPlan._plan a) = true.

(** X8.  The constructor gives an outcome the first level and the first verb
    of that level, a legal pair when both exist.  A [verb] assignment that
    completes leaves a verb of the current bloom.  A [bloom] assignment that
    completes stores a level and leaves the verb as it was, without
    checking it again: when the verb is no verb of the new bloom, the
    outcome holds a verb its own setter refuses. *)
Theorem bloom_change_keeps_verb
    (levels : list string) (verbs : list (string * list string))
    (o : Entity.LearningOutcome.t) :
  (forall source outcome level rest verb others,
      levels = level :: rest ->
      index verbs (VStr level) = Some (verb :: others) ->
      Entity.LearningOutcome_constructor levels verbs source = Ok outcome ->
      Entity.LearningOutcome._bloom outcome = VStr level /\
      Entity.LearningOutcome._verb outcome = VStr verb /\
      verb_legal verbs outcome) /\
  (forall verb o',
      Entity.LearningOutcome_set_verb verbs verb o = Ok o' ->
      Entity.LearningOutcome._verb o' = verb /\
      Entity.LearningOutcome._bloom o' = Entity.LearningOutcome._bloom o /\
      verb_legal verbs o') /\
  (forall bloom o',
      Entity.LearningOutcome_set_bloom levels bloom o = Ok o' ->
      Set_has levels bloom = true /\
      Entity.LearningOutcome._bloom o' = bloom /\
      Entity.LearningOutcome._verb o' = Entity.LearningOutcome._verb o /\
      (forall set,
          index verbs bloom = Some set ->
          Set_has set (Entity.LearningOutcome._verb o) = false ->
          ~ verb_legal verbs o' /\
          exists e,
            Entity.LearningOutcome_set_verb verbs
              (Entity.LearningOutcome._verb o') o' = Throw e)).
Proof.
  split; [|split].
  - intros source outcome level rest verb others Hl Hv H.
    unfold Entity.LearningOutcome_constructor in H.
    destruct source as [src|]; [|discriminate]. simpl in H.
    rewrite Hl in H. simpl in H.
    rewrite (TagFacts.Array_from_entry_0_own _ _ _ Hv) in H. simpl in H.
    injection H as <-. simpl. repeat split.
    exists (verb :: others). split; [exact Hv|].
    simpl. rewrite String.eqb_refl. reflexivity.
  - intros verb o' H. unfold Entity.LearningOutcome_set_verb in H.
    destruct (index verbs (Entity.LearningOutcome._bloom o)) as [set|] eqn:E;
      [|discriminate].
    destruct (Set_has set verb) eqn:Ev; [|discriminate].
    injection H as <-. simpl. repeat split.
    exists set. split; assumption.
  - intros bloom o' H. unfold Entity.LearningOutcome_set_bloom in H.
    destruct (Set_has levels bloom) eqn:E; [|discriminate].
    injection H as <-. simpl. repeat split.
    + intros (set' & Hs & Hv). simpl in Hs, Hv. congruence.
    + unfold Entity.LearningOutcome_set_verb. simpl. rewrite H, H0.
      eexists. reflexivity.
Qed.

Lemma bloom_change_keeps_verb_witness :
  exists o',
    Entity.LearningOutcome_set_bloom Sample.levels (VStr "apply")
      (Sample.outcome_tagged (VNum 0)) = Ok o' /\
    Entity.LearningOutcome._verb o' = VStr "define" /\
    ~ verb_legal Sample.verbs o'.
Proof.
  eexists. split; [reflexivity|].
  destruct (proj2 (proj2 (bloom_change_keeps_verb Sample.levels Sample.verbs
                            (Sample.outcome_tagged (VNum 0))))
              (VStr "apply") _ eq_refl) as (_ & _ & Hv & Hstale).
  split; [exact Hv|].
  exact (proj1 (Hstale ["use"; "solve"] eq_refl eq_refl)).
Defined.

(** X9.  An assessment plan takes its bloom from the outcome at the moment
    [addAssessment] creates it and keeps it.  The plan it starts with is
    the first plan of that bloom, a legal plan, when the table has a set
    with a plan in it for the bloom; it is [undefined], and no legal plan,
    when that set is empty or when the bloom names what the table inherits
    ([constructor], [toString], ...).  Every plan a later assignment stores
    is a plan of the bloom of the snapshot, and a later change of the
    outcome's bloom leaves the assessment plans of the outcome, and so their
    bloom, as they were. *)
Theorem assessment_keeps_its_bloom
    (levels : list string) (assessments : list (string * list string))
    (o o1 : Entity.LearningOutcome.t) (a : Entity.AssessmentPlan.t) :
  Entity.LearningOutcome_addAssessment assessments o = Ok (a, o1) ->
  Entity.AssessmentPlan._sourceBloom a = Entity.LearningOutcome._bloom o /\
  Entity.LearningOutcome._assessments o1
  = Entity.LearningOutcome._assessments o ++ [a] /\
  Entity.AssessmentPlan._plan a
  = match index assessments (Entity.LearningOutcome._bloom o) with
    | Some (first :: _) => VStr first
    | _ => VUndefined
    end /\
  (index assessments (Entity.LearningOutcome._bloom o) = None ->
   inherited (Entity.LearningOutcome._bloom o) = true) /\
  (plan_legal assessments a <->
   exists first others,
     index assessments (Entity.LearningOutcome._bloom o)
     = Some (first :: others)) /\
  (forall plan a',
      Entity.AssessmentPlan_set_plan assessments plan a = Ok a' ->
      Entity.AssessmentPlan._sourceBloom a' = Entity.LearningOutcome._bloom o /\
      Entity.AssessmentPlan._plan a' = plan /\
      plan_legal assessments a') /\
  (forall bloom o2,
      Entity.LearningOutcome_set_bloom levels bloom o1 = Ok o2 ->
      Entity.LearningOutcome._assessments o2
      = Entity.LearningOutcome._assessments o ++ [a]).
Proof.
  unfold Entity.LearningOutcome_addAssessment, Entity.AssessmentPlan_constructor,
    Array_from_entry_0.
  destruct (index assessments (Entity.LearningOutcome._bloom o)) as [set|] eqn:E.
  - simpl. intros H. injection H as <- <-.
    split; [reflexivity|]. split; [reflexivity|].
    split; [destruct set; reflexivity|]. split; [discriminate|].
    split; [|split].
    + unfold plan_legal.
      cbn [Entity.AssessmentPlan._sourceBloom Entity.AssessmentPlan._plan].
      split.
      * intros (set' & Hs & Hp). rewrite E in Hs. injection Hs as <-.
        destruct set as [|first others]; [discriminate|].
        exists first, others. reflexivity.
      * intros (first & others & Hs). injection Hs as ->.
        exists (first :: others). split; [exact E|].
        simpl. rewrite String.eqb_refl. reflexivity.
    + intros plan a' H. unfold Entity.AssessmentPlan_set_plan in H.
      simpl in H. rewrite E in H.
      destruct (Set_has set plan) eqn:Ep; [|discriminate]. injection H as <-.
      split; [reflexivity|]. split; [reflexivity|].
      exists set. split; assumption.
    + intros bloom o2 H. unfold Entity.LearningOutcome_set_bloom in H.
      destruct (Set_has levels bloom); [|discriminate]. injection H as <-.
      reflexivity.
  - destruct (inherited (Entity.LearningOutcome._bloom o)) eqn:Ei;
      [|discriminate].
    simpl. intros H. injection H as <- <-.
    split; [reflexivity|]. split; [reflexivity|]. split; [reflexivity|].
    split; [reflexivity|]. split; [|split].
    + unfold plan_legal.
      cbn [Entity.AssessmentPlan._sourceBloom Entity.AssessmentPlan._plan].
      split.
      * intros (set' & Hs & _). rewrite E in Hs. discriminate.
      * intros (first & others & Hs). discriminate.
    + intros plan a' H. unfold Entity.AssessmentPlan_set_plan in H.
      simpl in H. rewrite E in H. discriminate.
    + intros bloom o2 H. unfold Entity.LearningOutcome_set_bloom in H.
      destruct (Set_has levels bloom); [|discriminate]. injection H as <-.
      reflexivity.
Qed.

(** An outcome with the bloom [remember] gets the plan [quiz]; an outcome
    whose bloom was read as [constructor] gets a plan that is [undefined]. *)
Lemma assessment_keeps_its_bloom_witness :
  (exists a o1,
      Entity.LearningOutcome_addAssessment Sample.assessments
        (Sample.outcome_tagged (VNum 0)) = Ok (a, o1) /\
      Entity.AssessmentPlan._sourceBloom a = VStr "remember" /\
      Entity.AssessmentPlan._plan a = VStr "quiz") /\
  (exists a o1,
      Entity.LearningOutcome_addAssessment Sample.assessments
        (Entity.with_bloom (VStr "constructor") (Sample.outcome_tagged (VNum 0)))
      = Ok (a, o1) /\
      Entity.AssessmentPlan._plan a = VUndefined).
Proof.
  split.
  - eexists. eexists. split; [reflexivity|].
    destruct (assessment_keeps_its_bloom Sample.levels Sample.assessments
                (Sample.outcome_tagged (VNum 0)) _ _ eq_refl)
      as (Hb & _ & Hp & _).
    split; [exact Hb|exact Hp].
  - eexists. eexists. split; [reflexivity|].
    destruct (assessment_keeps_its_bloom Sample.levels Sample.assessments
                (Entity.with_bloom (VStr "constructor")
                   (Sample.outcome_tagged (VNum 0))) _ _ eq_refl)
      as (_ & _ & Hp & _).
    exact Hp.
Defined.

(** X10.  The name and the date an outcome answers with are those its
    learning object had when the outcome was added: renaming or redating
    the object afterwards leaves its outcomes, and what they answer, as
    they were. *)
Theorem outcome_keeps_name_of_source
    (levels : list string) (verbs : list (string * list string))
    (o o1 : Entity.LearningObject.t) (outcome : Entity.LearningOutcome.t) :
  Entity.LearningObject_addOutcome levels verbs o = Ok (outcome, o1) ->
  Entity.LearningOutcome_name outcome = Ok (Entity.LearningObject._name o) /\
  Entity.LearningOutcome_date outcome = Ok (Entity.LearningObject._date o) /\
  (forall name o2,
      Entity.LearningObject_set_name name o1 = Ok o2 ->
      Entity.LearningObject._name o2 = name /\
      Entity.LearningObject._outcomes o2
      = Entity.LearningObject._outcomes o ++ [outcome]) /\
  (forall date o2,
      Entity.LearningObject_set_date date o1 = Ok o2 ->
      Entity.LearningObject._date o2 = date /\
      Entity.LearningObject._outcomes o2
      = Entity.LearningObject._outcomes o ++ [outcome]).
Proof.
  unfold Entity.LearningObject_addOutcome, Entity.LearningOutcome_constructor.
  simpl. destruct (Array_from_entry_0 verbs (Array_from_0 levels)); simpl;
    [|discriminate].
  intros H. injection H as <- <-.
  split; [reflexivity|]. split; [reflexivity|]. split.
  - intros name o2 H. injection H as <-. split; reflexivity.
  - intros date o2 H. injection H as <-. split; reflexivity.
Qed.

Lemma outcome_keeps_name_of_source_witness :
  exists outcome o1,
    Entity.LearningObject_addOutcome Sample.levels Sample.verbs Sample.object
    = Ok (outcome, o1) /\
    Entity.LearningOutcome_name outcome = Ok (VStr "Networks").
Proof.
  eexists. eexists. split; [reflexivity|].
  exact (proj1 (outcome_keeps_name_of_source Sample.levels Sample.verbs
                  Sample.object _ _ eq_refl)).
Defined.

End OutcomeInvariants.

(** ** Reading serialized goals and learning objects *)

Module UnserializeFacts.
Import JS JSONFacts SerializeFacts.
Local Open Scope list_scope.





Lemma goals_mapM_parent {S1 S2 : Type} (p1 : S1) (p2 : S2) (l : list value) :
  mapM (fun a => Entity.LearningGoal_unserialize a p1) l
  = mapM (fun a => Entity.LearningGoal_unserialize a p2) l.
Proof.
  induction l as [|a l IH]; simpl; [reflexivity|].
  rewrite IH. reflexivity.
Qed.

(** X13.  [LearningObject.unserialize] needs a document with arrays for
    [goals] and [outcomes]: a malformed text makes it throw the SyntaxError
    of [JSON.parse]; a document that is [null], an object without an array
    for [goals], or one with goals that can be read but without an array
    for [outcomes], makes it throw a TypeError. *)
Theorem unserialize_needs_arrays
    (lengths : list string)
    (LearningOutcome_unserialize :
       value -> Entity.LearningObject.t -> result Entity.LearningOutcome.t)
    (parent : value) :
  (forall msg,
      JSON.parse msg = Throw SyntaxError ->
      Entity.LearningObject_unserialize lengths LearningOutcome_unserialize
        msg parent = Throw SyntaxError) /\
  (forall msg,
      JSON.parse msg = Ok VNull ->
      Entity.LearningObject_unserialize lengths LearningOutcome_unserialize
        msg parent = Throw TypeError) /\
  (forall msg ps,
      JSON.parse msg = Ok (VObj ps) ->
      (forall l, prop ps "goals" <> VArr l) ->
      Entity.LearningObject_unserialize lengths LearningOutcome_unserialize
        msg parent = Throw TypeError) /\
  (forall msg ps l gs,
      JSON.parse msg = Ok (VObj ps) ->
      prop ps "goals" = VArr l ->
      mapM (fun a => Entity.LearningGoal_unserialize a tt) l = Ok gs ->
      (forall l', prop ps "outcomes" <> VArr l') ->
      Entity.LearningObject_unserialize lengths LearningOutcome_unserialize
        msg parent = Throw TypeError).
Proof.
  unfold Entity.LearningObject_unserialize. repeat split.
  - intros msg H. rewrite H. reflexivity.
  - intros msg H. rewrite H. reflexivity.
  - intros msg ps H Hg. rewrite H. cbn [bind get].
    destruct (prop ps "goals") as [| | | | |l|] eqn:E; try reflexivity.
    exfalso. exact (Hg l eq_refl).
  - intros msg ps l gs H Hg Hgs Ho. rewrite H. cbn [bind get].
    rewrite Hg. cbn [Array_map].
    rewrite (goals_mapM_parent _ tt), Hgs. cbn [bind].
    destruct (prop ps "outcomes") as [| | | | |l'|] eqn:E; try reflexivity.
    exfalso. exact (Ho l' eq_refl).
Qed.

(** A document without outcomes, and a text with a comma too many. *)
Lemma unserialize_needs_arrays_witness :
  Entity.LearningObject_unserialize Sample.lengths
    Sample.LearningOutcome_unserialize
    (VStr (JSON.doc "{'name':'Networks','goals':[]}")) Sample.author
  = Throw TypeError /\
  Entity.LearningObject_unserialize Sample.lengths
    Sample.LearningOutcome_unserialize
    (VStr (JSON.doc "{'name':'Networks','goals':[],}")) Sample.author
  = Throw SyntaxError.
Proof.
  split.
  - apply (proj2 (proj2 (proj2 (unserialize_needs_arrays Sample.lengths
                                  Sample.LearningOutcome_unserialize
                                  Sample.author))))
      with (ps := [("name", VStr "Networks"); ("goals", VArr [])])
           (l := []) (gs := []).
    + reflexivity.
    + reflexivity.
    + reflexivity.
    + intros l'. discriminate.
  - apply (proj1 (unserialize_needs_arrays Sample.lengths
                    Sample.LearningOutcome_unserialize Sample.author)).
    reflexivity.
Defined.

End UnserializeFacts.

(** ** Outcomes built from partial objects
       (lib/learning-outcome/learning-outcome.ts, StandardOutcome) *)

Module PartialCopyFacts.
Import JS StandardOutcomeFacts.
Local Open Scope list_scope.

Lemma trimEnd_idempotent (s : string) : trimEnd (trimEnd s) = trimEnd s.
Proof.
  induction s as [|c r IH]; simpl; [reflexivity|].
  destruct (is_white_space c && (trimEnd r =? "")%string) eqn:E;
    [reflexivity|].
  simpl. rewrite IH, E. reflexivity.
Qed.

Lemma trimEnd_head (c : ascii) (r : string) :
  is_white_space c = false -> trimEnd (String c r) = String c (trimEnd r).
Proof. intros H. simpl. rewrite H. reflexivity. Qed.

(** Trimming what is trimmed changes nothing. *)
Lemma trim_idempotent (s : string) : trim (trim s) = trim s.
Proof.
  unfold trim. destruct (blank s) eqn:E.
  - rewrite (trimStart_blank s E). reflexivity.
  - destruct (trimStart_not_blank s E) as (c & r & -> & Hc).
    rewrite (trimEnd_head c r Hc). simpl trimStart. rewrite Hc.
    rewrite (trimEnd_head c _ Hc), trimEnd_idempotent. reflexivity.
Qed.

(** A trimmed string begins with no white space. *)
Lemma trim_head (s : string) :
  match trim s with
  | EmptyString => True
  | String c _ => is_white_space c = false
  end.
Proof.
  unfold trim. destruct (blank s) eqn:E.
  - rewrite (trimStart_blank s E). exact I.
  - destruct (trimStart_not_blank s E) as (c & r & -> & Hc).
    rewrite (trimEnd_head c r Hc). exact Hc.
Qed.

Section Partial.
Variable levels : list string.
Variable verbs : list (string * list string).

(** The mappings after a row of [mapTo] calls. *)
Lemma fold_mapTo (l : list Outcomes.StandardOutcome.t)
    (o : Outcomes.LearningOutcome.t) :
  fold_left (fun o m => snd (Outcomes.LearningOutcome_mapTo m o)) l o
  = Outcomes.LearningOutcome.Build_t
      (Outcomes.LearningOutcome.id o) (Outcomes.LearningOutcome._bloom o)
      (Outcomes.LearningOutcome._verb o) (Outcomes.LearningOutcome._text o)
      (Outcomes.LearningOutcome._mappings o ++ l).
Proof.
  revert o. induction l as [|m l IH]; intros o; simpl.
  - rewrite List.app_nil_r. destruct o. reflexivity.
  - rewrite IH. simpl. rewrite <- app_assoc. reflexivity.
Qed.

(** What the three setters leave when they complete. *)
Lemma set_bloom_ok (bloom : value) (o o' : Outcomes.LearningOutcome.t) :
  Outcomes.LearningOutcome_set_bloom levels bloom o = Ok o' ->
  Set_has levels bloom = true /\
  o' = Outcomes.LearningOutcome.Build_t
         (Outcomes.LearningOutcome.id o) bloom
         (Outcomes.LearningOutcome._verb o) (Outcomes.LearningOutcome._text o)
         (Outcomes.LearningOutcome._mappings o).
Proof.
  unfold Outcomes.LearningOutcome_set_bloom.
  destruct (ToBoolean bloom && Set_has levels bloom) eqn:E; [|discriminate].
  apply andb_true_iff in E. destruct E as [_ E].
  intros H. injection H as <-. split; [exact E|reflexivity].
Qed.

Lemma set_verb_ok (verb : value) (o o' : Outcomes.LearningOutcome.t) :
  Outcomes.LearningOutcome_set_verb verbs verb o = Ok o' ->
  (exists set,
      index verbs (Outcomes.LearningOutcome._bloom o) = Some set /\
      Set_has set verb = true) /\
  o' = Outcomes.LearningOutcome.Build_t
         (Outcomes.LearningOutcome.id o) (Outcomes.LearningOutcome._bloom o)
         verb (Outcomes.LearningOutcome._text o)
         (Outcomes.LearningOutcome._mappings o).
Proof.
  unfold Outcomes.LearningOutcome_set_verb.
  destruct (ToBoolean verb); cbn [bind]; [|discriminate].
  destruct (index verbs (Outcomes.LearningOutcome._bloom o)) as [set|];
    cbn [bind]; [|discriminate].
  destruct (Set_has set verb) eqn:E; [|discriminate].
  intros H. injection H as <-. split; [|reflexivity].
  exists set. split; [reflexivity|exact E].
Qed.

Lemma set_text_ok (text : value) (o o' : Outcomes.LearningOutcome.t) :
  Outcomes.LearningOutcome_set_text text o = Ok o' ->
  exists s,
    text = VStr s /\
    o' = Outcomes.LearningOutcome.Build_t
           (Outcomes.LearningOutcome.id o) (Outcomes.LearningOutcome._bloom o)
           (Outcomes.LearningOutcome._verb o) (VStr (trim s))
           (Outcomes.LearningOutcome._mappings o).
Proof.
  unfold Outcomes.LearningOutcome_set_text.
  destruct text as [| | | |s| |]; try discriminate.
  intros H. injection H as <-. exists s. split; reflexivity.
Qed.

(** What [copyOutcome] leaves when it completes. *)
Lemma copyOutcome_valid (p : Outcomes.LearningOutcome.Partial)
    (o o' : Outcomes.LearningOutcome.t) :
  Outcomes.LearningOutcome_copyOutcome levels verbs p o = Ok o' ->
  Outcomes.LearningOutcome.id o' = Outcomes.LearningOutcome.id o /\
  Outcomes.LearningOutcome._bloom o'
  = or_else (Outcomes.LearningOutcome.bloom p) (Outcomes.LearningOutcome._bloom o) /\
  Outcomes.LearningOutcome._verb o'
  = or_else (Outcomes.LearningOutcome.verb p) (Outcomes.LearningOutcome._verb o) /\
  Set_has levels (Outcomes.LearningOutcome._bloom o') = true /\
  (exists set,
      index verbs (Outcomes.LearningOutcome._bloom o') = Some set /\
      Set_has set (Outcomes.LearningOutcome._verb o') = true) /\
  (exists s,
      or_else (Outcomes.LearningOutcome.text p) (Outcomes.LearningOutcome._text o)
      = VStr s /\
      Outcomes.LearningOutcome._text o' = VStr (trim s)) /\
  Outcomes.LearningOutcome._mappings o'
  = Outcomes.LearningOutcome._mappings o
    ++ match Outcomes.LearningOutcome.mappings p with
       | Some l => l
       | None => []
       end.
Proof.
  unfold Outcomes.LearningOutcome_copyOutcome. intros H.
  destruct (Outcomes.LearningOutcome_set_bloom levels _ o) as [o0|] eqn:E0;
    cbn [bind] in H; [|discriminate].
  destruct (Outcomes.LearningOutcome_set_verb verbs _ o0) as [o1|] eqn:E1;
    cbn [bind] in H; [|discriminate].
  destruct (Outcomes.LearningOutcome_set_text _ o1) as [o2|] eqn:E2;
    cbn [bind] in H; [|discriminate].
  apply set_bloom_ok in E0. destruct E0 as [Hb ->].
  apply set_verb_ok in E1. destruct E1 as [(set & Hi & Hv) ->].
  apply set_text_ok in E2. destruct E2 as (s & Hs & ->).
  cbn in Hi, Hv, Hs.
  assert (Ho' : Outcomes.LearningOutcome.id o' = Outcomes.LearningOutcome.id o /\
                Outcomes.LearningOutcome._bloom o'
                = or_else (Outcomes.LearningOutcome.bloom p)
                    (Outcomes.LearningOutcome._bloom o) /\
                Outcomes.LearningOutcome._verb o'
                = or_else (Outcomes.LearningOutcome.verb p)
                    (Outcomes.LearningOutcome._verb o) /\
                Outcomes.LearningOutcome._text o' = VStr (trim s) /\
                Outcomes.LearningOutcome._mappings o'
                = Outcomes.LearningOutcome._mappings o
                  ++ match Outcomes.LearningOutcome.mappings p with
                     | Some l => l
                     | None => []
                     end).
  { destruct (Outcomes.LearningOutcome.mappings p) as [l|].
    - rewrite fold_mapTo in H. injection H as <-. cbn. repeat split.
    - injection H as <-. cbn. rewrite List.app_nil_r. repeat split. }
  destruct Ho' as (H1 & H2 & H3 & H4 & H5).
  rewrite H1, H2, H3, H4, H5. repeat split; try assumption.
  - exists set. split; assumption.
  - exists s. split; [exact Hs|reflexivity].
Qed.

End Partial.

End PartialCopyFacts.

Module PartialCopy.
Import JS StandardOutcomeFacts PartialCopyFacts.
Local Open Scope list_scope.

(** X14.  [LearningOutcome.instantiate(outcome)] of
    lib/learning-outcome/learning-outcome.ts validates what it reads: when
    it returns, the bloom is a level, the verb is a verb of that bloom, the
    text is a string that trimming leaves unchanged, truthy properties of
    the partial object are the ones stored, and the mappings are those of
    the partial object in their order; when the partial object has a truthy
    bloom that is no level, it throws the INVALID_BLOOM error instead
    (given that the default construction itself completes). *)
Theorem partial_instantiate_validates
    (levels : list string) (verbs : list (string * list string))
    (p : Outcomes.LearningOutcome.Partial) :
  (forall o,
      Outcomes.LearningOutcome_instantiate levels verbs (Some p) = Ok o ->
      Set_has levels (Outcomes.LearningOutcome._bloom o) = true /\
      (exists set,
          index verbs (Outcomes.LearningOutcome._bloom o) = Some set /\
          Set_has set (Outcomes.LearningOutcome._verb o) = true) /\
      (exists s,
          Outcomes.LearningOutcome._text o = VStr s /\ trim s = s) /\
      (ToBoolean (Outcomes.LearningOutcome.bloom p) = true ->
       Outcomes.LearningOutcome._bloom o = Outcomes.LearningOutcome.bloom p) /\
      (ToBoolean (Outcomes.LearningOutcome.verb p) = true ->
       Outcomes.LearningOutcome._verb o = Outcomes.LearningOutcome.verb p) /\
      Outcomes.LearningOutcome._mappings o
      = match Outcomes.LearningOutcome.mappings p with
        | Some l => l
        | None => []
        end) /\
  (forall set,
      index verbs (Array_from_0 levels) = Some set ->
      ToBoolean (Outcomes.LearningOutcome.bloom p) = true ->
      Set_has levels (Outcomes.LearningOutcome.bloom p) = false ->
      Outcomes.LearningOutcome_instantiate levels verbs (Some p)
      = Throw (ThrowError (INVALID_BLOOM (Outcomes.LearningOutcome.bloom p)))).
Proof.
  unfold Outcomes.LearningOutcome_instantiate,
    Outcomes.LearningOutcome_constructor. split.
  - intros o H.
    destruct (Array_from_entry_0 verbs (Array_from_0 levels)) as [verb0|];
      cbn [bind] in H; [|discriminate].
    apply copyOutcome_valid in H. cbn in H.
    destruct H as (_ & Hb & Hv & Hlevel & Hverb & (s & _ & Ht) & Hm).
    split; [exact Hlevel|]. split; [exact Hverb|].
    split; [exists (trim s); split; [exact Ht|apply trim_idempotent]|].
    split; [|split; [|exact Hm]].
    + intros Hp. rewrite Hb. unfold or_else. rewrite Hp. reflexivity.
    + intros Hp. rewrite Hv. unfold or_else. rewrite Hp. reflexivity.
  - intros set Hset Hp Hn.
    rewrite (TagFacts.Array_from_entry_0_own _ _ _ Hset). cbn [bind].
    unfold Outcomes.LearningOutcome_copyOutcome,
      Outcomes.LearningOutcome_set_bloom.
    cbn [Outcomes.LearningOutcome._bloom]. unfold or_else.
    rewrite Hp, Hp, Hn. reflexivity.
Qed.

Lemma partial_instantiate_validates_witness :
  exists o,
    Outcomes.LearningOutcome_instantiate Sample.levels Sample.verbs
      (Some Sample.partial_outcome) = Ok o /\
    Outcomes.LearningOutcome._bloom o = VStr "apply" /\
    Outcomes.LearningOutcome._mappings o = [Sample.blank_standard].
Proof.
  eexists. split; [reflexivity|].
  destruct (proj1 (partial_instantiate_validates Sample.levels Sample.verbs
                     Sample.partial_outcome) _ eq_refl)
    as (_ & _ & _ & Hb & _ & Hm).
  split; [exact (Hb eq_refl)|exact Hm].
Defined.

(** X15.  A partial object without a truthy bloom, verb or text gives the
    same outcome as no argument at all, the first level with its first verb
    and an empty text, provided the first level and its first verb exist
    and are not the empty string; the mappings of the partial object are
    still taken. *)
Theorem falsy_partial_gives_defaults
    (levels : list string) (verbs : list (string * list string))
    (level verb : string) (rest others : list string)
    (p : Outcomes.LearningOutcome.Partial) :
  levels = level :: rest ->
  index verbs (VStr level) = Some (verb :: others) ->
  level <> "" -> verb <> "" ->
  ToBoolean (Outcomes.LearningOutcome.bloom p) = false ->
  ToBoolean (Outcomes.LearningOutcome.verb p) = false ->
  ToBoolean (Outcomes.LearningOutcome.text p) = false ->
  Outcomes.LearningOutcome_constructor levels verbs None
  = Ok (Outcomes.LearningOutcome.Build_t VUndefined (VStr level) (VStr verb)
          (VStr "") []) /\
  Outcomes.LearningOutcome_constructor levels verbs (Some p)
  = Ok (Outcomes.LearningOutcome.Build_t VUndefined (VStr level) (VStr verb)
          (VStr "")
          match Outcomes.LearningOutcome.mappings p with
          | Some l => l
          | None => []
          end).
Proof.
  intros Hl Hv Hln Hvn Hb Hve Ht.
  apply String.eqb_neq in Hln, Hvn.
  unfold Outcomes.LearningOutcome_constructor.
  rewrite Hl. cbn [Array_from_0].
  rewrite (TagFacts.Array_from_entry_0_own _ _ _ Hv). cbn [bind Array_from_0].
  split; [reflexivity|].
  unfold Outcomes.LearningOutcome_copyOutcome, or_else.
  rewrite Hb, Hve, Ht. cbn [Outcomes.LearningOutcome._bloom].
  unfold Outcomes.LearningOutcome_set_bloom.
  cbn [ToBoolean Set_has existsb]. rewrite Hln, String.eqb_refl.
  cbn [negb andb orb bind Outcomes.LearningOutcome._verb
         Outcomes.LearningOutcome._text Outcomes.LearningOutcome._bloom
         Outcomes.LearningOutcome.id Outcomes.LearningOutcome._mappings].
  unfold Outcomes.LearningOutcome_set_verb.
  cbn [ToBoolean Outcomes.LearningOutcome._bloom]. rewrite Hvn, Hv.
  cbn [negb bind Set_has existsb]. rewrite String.eqb_refl.
  cbn [orb bind Outcomes.LearningOutcome_set_text
         Outcomes.LearningOutcome._verb Outcomes.LearningOutcome._text
         Outcomes.LearningOutcome._bloom Outcomes.LearningOutcome.id
         Outcomes.LearningOutcome._mappings trim trimStart trimEnd].
  destruct (Outcomes.LearningOutcome.mappings p) as [l|]; [|reflexivity].
  rewrite fold_mapTo. reflexivity.
Qed.

Lemma falsy_partial_gives_defaults_witness :
  Outcomes.LearningOutcome_constructor Sample.levels Sample.verbs
    (Some (Outcomes.LearningOutcome.Build_Partial VUndefined (VStr "") VNull
             None))
  = Ok (Outcomes.LearningOutcome.Build_t VUndefined (VStr "remember")
          (VStr "define") (VStr "") []).
Proof.
  refine (proj2 (falsy_partial_gives_defaults Sample.levels Sample.verbs
                   "remember" "define" ["apply"; "evaluate"] ["list"; "recall"]
                   (Outcomes.LearningOutcome.Build_Partial VUndefined
                      (VStr "") VNull None)
                   eq_refl eq_refl _ _ eq_refl eq_refl eq_refl));
    discriminate.
Defined.

(** X16.  The [text] setter of lib/learning-outcome/learning-outcome.ts
    takes every string, the empty and the blank ones too, and stores it
    trimmed: the stored text begins with no white space, trimming it again
    changes nothing, and assigning the stored text again leaves the outcome
    as it is; [null] and [undefined] are refused with INVALID_TEXT. *)
Theorem text_is_stored_trimmed (s : string) (o : Outcomes.LearningOutcome.t) :
  exists o',
    Outcomes.LearningOutcome_set_text (VStr s) o = Ok o' /\
    Outcomes.LearningOutcome._text o' = VStr (trim s) /\
    trim (trim s) = trim s /\
    (blank s = true -> Outcomes.LearningOutcome._text o' = VStr "") /\
    match trim s with
    | EmptyString => True
    | String c _ => is_white_space c = false
    end /\
    Outcomes.LearningOutcome_set_text (Outcomes.LearningOutcome._text o') o'
    = Ok o' /\
    Outcomes.LearningOutcome_set_text VNull o = Throw (ThrowError INVALID_TEXT) /\
    Outcomes.LearningOutcome_set_text VUndefined o
    = Throw (ThrowError INVALID_TEXT).
Proof.
  eexists. split; [reflexivity|]. cbn.
  split; [reflexivity|]. split; [apply trim_idempotent|].
  split; [|split; [apply trim_head|]].
  - intros Hb. f_equal. apply String.eqb_eq. rewrite trim_empty_iff. exact Hb.
  - split; [|split; reflexivity].
    unfold Outcomes.LearningOutcome_set_text. cbn.
    rewrite trim_idempotent. reflexivity.
Qed.

(** A text of spaces, and a text with a no-break space before it. *)
Lemma text_is_stored_trimmed_witness :
  (exists o',
      Outcomes.LearningOutcome_set_text (VStr "   ")
        (Outcomes.LearningOutcome.Build_t VUndefined (VStr "remember")
           (VStr "define") (VStr "x") []) = Ok o' /\
      Outcomes.LearningOutcome._text o' = VStr "") /\
  (exists o',
      Outcomes.LearningOutcome_set_text (VStr (Sample.nbsp ++ "x "))
        (Outcomes.LearningOutcome.Build_t VUndefined (VStr "remember")
           (VStr "define") (VStr "") []) = Ok o' /\
      Outcomes.LearningOutcome._text o' = VStr "x").
Proof.
  split.
  - destruct (text_is_stored_trimmed "   "
                (Outcomes.LearningOutcome.Build_t VUndefined (VStr "remember")
                   (VStr "define") (VStr "x") []))
      as (o' & Hset & _ & _ & Hblank & _).
    exists o'. split; [exact Hset|exact (Hblank eq_refl)].
  - destruct (text_is_stored_trimmed (Sample.nbsp ++ "x ")
                (Outcomes.LearningOutcome.Build_t VUndefined (VStr "remember")
                   (VStr "define") (VStr "") []))
      as (o' & Hset & Htext & _).
    exists o'. split; [exact Hset|exact Htext].
Defined.

End PartialCopy.

(** ** Fields of a standard outcome *)

Module StandardOutcomeInvariants.
Import JS StandardOutcomeFacts.
Local Open Scope list_scope.

(** A field is the empty string of the constructor or a string with a
    character that is not white space. *)
Definition field_ok (s : string) : Prop := s = "" \/ blank s = false.

Definition fields_ok (o : Outcomes.StandardOutcome.t) : Prop :=
  field_ok (Outcomes.StandardOutcome._author o) /\
  field_ok (Outcomes.StandardOutcome._name o) /\
  field_ok (Outcomes.StandardOutcome._date o) /\
  field_ok (Outcomes.StandardOutcome._outcome o).

Lemma present_and_trimmed_some (v : value) (s : string) :
  Outcomes.present_and_trimmed v = Ok (Some s) ->
  v = VStr s /\ blank s = false.
Proof.
  destruct v as [| |b|n|t|l|ps]; try discriminate.
  - destruct b; discriminate.
  - unfold Outcomes.present_and_trimmed. simpl. destruct (n =? 0); discriminate.
  - rewrite present_and_trimmed_string.
    destruct (blank t) eqn:E; [discriminate|].
    intros H. injection H as <-. split; [reflexivity|exact E].
Qed.

Lemma set_author_ok (v : value) (o o' : Outcomes.StandardOutcome.t) :
  Outcomes.StandardOutcome_set_author v o = Ok o' ->
  exists s, v = VStr s /\ blank s = false /\
            o' = Outcomes.StandardOutcome.Build_t s
                   (Outcomes.StandardOutcome._name o)
                   (Outcomes.StandardOutcome._date o)
                   (Outcomes.StandardOutcome._outcome o).
Proof.
  unfold Outcomes.StandardOutcome_set_author.
  destruct (Outcomes.present_and_trimmed v) as [[s|]|] eqn:E;
    cbn [bind]; try discriminate.
  intros H. injection H as <-.
  apply present_and_trimmed_some in E. destruct E as [-> Hb].
  exists s. repeat split. exact Hb.
Qed.

Lemma set_name_ok (v : value) (o o' : Outcomes.StandardOutcome.t) :
  Outcomes.StandardOutcome_set_name v o = Ok o' ->
  exists s, v = VStr s /\ blank s = false /\
            o' = Outcomes.StandardOutcome.Build_t
                   (Outcomes.StandardOutcome._author o) s
                   (Outcomes.StandardOutcome._date o)
                   (Outcomes.StandardOutcome._outcome o).
Proof.
  unfold Outcomes.StandardOutcome_set_name.
  destruct (Outcomes.present_and_trimmed v) as [[s|]|] eqn:E;
    cbn [bind]; try discriminate.
  intros H. injection H as <-.
  apply present_and_trimmed_some in E. destruct E as [-> Hb].
  exists s. repeat split. exact Hb.
Qed.

Lemma set_date_ok (v : value) (o o' : Outcomes.StandardOutcome.t) :
  Outcomes.StandardOutcome_set_date v o = Ok o' ->
  exists s, v = VStr s /\ blank s = false /\
            o' = Outcomes.StandardOutcome.Build_t
                   (Outcomes.StandardOutcome._author o)
                   (Outcomes.StandardOutcome._name o) s
                   (Outcomes.StandardOutcome._outcome o).
Proof.
  unfold Outcomes.StandardOutcome_set_date.
  destruct (Outcomes.present_and_trimmed v) as [[s|]|] eqn:E;
    cbn [bind]; try discriminate.
  intros H. injection H as <-.
  apply present_and_trimmed_some in E. destruct E as [-> Hb].
  exists s. repeat split. exact Hb.
Qed.

Lemma set_outcome_ok (v : value) (o o' : Outcomes.StandardOutcome.t) :
  Outcomes.StandardOutcome_set_outcome v o = Ok o' ->
  exists s, v = VStr s /\ blank s = false /\
            o' = Outcomes.StandardOutcome.Build_t
                   (Outcomes.StandardOutcome._author o)
                   (Outcomes.StandardOutcome._name o)
                   (Outcomes.StandardOutcome._date o) s.
Proof.
  unfold Outcomes.StandardOutcome_set_outcome.
  destruct (Outcomes.present_and_trimmed v) as [[s|]|] eqn:E;
    cbn [bind]; try discriminate.
  intros H. injection H as <-.
  apply present_and_trimmed_some in E. destruct E as [-> Hb].
  exists s. repeat split. exact Hb.
Qed.

(** A guarded assignment of [copyOutcome] keeps the fields in order. *)
Lemma guarded_keeps (v : value) (o o' : Outcomes.StandardOutcome.t)
    (set : value -> Outcomes.StandardOutcome.t -> result Outcomes.StandardOutcome.t) :
  (forall o1, fields_ok o -> set v o = Ok o1 -> fields_ok o1) ->
  fields_ok o ->
  (if ToBoolean v then set v o else Ok o) = Ok o' -> fields_ok o'.
Proof.
  intros Hset Ho. destruct (ToBoolean v).
  - intros H. exact (Hset o' Ho H).
  - intros H. injection H as <-. exact Ho.
Qed.

Lemma setters_keep (v : value) (o o' : Outcomes.StandardOutcome.t) :
  fields_ok o ->
  (Outcomes.StandardOutcome_set_author v o = Ok o' -> fields_ok o') /\
  (Outcomes.StandardOutcome_set_name v o = Ok o' -> fields_ok o') /\
  (Outcomes.StandardOutcome_set_date v o = Ok o' -> fields_ok o') /\
  (Outcomes.StandardOutcome_set_outcome v o = Ok o' -> fields_ok o').
Proof.
  intros (Ha & Hn & Hd & Ho). split; [|split; [|split]]; intros H.
  - apply set_author_ok in H. destruct H as (s & _ & Hb & ->).
    repeat split; try assumption. right. exact Hb.
  - apply set_name_ok in H. destruct H as (s & _ & Hb & ->).
    repeat split; try assumption. right. exact Hb.
  - apply set_date_ok in H. destruct H as (s & _ & Hb & ->).
    repeat split; try assumption. right. exact Hb.
  - apply set_outcome_ok in H. destruct H as (s & _ & Hb & ->).
    repeat split; try assumption. right. exact Hb.
Qed.

(** X17.  No field of a StandardOutcome ever holds a blank string or
    anything but a string: the constructor, with or without a partial object
    of any content, and the four setters, given any value, either throw or
    leave every field the empty string of the constructor or a string with a
    character that is not white space; a setter that completes was given
    such a string and stored it. *)
Theorem standard_outcome_fields_stay_valid
    (v : value) (o o' : Outcomes.StandardOutcome.t) :
  (forall p o0, Outcomes.StandardOutcome_constructor p = Ok o0 -> fields_ok o0) /\
  (fields_ok o ->
   (Outcomes.StandardOutcome_set_author v o = Ok o' ->
    fields_ok o' /\ v = VStr (Outcomes.StandardOutcome._author o')) /\
   (Outcomes.StandardOutcome_set_name v o = Ok o' ->
    fields_ok o' /\ v = VStr (Outcomes.StandardOutcome._name o')) /\
   (Outcomes.StandardOutcome_set_date v o = Ok o' ->
    fields_ok o' /\ v = VStr (Outcomes.StandardOutcome._date o')) /\
   (Outcomes.StandardOutcome_set_outcome v o = Ok o' ->
    fields_ok o' /\ v = VStr (Outcomes.StandardOutcome._outcome o'))).
Proof.
  split.
  - intros p o0 H.
    assert (Hblank : fields_ok (Outcomes.StandardOutcome.Build_t "" "" "" ""))
      by (repeat split; left; reflexivity).
    unfold Outcomes.StandardOutcome_constructor in H.
    destruct p as [p|]; [|injection H as <-; exact Hblank].
    unfold Outcomes.StandardOutcome_copyOutcome in H.
    destruct (if ToBoolean (Outcomes.StandardOutcome.author p) then _ else _)
      as [o1|] eqn:E1; cbn [bind] in H; [|discriminate].
    destruct (if ToBoolean (Outcomes.StandardOutcome.name p) then _ else _)
      as [o2|] eqn:E2; cbn [bind] in H; [|discriminate].
    destruct (if ToBoolean (Outcomes.StandardOutcome.date p) then _ else _)
      as [o3|] eqn:E3; cbn [bind] in H; [|discriminate].
    apply (guarded_keeps _ _ _ _
             (fun o1 Hok => proj1 (setters_keep _ _ o1 Hok)) Hblank) in E1.
    apply (guarded_keeps _ _ _ _
             (fun o1 Hok => proj1 (proj2 (setters_keep _ _ o1 Hok))) E1) in E2.
    apply (guarded_keeps _ _ _ _
             (fun o1 Hok => proj1 (proj2 (proj2 (setters_keep _ _ o1 Hok))))
             E2) in E3.
    exact (guarded_keeps _ _ _ _
             (fun o1 Hok => proj2 (proj2 (proj2 (setters_keep _ _ o1 Hok))))
             E3 H).
  - intros Hok. destruct (setters_keep v o o' Hok) as (Ka & Kn & Kd & Ko).
    split; [|split; [|split]]; intros H; (split; [auto|]).
    + apply set_author_ok in H. destruct H as (s & -> & _ & ->). reflexivity.
    + apply set_name_ok in H. destruct H as (s & -> & _ & ->). reflexivity.
    + apply set_date_ok in H. destruct H as (s & -> & _ & ->). reflexivity.
    + apply set_outcome_ok in H. destruct H as (s & -> & _ & ->). reflexivity.
Qed.

Lemma standard_outcome_fields_stay_valid_witness :
  fields_ok (Outcomes.StandardOutcome.Build_t "NICE" "" "" "Explain a firewall").
Proof.
  exact (proj1 (standard_outcome_fields_stay_valid VNull Sample.blank_standard
                  Sample.blank_standard)
           (Some Sample.partial_standard) _ eq_refl).
Defined.

(** X18.  A StandardOutcome passed as the partial object is read through
    its getters, which all return the author: the copy gets the author of
    the original in all four fields, and the name, date and outcome text of
    the original are not copied.  An original without an author gives four
    empty fields, and an original whose author is a non-empty blank string
    (the field is public and can be written past its setter) makes the
    construction throw INVALID_AUTHOR. *)
Theorem copy_of_instance_repeats_author (o : Outcomes.StandardOutcome.t) :
  Outcomes.StandardOutcome_constructor
    (Some (Outcomes.StandardOutcome_as_partial o))
  = if (Outcomes.StandardOutcome._author o =? "")%string
    then Ok (Outcomes.StandardOutcome.Build_t "" "" "" "")
    else if blank (Outcomes.StandardOutcome._author o)
    then Throw (ThrowError INVALID_AUTHOR)
    else Ok (Outcomes.StandardOutcome.Build_t
               (Outcomes.StandardOutcome._author o)
               (Outcomes.StandardOutcome._author o)
               (Outcomes.StandardOutcome._author o)
               (Outcomes.StandardOutcome._author o)).
Proof.
  unfold Outcomes.StandardOutcome_constructor,
    Outcomes.StandardOutcome_copyOutcome, Outcomes.StandardOutcome_as_partial,
    Outcomes.StandardOutcome_author, Outcomes.StandardOutcome_name,
    Outcomes.StandardOutcome_date, Outcomes.StandardOutcome_outcome.
  cbn [Outcomes.StandardOutcome.author Outcomes.StandardOutcome.name
         Outcomes.StandardOutcome.date Outcomes.StandardOutcome.outcome
         ToBoolean].
  destruct (Outcomes.StandardOutcome._author o =? "")%string; cbn [negb];
    [reflexivity|].
  rewrite set_author_string.
  destruct (blank (Outcomes.StandardOutcome._author o)) eqn:Ha;
    [reflexivity|].
  cbn [bind]. rewrite set_name_string, Ha. cbn [bind].
  rewrite set_date_string, Ha. cbn [bind].
  rewrite set_outcome_string, Ha. reflexivity.
Qed.

(** An instance with four different fields, and one whose author was
    overwritten with a no-break space. *)
Lemma copy_of_instance_repeats_author_witness :
  Outcomes.StandardOutcome_constructor
    (Some (Outcomes.StandardOutcome_as_partial
             (Outcomes.StandardOutcome.Build_t "NICE" "K0001" "2017"
                "Explain a firewall")))
  = Ok (Outcomes.StandardOutcome.Build_t "NICE" "NICE" "NICE" "NICE") /\
  Outcomes.StandardOutcome_constructor
    (Some (Outcomes.StandardOutcome_as_partial
             (Outcomes.StandardOutcome.Build_t Sample.nbsp "K0001" "2017"
                "Explain a firewall")))
  = Throw (ThrowError INVALID_AUTHOR).
Proof.
  split.
  - exact (copy_of_instance_repeats_author
             (Outcomes.StandardOutcome.Build_t "NICE" "K0001" "2017"
                "Explain a firewall")).
  - exact (copy_of_instance_repeats_author
             (Outcomes.StandardOutcome.Build_t Sample.nbsp "K0001" "2017"
                "Explain a firewall")).
Defined.

End StandardOutcomeInvariants.

(** ** Extra properties of the object given to [LearningOutcome.instantiate]
       (lib/learning-outcome.ts) *)

Module InjectedProperties.
Import JS InstantiateFacts.
Local Open Scope list_scope.

(** A key that is neither the name of an accessor of the class or of every
    object ([__proto__]) nor [_source]. *)
Definition plain (k : string) : bool :=
  negb (k =? "__proto__")%string &&
  negb (existsb (String.eqb k) Entity.getter_only) &&
  negb (k =? "bloom")%string && negb (k =? "verb")%string &&
  negb (k =? "text")%string && negb (k =? "_source")%string.

Section Injected.
Variable levels : list string.
Variable verbs : list (string * list string).
Variable AssessmentPlan_instantiate :
  Entity.LearningOutcome.t -> value -> result Entity.AssessmentPlan.t.
Variable InstructionalStrategy_instantiate :
  Entity.LearningOutcome.t -> value -> result Entity.InstructionalStrategy.t.

Lemma assign_plain (k : string) (v : value) (o : Entity.LearningOutcome.t) :
  plain k = true ->
  Entity.LearningOutcome_assign levels verbs k v o
  = Ok (Entity.with_injected
          (set_prop k v (Entity.LearningOutcome.injected o)) o).
Proof.
  unfold plain, Entity.LearningOutcome_assign. intros H.
  repeat (apply andb_true_iff in H; destruct H as [H ?]).
  apply negb_true_iff in H, H0, H1, H2, H3, H4.
  rewrite H, H4, H3, H2, H1, H0. reflexivity.
Qed.

Lemma fold_plain (ps : list (string * value)) (ks : list string)
    (o : Entity.LearningOutcome.t) :
  forallb plain ks = true ->
  fold_left
    (fun acc key =>
       outcome <- acc ;;
       Entity.LearningOutcome_assign levels verbs key (prop ps key) outcome)
    ks (Ok o)
  = Ok (Entity.with_injected
          (fold_left (fun acc key => set_prop key (prop ps key) acc) ks
             (Entity.LearningOutcome.injected o)) o).
Proof.
  revert o. induction ks as [|k ks IH]; intros o H; simpl.
  - destruct o. reflexivity.
  - simpl in H. apply andb_true_iff in H. destruct H as [Hk Hks].
    rewrite (assign_plain k _ o Hk), (IH _ Hks). destruct o. reflexivity.
Qed.

Lemma lookup_app_fresh (k : string) (v : value)
    (done todo : list (string * value)) :
  ~ In k (keys done) -> lookup k (done ++ (k, v) :: todo) = Some v.
Proof.
  induction done as [|[k' v'] done IH]; simpl; intros H.
  - rewrite String.eqb_refl. reflexivity.
  - destruct (String.eqb_spec k k') as [->|Hne]; [tauto|]. apply IH. tauto.
Qed.

Lemma not_In_existsb (k : string) (l : list string) :
  ~ In k l -> existsb (String.eqb k) l = false.
Proof.
  intros H. destruct (existsb (String.eqb k) l) eqn:E; [|reflexivity].
  apply existsb_exists in E. destruct E as (x & Hx & Ex).
  apply String.eqb_eq in Ex. subst. contradiction.
Qed.

(** Copying the properties of an object with distinct keys one by one
    rebuilds the object. *)
Lemma fold_set_prop (done todo : list (string * value)) :
  NoDup (keys (done ++ todo)) ->
  fold_left (fun acc key => set_prop key (prop (done ++ todo) key) acc)
    (keys todo) done
  = done ++ todo.
Proof.
  revert done. induction todo as [|[k v] todo IH]; intros done Hnd; simpl.
  - symmetry. apply List.app_nil_r.
  - assert (Hfresh : ~ In k (keys done)).
    { unfold keys in *. rewrite map_app in Hnd. simpl in Hnd.
      apply NoDup_remove_2 in Hnd. intros Hin. apply Hnd.
      apply in_or_app. left. exact Hin. }
    assert (Hp : prop (done ++ (k, v) :: todo) k = v)
      by (unfold prop; rewrite (lookup_app_fresh k v done todo Hfresh);
          reflexivity).
    rewrite Hp.
    rewrite JSONFacts.set_prop_fresh by (apply not_In_existsb; exact Hfresh).
    replace (done ++ (k, v) :: todo) with ((done ++ [(k, v)]) ++ todo)
      by (rewrite <- app_assoc; reflexivity).
    apply IH. rewrite <- app_assoc. exact Hnd.
Qed.

Lemma NoDup_keys_strip (object : list (string * value)) :
  NoDup (keys object) -> NoDup (keys (strip object)).
Proof.
  unfold keys, strip. induction object as [|[k v] r IH]; simpl; intros H.
  - constructor.
  - inversion H as [|? ? Hk Hr]; subst.
    destruct (negb (known k)); simpl; [|exact (IH Hr)].
    constructor; [|exact (IH Hr)].
    intros Hin. apply Hk. apply in_map_iff in Hin.
    destruct Hin as ([k' v'] & <- & Hin). apply filter_In in Hin.
    apply in_map_iff. exists (k', v'). split; [reflexivity|apply Hin].
Qed.

Lemma rebuilt_injected (source : option Entity.LearningObject.t)
    (object : list (string * value)) (o : Entity.LearningOutcome.t) :
  rebuilt levels verbs AssessmentPlan_instantiate
    InstructionalStrategy_instantiate source object = Ok o ->
  Entity.LearningOutcome.injected o = [].
Proof.
  unfold rebuilt, Entity.LearningOutcome_constructor.
  destruct source as [src|]; [|discriminate]. simpl.
  destruct (Array_from_entry_0 verbs (Array_from_0 levels)); simpl;
    [|discriminate].
  destruct (Array_map _ (prop object "_assessments")); simpl; [|discriminate].
  destruct (Array_map _ (prop object "_strategies")); simpl; [|discriminate].
  intros H. injection H as <-. reflexivity.
Qed.

(** An assignment to a key other than [__proto__] is followed by the
    embedding, whatever it throws. *)
Lemma assign_modelled (k : string) (v : value) (o : Entity.LearningOutcome.t)
    (e : exn) :
  k <> "__proto__" ->
  Entity.LearningOutcome_assign levels verbs k v o = Throw e ->
  e <> Unmodelled.
Proof.
  intros Hk. unfold Entity.LearningOutcome_assign.
  destruct (String.eqb_spec k "__proto__") as [E|_]; [contradiction|].
  destruct (existsb (String.eqb k) Entity.getter_only); [congruence|].
  destruct (k =? "bloom")%string.
  { unfold Entity.LearningOutcome_set_bloom.
    destruct (Set_has levels v); congruence. }
  destruct (k =? "verb")%string.
  { unfold Entity.LearningOutcome_set_verb.
    destruct (index verbs (Entity.LearningOutcome._bloom o)) as [set|];
      [destruct (Set_has set v)|]; congruence. }
  destruct (k =? "text")%string; [discriminate|].
  destruct (k =? "_source")%string; discriminate.
Qed.

(** A key with only a getter stops the copy loop, and among keys other than
    [__proto__] the embedding follows the loop to the exception. *)
Lemma fold_getter_only (ps : list (string * value)) (k : string)
    (ks : list string) (o : Entity.LearningOutcome.t) :
  In k ks -> existsb (String.eqb k) Entity.getter_only = true ->
  ~ In "__proto__" ks ->
  exists e,
    fold_left
      (fun acc key =>
         outcome <- acc ;;
         Entity.LearningOutcome_assign levels verbs key (prop ps key) outcome)
      ks (Ok o) = Throw e /\ e <> Unmodelled.
Proof using levels verbs.
  intros Hin Hg. revert o. induction ks as [|k' ks IH]; intros o Hp;
    [destruct Hin|].
  simpl.
  destruct (Entity.LearningOutcome_assign levels verbs k' (prop ps k') o)
    as [o1|e1] eqn:E.
  - destruct Hin as [->|Hin].
    + unfold Entity.LearningOutcome_assign in E. rewrite Hg in E.
      destruct (String.eqb_spec k "__proto__") as [Ek|_]; [|discriminate].
      exfalso. apply Hp. left. exact Ek.
    + apply IH; [exact Hin|]. intros Hks. apply Hp. right. exact Hks.
  - rewrite fold_assign_throw. exists e1. split; [reflexivity|].
    apply (assign_modelled k' (prop ps k') o); [|exact E].
    intros ->. apply Hp. left. reflexivity.
Qed.

End Injected.

(** X19.  When the keys of the object are distinct and those besides the
    seven known ones name no accessor of the class and are not [_source],
    [instantiate] copies them all: a call that returns leaves them, with
    their values and in their order, as the extra properties of the
    outcome and as what remains of the object; and a call that throws has
    thrown before any deletion and leaves the object as it was. *)
Theorem instantiate_copies_extra_properties
    (levels : list string) (verbs : list (string * list string))
    (AssessmentPlan_instantiate :
       Entity.LearningOutcome.t -> value -> result Entity.AssessmentPlan.t)
    (InstructionalStrategy_instantiate :
       Entity.LearningOutcome.t -> value ->
       result Entity.InstructionalStrategy.t)
    (source : option Entity.LearningObject.t)
    (object : list (string * value)) :
  NoDup (keys object) ->
  forallb plain (keys (strip object)) = true ->
  (forall outcome object',
      Entity.LearningOutcome_instantiate levels verbs
        AssessmentPlan_instantiate InstructionalStrategy_instantiate
        source object = (Ok outcome, object') ->
      Entity.LearningOutcome.injected outcome = strip object /\
      object' = strip object) /\
  (forall e object',
      Entity.LearningOutcome_instantiate levels verbs
        AssessmentPlan_instantiate InstructionalStrategy_instantiate
        source object = (Throw e, object') ->
      object' = object).
Proof.
  intros Hnd Hplain. rewrite instantiate_unfold.
  destruct (rebuilt levels verbs AssessmentPlan_instantiate
              InstructionalStrategy_instantiate source object) as [o|e0] eqn:E.
  - unfold copy_injected. rewrite (fold_plain _ _ _ _ _ Hplain).
    rewrite (rebuilt_injected _ _ _ _ _ _ _ E).
    pose proof (fold_set_prop [] (strip object)) as Hf. simpl in Hf.
    rewrite Hf by (apply NoDup_keys_strip, Hnd).
    split.
    + intros outcome object' H. injection H as <- <-. split; reflexivity.
    + intros e object' H. discriminate.
  - split.
    + intros outcome object' H. discriminate.
    + intros e object' H. injection H as _ <-. reflexivity.
Qed.

Lemma instantiate_copies_extra_properties_witness :
  exists outcome,
    Entity.LearningOutcome_instantiate Sample.levels Sample.verbs
      Sample.AssessmentPlan_instantiate
      Sample.InstructionalStrategy_instantiate
      (Some Sample.object) Sample.properties
    = (Ok outcome, [("id", VStr "abc"); ("note", VNum 1)]) /\
    Entity.LearningOutcome.injected outcome
    = [("id", VStr "abc"); ("note", VNum 1)].
Proof.
  eexists. split; [reflexivity|].
  assert (Hnd : NoDup (keys Sample.properties)).
  { repeat constructor; simpl; intuition discriminate. }
  exact (proj1 (proj1 (instantiate_copies_extra_properties Sample.levels
                         Sample.verbs Sample.AssessmentPlan_instantiate
                         Sample.InstructionalStrategy_instantiate
                         (Some Sample.object) Sample.properties Hnd eq_refl)
                  _ _ eq_refl)).
Defined.

(** X20.  An object that has a property named like one of the accessors
    without a setter ([source], [tag], [mappings], [assessments],
    [strategies], [author], [name], [date], [outcome]), and none named
    [__proto__], cannot be instantiated: every call with it throws, and
    unless it threw before the deletions the object has lost its known
    properties all the same, the exception being one of the copy loop. *)
Theorem getter_named_property_blocks_instantiate
    (levels : list string) (verbs : list (string * list string))
    (AssessmentPlan_instantiate :
       Entity.LearningOutcome.t -> value -> result Entity.AssessmentPlan.t)
    (InstructionalStrategy_instantiate :
       Entity.LearningOutcome.t -> value ->
       result Entity.InstructionalStrategy.t)
    (source : option Entity.LearningObject.t)
    (object : list (string * value)) (k : string) :
  In k (keys object) ->
  In k Entity.getter_only ->
  ~ In "__proto__" (keys object) ->
  exists e,
    fst (Entity.LearningOutcome_instantiate levels verbs
           AssessmentPlan_instantiate InstructionalStrategy_instantiate
           source object) = Throw e /\
    (snd (Entity.LearningOutcome_instantiate levels verbs
            AssessmentPlan_instantiate InstructionalStrategy_instantiate
            source object) = object \/
     snd (Entity.LearningOutcome_instantiate levels verbs
            AssessmentPlan_instantiate InstructionalStrategy_instantiate
            source object) = strip object /\
     e <> Unmodelled).
Proof.
  intros Hin Hg Hproto. rewrite instantiate_unfold.
  destruct (rebuilt levels verbs AssessmentPlan_instantiate
              InstructionalStrategy_instantiate source object) as [o|e0].
  - assert (Hk : In k (keys (strip object))).
    { unfold keys, strip in *. apply in_map_iff in Hin.
      destruct Hin as ([k' v] & <- & Hin). apply in_map_iff.
      exists (k', v). split; [reflexivity|]. apply filter_In.
      split; [exact Hin|]. simpl in Hg. simpl.
      decompose [or] Hg; subst; try reflexivity; contradiction. }
    assert (Hg' : existsb (String.eqb k) Entity.getter_only = true).
    { apply existsb_exists. exists k. split; [exact Hg|apply String.eqb_refl]. }
    assert (Hp : ~ In "__proto__" (keys (strip object))).
    { intros Hs. apply Hproto. unfold keys, strip in *.
      apply in_map_iff in Hs. destruct Hs as (p & Ep & Hs).
      apply filter_In in Hs. apply in_map_iff. exists p.
      split; [exact Ep|apply Hs]. }
    destruct (fold_getter_only levels verbs (strip object) k
                (keys (strip object)) o Hk Hg' Hp) as (e & He & Hm).
    exists e. unfold copy_injected. simpl. rewrite He. split; [reflexivity|].
    right. split; [reflexivity|exact Hm].
  - exists e0. split; [reflexivity|]. left. reflexivity.
Qed.

Lemma getter_named_property_blocks_instantiate_witness :
  exists e,
    fst (Entity.LearningOutcome_instantiate Sample.levels Sample.verbs
           Sample.AssessmentPlan_instantiate
           Sample.InstructionalStrategy_instantiate
           (Some Sample.object)
           (Sample.properties ++ [("name", VStr "Networks")]))
    = Throw e.
Proof.
  destruct (getter_named_property_blocks_instantiate Sample.levels
              Sample.verbs Sample.AssessmentPlan_instantiate
              Sample.InstructionalStrategy_instantiate (Some Sample.object)
              (Sample.properties ++ [("name", VStr "Networks")]) "name")
    as (e & He & _).
  - simpl. tauto.
  - simpl. tauto.
  - simpl. intuition discriminate.
  - exists e. exact He.
Defined.

End InjectedProperties.

(** ** The author of a learning outcome (lib/learning-outcome.ts) *)

Module OutcomeAuthor.
Import JS.
Local Open Scope list_scope.

(** X21.  The [author] getter of an outcome reads the [name] property of
    the author of the learning object the outcome was added to: for a
    learning object without an author ([null] or [undefined]) adding the
    outcome completes all the same, and it is the getter that throws a
    TypeError when it is read. *)
Theorem author_getter_needs_an_author
    (levels : list string) (verbs : list (string * list string))
    (o o1 : Entity.LearningObject.t) (outcome : Entity.LearningOutcome.t) :
  Entity.LearningObject_addOutcome levels verbs o = Ok (outcome, o1) ->
  Entity.LearningOutcome_author outcome
  = get (Entity.LearningObject._author o) "name" /\
  (Entity.LearningObject._author o = VNull \/
   Entity.LearningObject._author o = VUndefined ->
   Entity.LearningOutcome_author outcome = Throw TypeError) /\
  (forall ps,
      Entity.LearningObject._author o = VObj ps ->
      Entity.LearningOutcome_author outcome = Ok (prop ps "name")).
Proof.
  unfold Entity.LearningObject_addOutcome, Entity.LearningOutcome_constructor.
  simpl. destruct (Array_from_entry_0 verbs (Array_from_0 levels)); simpl;
    [|discriminate].
  intros H. injection H as <- _.
  unfold Entity.LearningOutcome_author. simpl.
  split; [reflexivity|]. split.
  - intros [->| ->]; reflexivity.
  - intros ps ->. reflexivity.
Qed.

Lemma author_getter_needs_an_author_witness :
  exists outcome o1,
    Entity.LearningObject_addOutcome Sample.levels Sample.verbs
      (Entity.LearningObject_constructor Sample.lengths VNull VUndefined)
    = Ok (outcome, o1) /\
    Entity.LearningOutcome_author outcome = Throw TypeError.
Proof.
  eexists. eexists. split; [reflexivity|].
  apply (proj1 (proj2 (author_getter_needs_an_author Sample.levels
                         Sample.verbs
                         (Entity.LearningObject_constructor Sample.lengths
                            VNull VUndefined) _ _ eq_refl))).
  left. reflexivity.
Defined.

End OutcomeAuthor.

(* ===================================================================== *)
(** * The later class LearningObject                                     *)
(* ===================================================================== *)

Module LaterObjectFacts.
Import JS Objects ObjectFacts SpliceFacts.
Import LearningObject.
Local Open Scope list_scope.

(** Where [===] holds the two values are the same. *)
Lemma strict_equals_eq (a b : value) : strict_equals a b = true -> a = b.
Proof.
  destruct a, b; simpl; try discriminate; intros H; try reflexivity.
  - apply Bool.eqb_prop in H. congruence.
  - apply Z.eqb_eq in H. congruence.
  - apply String.eqb_eq in H. congruence.
Qed.

Lemma includes_In (a : list value) (v : value) :
  Array_includes a v = true -> In v a.
Proof.
  unfold Array_includes. intros H. apply existsb_exists in H.
  destruct H as (x & Hx & E). apply strict_equals_eq in E. subst. exact Hx.
Qed.

Lemma In_includes (a : list value) (s : string) :
  In (VStr s) a -> Array_includes a (VStr s) = true.
Proof.
  intros H. apply existsb_exists. exists (VStr s).
  split; [exact H|]. simpl. apply String.eqb_refl.
Qed.

Lemma valid_level_string (level : value) :
  In level validLevels -> exists s, level = VStr s.
Proof.
  unfold validLevels. intros H. apply in_map_iff in H.
  destruct H as (kv & <- & _). eauto.
Qed.

(** The levels of an object are in order: there is one at least, none
    twice, and each is a value of the enum AcademicLevel. *)
Definition levels_ok (o : LearningObject.t) : Prop :=
  _levels o <> [] /\ NoDup (_levels o) /\
  Forall (fun level => In level validLevels) (_levels o).

(** A computation that completes has completed in its parts. *)
Lemma bindM_Ok {A B : Type} (c : M A) (k : A -> M B) (n : nat) (b : B)
    (n' : nat) :
  bindM c k n = Ok (b, n') ->
  exists a m, c n = Ok (a, m) /\ k a m = Ok (b, n').
Proof.
  unfold bindM. destruct (c n) as [[a m]|e]; [|discriminate].
  intros H. exists a, m. split; [reflexivity|exact H].
Qed.

Lemma lift_Ok {A : Type} (r : result A) (n : nat) (a : A) (m : nat) :
  lift r n = Ok (a, m) -> r = Ok a /\ m = n.
Proof.
  unfold lift. destruct r; [|discriminate].
  intros H. injection H as -> ->. split; reflexivity.
Qed.

(** What holds of the object and the clock before a loop and is kept by
    each of its rounds holds after it. *)
Lemma foldM_invariant {A S : Type} (P : S -> nat -> Prop) (f : A -> S -> M S) :
  (forall a s k s' k', P s k -> f a s k = Ok (s', k') -> P s' k') ->
  forall l s k s' k', P s k -> foldM f l s k = Ok (s', k') -> P s' k'.
Proof.
  intros Hf. induction l as [|a l IH]; intros s k s' k' HP H.
  - injection H as <- <-. exact HP.
  - cbn [foldM] in H. apply bindM_Ok in H. destruct H as (s1 & k1 & H1 & H).
    exact (IH _ _ _ _ (Hf _ _ _ _ _ HP H1) H).
Qed.

Lemma Array_map_this_invariant {S : Type} (P : S -> nat -> Prop)
    (f : value -> S -> M S) :
  (forall a s k s' k', P s k -> f a s k = Ok (s', k') -> P s' k') ->
  forall v s k s' k', P s k -> Array_map_this f v s k = Ok (s', k') -> P s' k'.
Proof.
  intros Hf v s k s' k' HP H.
  destruct v; try discriminate H.
  exact (foldM_invariant P f Hf _ _ _ _ _ HP H).
Qed.

Section Later.
Variable levels : list string.
Variable verbs : list (string * list string).
Variable now : nat -> Z.
Variable User_constructor : result value.
Variable LearningGoal_constructor : value -> result value.

(** The date is the reading of the clock made last. *)
Definition stamped (o : LearningObject.t) (k : nat) : Prop :=
  exists j, k = S j /\ _date o = stamp (now j).

(** [addLevel] completes for a level of the enum that the object has not:
    it appends the level and stamps the date. *)
Lemma addLevel_Ok (level : value) (o o' : LearningObject.t) (n n' : nat) :
  LearningObject_addLevel now level o n = Ok (o', n') ->
  ~ In level (_levels o) /\ In level validLevels /\
  o' = with_date (stamp (now n)) (with_levels (_levels o ++ [level]) o) /\
  n' = S n.
Proof.
  unfold LearningObject_addLevel, acceptLevel.
  destruct (Array_includes (_levels o) level) eqn:Ea;
    [intros H; discriminate H|].
  destruct (Array_includes validLevels level) eqn:Ev;
    [|intros H; discriminate H].
  cbn [negb andb]. rewrite updateDate_run. intros H. injection H as <- <-.
  apply includes_In in Ev.
  repeat split; try reflexivity; try exact Ev.
  intros Hin. destruct (valid_level_string _ Ev) as (s & ->).
  rewrite (In_includes _ _ Hin) in Ea. discriminate Ea.
Qed.

Lemma addLevel_levels_ok (level : value) (o o' : LearningObject.t)
    (n n' : nat) :
  levels_ok o ->
  LearningObject_addLevel now level o n = Ok (o', n') ->
  levels_ok o'.
Proof.
  intros (Hne & Hnd & Hall) H.
  apply addLevel_Ok in H. destruct H as (Hnew & Hv & -> & _).
  unfold levels_ok. cbn [_levels with_date with_levels].
  split; [|split].
  - destruct (_levels o); [contradiction|discriminate].
  - apply NoDup_app; [exact Hnd|constructor; [intros []|constructor]|].
    intros x Hx [<-|[]]. exact (Hnew Hx).
  - apply Forall_app. split; [exact Hall|]. constructor; [exact Hv|constructor].
Qed.

Lemma removeLevel_Ok (index : Z) (o o' : LearningObject.t) (x : option value)
    (n n' : nat) :
  LearningObject_removeLevel now index o n = Ok (x, o', n') ->
  (2 <= List.length (_levels o))%nat /\
  x = fst (splice1 index (_levels o)) /\
  o' = with_levels (snd (splice1 index (_levels o)))
         (with_date (stamp (now n)) o) /\
  n' = S n.
Proof.
  unfold LearningObject_removeLevel.
  destruct (Z.ltb_spec 1 (Z.of_nat (List.length (_levels o))));
    [|intros H0; discriminate H0].
  unfold bindM. rewrite updateDate_run.
  cbn [_levels with_date].
  destruct (splice1 index (_levels o)) as [y a]. intros H0.
  injection H0 as <- <- <-. repeat split; try reflexivity. lia.
Qed.

Lemma splice1_length {A : Type} (i : Z) (a : list A) :
  (List.length a <= S (List.length (snd (splice1 i a))))%nat.
Proof.
  destruct (splice1_cases i a) as [->|(l1 & x & l2 & -> & ->)]; simpl.
  - lia.
  - rewrite !length_app. simpl. lia.
Qed.

(** The state a call leaves behind, as far as the levels and the date go:
    the levels are in order, the date is the last reading of the clock, and
    the clock has been read [n0] times at least. *)
Definition settled (n0 : nat) (o : LearningObject.t) (k : nat) : Prop :=
  levels_ok o /\ stamped o k /\ (n0 <= k)%nat.

Lemma settled_frame (n0 : nat) (o o' : LearningObject.t) (k : nat) :
  _levels o' = _levels o -> _date o' = _date o ->
  settled n0 o k -> settled n0 o' k.
Proof.
  intros Hl Hd (H1 & (j & Hj & H2) & H3). unfold settled, levels_ok, stamped.
  rewrite Hl, Hd. repeat split; try apply H1; try exact H3.
  exists j. split; assumption.
Qed.

Lemma settled_addLevel (n0 : nat) (level : value) (o o' : LearningObject.t)
    (k k' : nat) :
  settled n0 o k ->
  LearningObject_addLevel now level o k = Ok (o', k') -> settled n0 o' k'.
Proof.
  intros (H1 & H2 & H3) H. split; [|split].
  - exact (addLevel_levels_ok _ _ _ _ _ H1 H).
  - apply addLevel_Ok in H. destruct H as (_ & _ & -> & ->).
    exists k. split; reflexivity.
  - apply addLevel_Ok in H. destruct H as (_ & _ & _ & ->). lia.
Qed.

Lemma set_status_frame (status : value) (o o' : LearningObject.t) :
  LearningObject_set_status status o = Ok o' ->
  o' = with_status status o.
Proof.
  unfold LearningObject_set_status.
  destruct (acceptStatus status); [|discriminate].
  destruct (strict_equals _ _); [discriminate|].
  intros H. injection H as <-. reflexivity.
Qed.

(** [copyObject], where it completes, has assigned a name and a length and
    with them read the clock twice at least; it keeps the levels in order
    and leaves the date at the last reading. *)
Lemma copyObject_settled (object : value) (this o : LearningObject.t)
    (n n' : nat) :
  levels_ok this ->
  LearningObject_copyObject levels verbs now LearningGoal_constructor
    object this n = Ok (o, n') ->
  settled (S (S n)) o n'.
Proof.
  intros Hok H. unfold LearningObject_copyObject in H.
  apply bindM_Ok in H. destruct H as (author & m & Hx & H).
  apply lift_Ok in Hx. destruct Hx as [_ ->]. cbv beta zeta in H.
  apply bindM_Ok in H. destruct H as (name & m & Hx & H).
  apply lift_Ok in Hx. destruct Hx as [_ ->].
  apply bindM_Ok in H. destruct H as (this1 & m1 & H1 & H).
  apply bindM_Ok in H. destruct H as (date & m & Hx & H).
  apply lift_Ok in Hx. destruct Hx as [_ ->]. cbv beta zeta in H.
  apply bindM_Ok in H. destruct H as (length & m & Hx & H).
  apply lift_Ok in Hx. destruct Hx as [_ ->].
  apply bindM_Ok in H. destruct H as (this2 & m2 & H2 & H).
  (* the name *)
  assert (E1 : m1 = S n /\ _levels this1 = _levels this).
  { unfold LearningObject_set_name in H1.
    destruct (or_else name _); try discriminate H1.
    rewrite updateDate_run in H1. injection H1 as <- <-.
    split; reflexivity. }
  destruct E1 as [-> E1].
  (* the length *)
  assert (E2 : settled (S (S n)) this2 m2).
  { unfold LearningObject_set_length in H2.
    destruct (acceptLength _); [|discriminate H2].
    rewrite updateDate_run in H2. injection H2 as <- <-.
    split; [|split; [exists (S n); split; reflexivity|lia]].
    unfold levels_ok. cbn [_levels with_date with_length]. rewrite E1.
    exact Hok. }
  clear H1 H2 E1 Hok.
  (* the levels *)
  apply bindM_Ok in H. destruct H as (ls & m & Hx & H).
  apply lift_Ok in Hx. destruct Hx as [_ ->].
  apply bindM_Ok in H. destruct H as (this3 & m3 & H3 & H).
  apply (Array_map_this_invariant (settled (S (S n))) _
           (fun a s k s' k' HP HS => settled_addLevel _ a s s' k k' HP HS)
           _ _ _ _ _ E2) in H3.
  clear E2.
  (* the goals *)
  apply bindM_Ok in H. destruct H as (gs & m & Hx & H).
  apply lift_Ok in Hx. destruct Hx as [_ ->].
  apply bindM_Ok in H. destruct H as (this4 & m4 & H4 & H).
  apply (Array_map_this_invariant (settled (S (S n)))) with (2 := H3) in H4.
  2:{ intros goal s k s' k' HP HS. apply lift_Ok in HS.
      destruct HS as [HS ->].
      destruct (get goal "text") as [text|]; [|discriminate HS].
      cbn [bind] in HS. unfold LearningObject_addGoal in HS.
      destruct (LearningGoal_constructor text); [|discriminate HS].
      cbn [bind push] in HS. injection HS as <-.
      revert HP. apply settled_frame; reflexivity. }
  clear H3.
  (* the outcomes *)
  apply bindM_Ok in H. destruct H as (os & m & Hx & H).
  apply lift_Ok in Hx. destruct Hx as [_ ->].
  apply bindM_Ok in H. destruct H as (this5 & m5 & H5 & H).
  apply (Array_map_this_invariant (settled (S (S n)))) with (2 := H4) in H5.
  2:{ intros outcome s k s' k' HP HS. apply lift_Ok in HS.
      destruct HS as [HS ->]. unfold LearningObject_addOutcome in HS.
      destruct (ToBoolean outcome).
      - cbn [bind push] in HS. injection HS as <-.
        revert HP. apply settled_frame; reflexivity.
      - destruct (Outcomes.LearningOutcome_constructor levels verbs None);
          [|discriminate HS].
        cbn [bind push] in HS. injection HS as <-.
        revert HP. apply settled_frame; reflexivity. }
  clear H4.
  (* the materials and the children *)
  apply bindM_Ok in H. destruct H as (materials & m & Hx & H).
  apply lift_Ok in Hx. destruct Hx as [_ ->]. cbv beta zeta in H.
  apply bindM_Ok in H. destruct H as (cs & m & Hx & H).
  apply lift_Ok in Hx. destruct Hx as [_ ->].
  apply bindM_Ok in H. destruct H as (this6 & m6 & H6 & H).
  apply (Array_map_this_invariant (settled (S (S n))))
    with (s := LearningObject_set_materials
                 (or_else materials (_materials this5)) this5) (k := m5)
    in H6.
  2:{ intros child s k s' k' HP HS. injection HS as <- <-.
      revert HP. apply settled_frame; reflexivity. }
  2:{ revert H5. apply settled_frame; reflexivity. }
  clear H5.
  (* the contributors *)
  apply bindM_Ok in H. destruct H as (us & m & Hx & H).
  apply lift_Ok in Hx. destruct Hx as [_ ->].
  apply bindM_Ok in H. destruct H as (this7 & m7 & H7 & H).
  apply (Array_map_this_invariant (settled (S (S n)))) with (2 := H6) in H7.
  2:{ intros user s k s' k' HP HS. injection HS as <- <-.
      revert HP. apply settled_frame; reflexivity. }
  clear H6.
  (* the collection, the status and what follows *)
  apply bindM_Ok in H. destruct H as (collection & m & Hx & H).
  apply lift_Ok in Hx. destruct Hx as [_ ->]. cbv beta zeta in H.
  apply bindM_Ok in H. destruct H as (status & m & Hx & H).
  apply lift_Ok in Hx. destruct Hx as [_ ->].
  apply bindM_Ok in H. destruct H as (this8 & m8 & H8 & H).
  apply lift_Ok in H8. destruct H8 as [H8 ->].
  apply set_status_frame in H8. subst this8.
  apply bindM_Ok in H. destruct H as (metrics & m & Hx & H).
  apply lift_Ok in Hx. destruct Hx as [_ ->]. cbv beta zeta in H.
  apply bindM_Ok in H. destruct H as (published & m & Hx & H).
  apply lift_Ok in Hx. destruct Hx as [_ ->]. cbv beta zeta in H.
  apply bindM_Ok in H. destruct H as (lock & m & Hx & H).
  apply lift_Ok in Hx. destruct Hx as [_ ->].
  injection H as <- <-.
  revert H7. apply settled_frame; reflexivity.
Qed.

(** A loop of [addLevel] over levels among which is one the object has
    already does not complete: it throws at that level or before it. *)
Lemma foldM_addLevel_known (s : string) (l : list value) :
  In (VStr s) l ->
  forall this k,
    In (VStr s) (_levels this) ->
    exists level,
      In level l /\
      (foldM (LearningObject_addLevel now) l this k
       = Throw (ThrowError (LearningObjectError
                  (LEARNING_OBJECT_ERRORS.LEVEL_EXISTS level)))
       \/ foldM (LearningObject_addLevel now) l this k
          = Throw (ThrowError (LearningObjectError
                     (LEARNING_OBJECT_ERRORS.INVALID_LEVEL level)))).
Proof.
  induction l as [|a l IH]; intros Hin this k Hthis; [destruct Hin|].
  cbn [foldM]. unfold bindM.
  destruct (LearningObject_addLevel now a this k) as [[this' k']|e] eqn:E.
  - apply addLevel_Ok in E. destruct E as (Hnew & _ & -> & ->).
    destruct Hin as [->|Hin]; [contradiction|].
    destruct (IH Hin (with_date (stamp (now k))
                        (with_levels (_levels this ++ [a]) this)) (S k))
      as (level & Hl & Hr).
    { cbn [_levels with_date with_levels]. apply in_or_app. left.
      exact Hthis. }
    exists level. split; [right; exact Hl|exact Hr].
  - exists a. split; [left; reflexivity|].
    unfold LearningObject_addLevel, acceptLevel in E.
    destruct (Array_includes (_levels this) a);
      destruct (Array_includes validLevels a); cbn [negb andb] in E;
      try (rewrite updateDate_run in E; discriminate E);
      injection E as <-; auto.
Qed.

(** [copyObject] up to its loop over the levels. *)
Lemma copyObject_levels_throw (ps : list (string * value))
    (this : LearningObject.t) (s : string) (l : list value) (n : nat) :
  or_else (prop ps "name") (_name this) = VStr s ->
  acceptLength (or_else (prop ps "length") (_length this)) = true ->
  prop ps "levels" = VArr l ->
  exists this2,
    _levels this2 = _levels this /\
    forall e,
      foldM (LearningObject_addLevel now) l this2 (S (S n)) = Throw e ->
      LearningObject_copyObject levels verbs now LearningGoal_constructor
        (VObj ps) this n = Throw e.
Proof.
  intros Hn Hl Hls. eexists. split; cycle 1.
  - intros e He.
    unfold LearningObject_copyObject, bindM, lift, get.
    cbn [LearningObject_name LearningObject_length LearningObject_date
           _name with_author].
    rewrite Hn, name_assigned.
    cbn [_length with_date with_name with_author].
    rewrite length_assigned by exact Hl.
    rewrite Hls. cbn [Array_map_this].
    rewrite He. reflexivity.
  - reflexivity.
Qed.

Lemma initial_levels_ok (author : value) (t : Z) :
  levels_ok (initial author t).
Proof.
  split; [discriminate|]. split.
  - constructor; [intros []|constructor].
  - constructor; [|constructor]. vm_compute. tauto.
Qed.

(** [instantiate], where it completes. *)
Lemma instantiate_settled (object : value) (o : LearningObject.t) (n n' : nat) :
  LearningObject_instantiate levels verbs now User_constructor
    LearningGoal_constructor object n = Ok (o, n') ->
  settled (S (S (S n))) o n' /\
  (ToBoolean object = true -> (S (S (S (S (S n)))) <= n')%nat).
Proof.
  unfold LearningObject_instantiate. intros H.
  assert (Hu : exists author, User_constructor = Ok author).
  { unfold LearningObject_constructor in H. apply bindM_Ok in H.
    destruct H as (author & m & Hx & _). apply lift_Ok in Hx.
    destruct Hx as [Hx _]. exists author. exact Hx. }
  destruct Hu as (author & Hu).
  rewrite (constructor_defaults _ _ _ _ _ _ author n Hu) in H.
  destruct (ToBoolean object).
  - apply copyObject_settled in H; [|apply initial_levels_ok].
    destruct H as (H1 & H2 & H3).
    split; [|intros _; exact H3].
    split; [exact H1|]. split; [exact H2|lia].
  - injection H as <- <-. split; [|discriminate].
    split; [apply initial_levels_ok|].
    split; [exists (S (S n)); split; reflexivity|lia].
Qed.

End Later.

End LaterObjectFacts.

(** ** Levels, status and date of the later LearningObject
       (.circleci/config.yml) *)

Module LaterObject.
Import JS Objects ObjectFacts SpliceFacts LaterObjectFacts.
Import LearningObject.
Local Open Scope list_scope.

(** X22.  The levels of a LearningObject of the later class stay in order
    (one at least, none twice, each a value of the enum AcademicLevel): they
    are in order in every object [instantiate] returns; [addLevel]
    completes exactly for a level of the enum that the object has not, and
    appends it; it throws LEVEL_EXISTS for a string the object has and
    INVALID_LEVEL for a value outside the enum; [removeLevel] completes
    exactly when the object has two levels or more, removes what [splice]
    removes and leaves the levels in order; with one level or none it
    throws INVALID_LEVELS. *)
Theorem levels_stay_in_order
    (levels : list string) (verbs : list (string * list string))
    (now : nat -> Z) (User_constructor : result value)
    (LearningGoal_constructor : value -> result value) :
  (forall object n o n',
     LearningObject_instantiate levels verbs now User_constructor
       LearningGoal_constructor object n = Ok (o, n') ->
     levels_ok o)
  /\ (forall level o n,
        In level validLevels -> ~ In level (_levels o) ->
        LearningObject_addLevel now level o n
        = Ok (with_date (stamp (now n))
                (with_levels (_levels o ++ [level]) o), S n))
  /\ (forall level o n o' n',
        levels_ok o ->
        LearningObject_addLevel now level o n = Ok (o', n') ->
        In level validLevels /\ ~ In level (_levels o) /\ levels_ok o')
  /\ (forall s o n,
        In (VStr s) (_levels o) ->
        LearningObject_addLevel now (VStr s) o n
        = Throw (ThrowError (LearningObjectError
                   (LEARNING_OBJECT_ERRORS.LEVEL_EXISTS (VStr s)))))
  /\ (forall level o n,
        levels_ok o -> ~ In level validLevels ->
        LearningObject_addLevel now level o n
        = Throw (ThrowError (LearningObjectError
                   (LEARNING_OBJECT_ERRORS.INVALID_LEVEL level))))
  /\ (forall index o n,
        (2 <= List.length (_levels o))%nat ->
        LearningObject_removeLevel now index o n
        = Ok (fst (splice1 index (_levels o)),
              with_levels (snd (splice1 index (_levels o)))
                (with_date (stamp (now n)) o), S n))
  /\ (forall index o n x o' n',
        levels_ok o ->
        LearningObject_removeLevel now index o n = Ok (x, o', n') ->
        levels_ok o')
  /\ (forall index o n,
        (List.length (_levels o) <= 1)%nat ->
        LearningObject_removeLevel now index o n
        = Throw (ThrowError (LearningObjectError
                   LEARNING_OBJECT_ERRORS.INVALID_LEVELS))).
Proof.
  repeat apply conj.
  - intros object n o n' H.
    apply instantiate_settled in H. exact (proj1 (proj1 H)).
  - intros level o n Hv Hnew.
    unfold LearningObject_addLevel, acceptLevel.
    destruct (Array_includes (_levels o) level) eqn:Ea.
    + apply includes_In in Ea. contradiction.
    + destruct (valid_level_string _ Hv) as (s & ->).
      rewrite (In_includes _ _ Hv). reflexivity.
  - intros level o n o' n' Hok H.
    pose proof (addLevel_levels_ok now _ _ _ _ _ Hok H) as Hok'.
    apply addLevel_Ok in H. destruct H as (Hnew & Hv & _).
    split; [exact Hv|]. split; [exact Hnew|exact Hok'].
  - intros s o n Hin.
    unfold LearningObject_addLevel, acceptLevel.
    rewrite (In_includes _ _ Hin).
    destruct (Array_includes validLevels (VStr s)); reflexivity.
  - intros level o n (_ & _ & Hall) Hv.
    unfold LearningObject_addLevel, acceptLevel.
    destruct (Array_includes (_levels o) level) eqn:Ea.
    + apply includes_In in Ea. rewrite Forall_forall in Hall.
      elim Hv. exact (Hall _ Ea).
    + destruct (Array_includes validLevels level) eqn:Ev; [|reflexivity].
      apply includes_In in Ev. contradiction.
  - intros index o n Hlen.
    unfold LearningObject_removeLevel.
    destruct (Z.ltb_spec 1 (Z.of_nat (List.length (_levels o)))); [|lia].
    unfold bindM. rewrite updateDate_run. cbn [_levels with_date].
    destruct (splice1 index (_levels o)); reflexivity.
  - intros index o n x o' n' (Hne & Hnd & Hall) H.
    apply removeLevel_Ok in H. destruct H as (Hlen & _ & -> & _).
    unfold levels_ok. cbn [_levels with_levels].
    split; [|split].
    + pose proof (splice1_length index (_levels o)) as Hs.
      intros E. rewrite E in Hs. simpl in Hs. lia.
    + exact (TagInvariants.NoDup_splice1 _ _ Hnd).
    + exact (ObjectInvariants.Forall_splice1 _ _ _ Hall).
  - intros index o n Hlen.
    unfold LearningObject_removeLevel.
    destruct (Z.ltb_spec 1 (Z.of_nat (List.length (_levels o)))); [lia|].
    reflexivity.
Qed.

Lemma levels_stay_in_order_witness :
  In (VStr "training") validLevels /\
  ~ In (VStr "training") (_levels Sample.later_object) /\
  _levels (with_date (stamp (Sample.now 7))
             (with_levels (_levels Sample.later_object ++ [VStr "training"])
                Sample.later_object))
  = [VStr "undergraduate"; VStr "graduate"; VStr "training"] /\
  LearningObject_addLevel Sample.now (VStr "training") Sample.later_object
    7%nat
  = Ok (with_date (stamp (Sample.now 7))
          (with_levels (_levels Sample.later_object ++ [VStr "training"])
             Sample.later_object), 8%nat).
Proof.
  assert (Hv : In (VStr "training") validLevels) by (vm_compute; tauto).
  assert (Hnew : ~ In (VStr "training") (_levels Sample.later_object)).
  { intros [H|[H|[]]]; discriminate H. }
  split; [exact Hv|]. split; [exact Hnew|]. split; [reflexivity|].
  exact (proj1 (proj2 (levels_stay_in_order Sample.levels Sample.verbs
                         Sample.now Sample.User_constructor
                         Sample.LearningGoal_constructor))
           (VStr "training") Sample.later_object 7%nat Hv Hnew).
Defined.




(** X24.  [instantiate] of the later class dates the object it returns
    itself: whenever it completes, the date of the object is the reading of
    the clock the call made last, whatever [date] its argument has.  The
    call reads the clock three times at least, and five times at least when
    it has an argument to copy.  The readings are those of the class, by
    [updateDate] and by the constructor. *)
Theorem instantiate_stamps_the_date
    (levels : list string) (verbs : list (string * list string))
    (now : nat -> Z) (User_constructor : result value)
    (LearningGoal_constructor : value -> result value)
    (object : value) (n : nat) (o : LearningObject.t) (n' : nat) :
  LearningObject_instantiate levels verbs now User_constructor
    LearningGoal_constructor object n = Ok (o, n') ->
  exists j,
    n' = S j /\ (n + 2 <= j)%nat /\
    (ToBoolean object = true -> (n + 4 <= j)%nat) /\
    LearningObject_date o = stamp (now j).
Proof.
  intros H. apply instantiate_settled in H.
  destruct H as ((_ & (j & -> & Hd) & Hn) & Ho).
  exists j. split; [reflexivity|]. split; [lia|].
  split; [intros Hb; specialize (Ho Hb); lia|exact Hd].
Qed.

Lemma instantiate_stamps_the_date_witness :
  exists o,
    LearningObject_instantiate Sample.levels Sample.verbs Sample.now
      Sample.User_constructor Sample.LearningGoal_constructor
      (VObj [("name", VStr "Networks"); ("date", VStr "1500000000000");
             ("levels", VArr [VStr "graduate"]); ("goals", VArr []);
             ("outcomes", VArr []); ("children", VArr []);
             ("contributors", VArr [])]) 0%nat = Ok (o, 6%nat) /\
    LearningObject_date o = VStr "1541030400005".
Proof.
  set (object := VObj [("name", VStr "Networks");
                       ("date", VStr "1500000000000");
                       ("levels", VArr [VStr "graduate"]); ("goals", VArr []);
                       ("outcomes", VArr []); ("children", VArr []);
                       ("contributors", VArr [])]).
  assert (H : exists o,
            LearningObject_instantiate Sample.levels Sample.verbs Sample.now
              Sample.User_constructor Sample.LearningGoal_constructor
              object 0%nat = Ok (o, 6%nat))
    by (eexists; vm_compute; reflexivity).
  destruct H as (o & H). exists o. split; [exact H|].
  destruct (instantiate_stamps_the_date Sample.levels Sample.verbs Sample.now
              Sample.User_constructor Sample.LearningGoal_constructor
              object 0%nat o 6%nat H) as (j & Hj & _ & _ & Hd).
  injection Hj as <-. exact Hd.
Defined.

(** X25.  [instantiate] of the later class does not take an object that
    names a level the new object has already.  The constructor gives the
    new object the level [undergraduate] before it copies; so for every
    argument with a name and a length the setters take and with
    [undergraduate] among its levels the call throws, LEVEL_EXISTS or
    INVALID_LEVEL, at one of the levels of the argument; with
    [undergraduate] as the first of them it throws LEVEL_EXISTS for it. *)
Theorem instantiate_refuses_the_default_level
    (levels : list string) (verbs : list (string * list string))
    (now : nat -> Z) (User_constructor : result value)
    (LearningGoal_constructor : value -> result value)
    (ps : list (string * value)) (author : value) (s : string)
    (l : list value) (n : nat) :
  User_constructor = Ok author ->
  or_else (prop ps "name") (VStr "") = VStr s ->
  acceptLength (or_else (prop ps "length") (VStr "nanomodule")) = true ->
  prop ps "levels" = VArr l ->
  In (VStr "undergraduate") l ->
  (exists level,
     In level l /\
     (LearningObject_instantiate levels verbs now User_constructor
        LearningGoal_constructor (VObj ps) n
      = Throw (ThrowError (LearningObjectError
                 (LEARNING_OBJECT_ERRORS.LEVEL_EXISTS level)))
      \/ LearningObject_instantiate levels verbs now User_constructor
           LearningGoal_constructor (VObj ps) n
         = Throw (ThrowError (LearningObjectError
                    (LEARNING_OBJECT_ERRORS.INVALID_LEVEL level)))))
  /\ (forall rest,
        l = VStr "undergraduate" :: rest ->
        LearningObject_instantiate levels verbs now User_constructor
          LearningGoal_constructor (VObj ps) n
        = Throw (ThrowError (LearningObjectError
                   (LEARNING_OBJECT_ERRORS.LEVEL_EXISTS
                      (VStr "undergraduate"))))).
Proof.
  intros Hu Hn Hl Hls Hin. unfold LearningObject_instantiate.
  rewrite (constructor_defaults _ _ _ _ _ _ author n Hu).
  cbn [ToBoolean].
  destruct (copyObject_levels_throw levels verbs now LearningGoal_constructor
              ps (initial author (now (S (S n)))) s l (S (S (S n))) Hn Hl Hls)
    as (this2 & Hlevels & Hthrow).
  assert (Hhas : In (VStr "undergraduate") (_levels this2))
    by (rewrite Hlevels; left; reflexivity).
  split.
  - destruct (foldM_addLevel_known now "undergraduate" l Hin this2
                (S (S (S (S (S n))))) Hhas) as (level & Hlevel & [H|H]);
      exists level; (split; [exact Hlevel|]);
      [left|right]; exact (Hthrow _ H).
  - intros rest ->. apply Hthrow. cbn [foldM]. unfold bindM.
    unfold LearningObject_addLevel, acceptLevel.
    rewrite (In_includes _ _ Hhas). reflexivity.
Qed.

Lemma instantiate_refuses_the_default_level_witness :
  LearningObject_instantiate Sample.levels Sample.verbs Sample.now
    Sample.User_constructor Sample.LearningGoal_constructor
    (VObj [("name", VStr "Networks"); ("length", VStr "module");
           ("levels", VArr [VStr "undergraduate"; VStr "graduate"]);
           ("goals", VArr []); ("outcomes", VArr []); ("children", VArr []);
           ("contributors", VArr [])]) 0%nat
  = Throw (ThrowError (LearningObjectError
             (LEARNING_OBJECT_ERRORS.LEVEL_EXISTS (VStr "undergraduate")))).
Proof.
  set (ps := [("name", VStr "Networks"); ("length", VStr "module");
              ("levels", VArr [VStr "undergraduate"; VStr "graduate"]);
              ("goals", VArr []); ("outcomes", VArr []); ("children", VArr []);
              ("contributors", VArr [])]).
  assert (Hin : In (VStr "undergraduate")
                  [VStr "undergraduate"; VStr "graduate"])
    by (left; reflexivity).
  exact (proj2 (instantiate_refuses_the_default_level Sample.levels
                  Sample.verbs Sample.now Sample.User_constructor
                  Sample.LearningGoal_constructor ps _ "Networks"
                  [VStr "undergraduate"; VStr "graduate"] 0%nat
                  eq_refl eq_refl eq_refl eq_refl Hin) _ eq_refl).
Defined.

End LaterObject.
